(** * Struggle-detection pipeline: signal extraction, score aggregation,
      tutor alerts.

    A shallow embedding of [src/services/StruggleScoringService.js] (which
    holds both [StruggleScoringService] and [StruggleSignalService]) and
    [src/services/TutorAlertService.js], together with the Mongoose models
    they read and write.

    Conventions of the embedding:
    - JavaScript numbers are exact rationals ([Q]); [NaN] and the infinities
      are not represented.  Timestamps are integer milliseconds ([Z]).
      The code computes in binary floating point: where an exact value
      falls on a tie of [Math.round], or on the boundary of a comparison
      with a computed bound, the code may land on the other side.
      Properties about rounding and about the trend are therefore stated
      with a margin around such ties.
    - ObjectIds are natural numbers.
    - A field that may be absent, [null] or a string is a [Js.value].
    - Strings are ASCII; [toLowerCase] folds the letters A-Z only.
    - The database is a [World] record, threaded explicitly.  [Date.now()]
      reads an oracle [clock] at the current [tick] and advances the tick, so
      that consecutive reads inside one call may return different instants.
    - Documents carry the fields their schema declares plus [_id] and
      [createdAt]; the storage library's own bookkeeping fields are not
      modelled. *)

From Stdlib Require Import ZArith QArith Qround Lqa Lia List String Ascii Bool.
From stdpp Require Import base gmap strings list.

Set Default Proof Using "Type".

(** ** JavaScript values and primitives *)

Module Js.

(** A property that is absent, [null], or holds a string. *)
Inductive value : Type :=
| Undefined
| Null
| Str (s : string).

(** Truthiness: [undefined], [null] and the empty string are falsy. *)
Definition truthy (v : value) : bool :=
  match v with
  | Str s => negb (String.eqb s "")
  | _ => false
  end.

(** [v || d] where [d] is a string. *)
Definition or_default (v : value) (d : string) : string :=
  match v with
  | Str s => if String.eqb s "" then d else s
  | _ => d
  end.

(** [v !== s] for a string literal [s]. *)
Definition strict_neq (v : value) (s : string) : bool :=
  match v with
  | Str t => negb (String.eqb t s)
  | _ => true
  end.

(** Comparisons on numbers. *)
Definition leb (x y : Q) : bool := Qle_bool x y.
Definition ltb (x y : Q) : bool := negb (Qle_bool y x).
Definition geb (x y : Q) : bool := Qle_bool y x.
Definition gtb (x y : Q) : bool := negb (Qle_bool x y).

Definition Math_min (a b : Q) : Q := if Qle_bool a b then a else b.
Definition Math_max (a b : Q) : Q := if Qle_bool a b then b else a.

(** [Math.round] rounds to the nearest integer, halves towards +infinity. *)
Definition Math_round (x : Q) : Z := Qfloor (x + (1 # 2)).

(** [String.prototype.toLowerCase] on ASCII text. *)
Definition lower_ascii (c : ascii) : ascii :=
  let n := nat_of_ascii c in
  if (65 <=? n)%nat && (n <=? 90)%nat then ascii_of_nat (n + 32) else c.

Fixpoint toLowerCase (s : string) : string :=
  match s with
  | EmptyString => EmptyString
  | String c s' => String (lower_ascii c) (toLowerCase s')
  end.

(** [t.includes(m)]: [m] occurs in [t] as a contiguous substring. *)
Fixpoint includes (t m : string) : bool :=
  match t with
  | EmptyString => String.prefix m EmptyString
  | String _ t' => String.prefix m t || includes t' m
  end.

(** [s.replace(/_/g, " ")]. *)
Fixpoint replace_underscores (s : string) : string :=
  match s with
  | EmptyString => EmptyString
  | String c s' =>
      String (if Ascii.eqb c "_" then " "%char else c) (replace_underscores s')
  end.

(** [xs.join(sep)]. *)
Fixpoint join (sep : string) (xs : list string) : string :=
  match xs with
  | [] => EmptyString
  | [x] => x
  | x :: rest => x ++ sep ++ join sep rest
  end.

(** [xs.some(p)]. *)
Definition some {A} (p : A -> bool) (xs : list A) : bool := existsb p xs.

(** Stable insertion sort, used for [Array.prototype.sort] with a
    comparator and for the store's [.sort()] on one key. *)
Fixpoint insert_sorted {A} (le : A -> A -> bool) (x : A) (l : list A) : list A :=
  match l with
  | [] => [x]
  | y :: l' => if le x y then x :: y :: l' else y :: insert_sorted le x l'
  end.

Definition sort {A} (le : A -> A -> bool) (l : list A) : list A :=
  fold_right (insert_sorted le) [] l.

(** [String.prototype.trim] on ASCII text: space, tab, line feed, vertical
    tab, form feed and carriage return are white space. *)
Definition is_space (c : ascii) : bool :=
  let n := nat_of_ascii c in
  (n =? 32)%nat || ((9 <=? n)%nat && (n <=? 13)%nat).

Fixpoint trimStart (s : string) : string :=
  match s with
  | EmptyString => EmptyString
  | String c s' => if is_space c then trimStart s' else s
  end.

Fixpoint trimEnd (s : string) : string :=
  match s with
  | EmptyString => EmptyString
  | String c s' =>
      match trimEnd s' with
      | EmptyString => if is_space c then EmptyString else String c EmptyString
      | rest => String c rest
      end
  end.

Definition trim (s : string) : string := trimEnd (trimStart s).

End Js.

(** ** Documents *)

Inductive SignalType : Type :=
| REPEATED_TOPIC
| FAILED_ATTEMPT
| LONG_RESPONSE_TIME
| NEGATIVE_SENTIMENT
| ENGAGEMENT_DROP
| HINT_DEPENDENCY.

Inductive Trend : Type := UP | DOWN | STABLE.
Inductive SupportLevel : Type := LOW | MEDIUM | HIGH.
Inductive Urgency : Type := SOFT | URGENT.

#[global] Instance SignalType_eq_dec : EqDecision SignalType.
Proof. solve_decision. Defined.
#[global] Instance Trend_eq_dec : EqDecision Trend.
Proof. solve_decision. Defined.
#[global] Instance SupportLevel_eq_dec : EqDecision SupportLevel.
Proof. solve_decision. Defined.
#[global] Instance Urgency_eq_dec : EqDecision Urgency.
Proof. solve_decision. Defined.

Definition SignalType_name (t : SignalType) : string :=
  match t with
  | REPEATED_TOPIC => "REPEATED_TOPIC"
  | FAILED_ATTEMPT => "FAILED_ATTEMPT"
  | LONG_RESPONSE_TIME => "LONG_RESPONSE_TIME"
  | NEGATIVE_SENTIMENT => "NEGATIVE_SENTIMENT"
  | ENGAGEMENT_DROP => "ENGAGEMENT_DROP"
  | HINT_DEPENDENCY => "HINT_DEPENDENCY"
  end.

(** The [AIInteraction] fields the pipeline reads. *)
Module AIInteraction.
Record t : Type := mk {
  _id : nat;
  userId : nat;
  role : Js.value;
  track : Js.value;
  topicOneLine : Js.value;          (* analytics.topicOneLine *)
  inputText : Js.value;
  status : string;
  processingTime : option Q;        (* costMeta.processingTime, when a number *)
  createdAt : Z;
}.
End AIInteraction.

(** Explainability metadata stored under [meta.raw]. *)
Inductive RawMeta : Type :=
| RawStatus (status : string)
| RawSameTopicCount (sameTopicCount : nat)
| RawLatency (latencyMs baselineMs ratio : Q)
| RawSentiment (sentimentScore : Q)
| RawHintCount (hintCount : nat)
| RawMethod (method : string).

Module StruggleSignal.
(** What [_signal] builds and [create] receives. *)
Record payload : Type := mkPayload {
  userId : nat;
  interactionId : nat;
  track : string;
  topic : string;
  signalType : SignalType;
  value : Q;
  windowHours : Z;                  (* meta.windowHours *)
  raw : RawMeta;                    (* meta.raw *)
}.

(** A stored signal. *)
Record t : Type := mk {
  _id : nat;
  fields : payload;
  createdAt : Z;
}.
End StruggleSignal.

Module ContributingSignal.
Record t : Type := mk {
  signalType : SignalType;
  weight : Q;
  value : Q;
}.
End ContributingSignal.

Module StruggleProfile.
Record t : Type := mk {
  userId : nat;
  track : string;
  cohortId : string;
  struggleScore : Q;
  trend : Trend;
  supportLevel : SupportLevel;
  lastEvaluatedAt : option Z;
  contributingSignals : list ContributingSignal.t;
  lastReasonSummary : string;
}.

(** The fields [recomputeForUser] passes to [_upsertProfile]. *)
Record data : Type := mkData {
  d_struggleScore : Q;
  d_trend : Trend;
  d_supportLevel : SupportLevel;
  d_contributingSignals : list ContributingSignal.t;
  d_lastReasonSummary : string;
}.
End StruggleProfile.

Module TutorCareNetwork.
Record t : Type := mk {
  studentId : nat;
  tutorIds : list nat;
  lastInteractionAt : option Z;
}.
End TutorCareNetwork.

Module TutorAlert.
Record t : Type := mk {
  _id : nat;
  tutorId : nat;
  studentId : nat;
  urgency : Urgency;
  topic : string;
  struggleScore : Q;
  reasonSummary : string;
  isRead : bool;
  createdAt : Z;
}.

Definition set_isRead (b : bool) (a : t) : t :=
  mk (_id a) (tutorId a) (studentId a) (urgency a) (topic a)
     (struggleScore a) (reasonSummary a) b (createdAt a).
End TutorAlert.

(** ** The store and the clock *)

(** Errors raised by the storage layer.  [E11000] is the duplicate-key error
    of a unique index; [ValidationError] is a schema violation. *)
Inductive DbError : Type :=
| E11000
| ValidationError (path : string).

(** [err.code] *)
Definition err_code (e : DbError) : option Z :=
  match e with
  | E11000 => Some 11000%Z
  | ValidationError _ => None
  end.

Record World : Type := mkWorld {
  aiInteractions : list AIInteraction.t;
  struggleSignals : list StruggleSignal.t;
  struggleProfiles : gmap nat StruggleProfile.t;   (* unique index on userId *)
  careNetworks : gmap nat TutorCareNetwork.t;      (* unique index on studentId *)
  tutorAlerts : list TutorAlert.t;
  clock : nat -> Z;
  tick : nat;
  next_id : nat;
}.

Definition set_signals (s : list StruggleSignal.t) (w : World) : World :=
  mkWorld (aiInteractions w) s (struggleProfiles w) (careNetworks w) (tutorAlerts w)
          (clock w) (tick w) (next_id w).
Definition set_profiles (p : gmap nat StruggleProfile.t) (w : World) : World :=
  mkWorld (aiInteractions w) (struggleSignals w) p (careNetworks w) (tutorAlerts w)
          (clock w) (tick w) (next_id w).
Definition set_alerts (a : list TutorAlert.t) (w : World) : World :=
  mkWorld (aiInteractions w) (struggleSignals w) (struggleProfiles w) (careNetworks w) a
          (clock w) (tick w) (next_id w).
Definition set_tick (k : nat) (w : World) : World :=
  mkWorld (aiInteractions w) (struggleSignals w) (struggleProfiles w) (careNetworks w) (tutorAlerts w)
          (clock w) k (next_id w).
Definition set_next_id (n : nat) (w : World) : World :=
  mkWorld (aiInteractions w) (struggleSignals w) (struggleProfiles w) (careNetworks w) (tutorAlerts w)
          (clock w) (tick w) n.

(** [Date.now()] *)
Definition Date_now (w : World) : Z * World :=
  (clock w (tick w), set_tick (S (tick w)) w).

(** A fresh ObjectId. *)
Definition fresh_id (w : World) : nat * World :=
  (next_id w, set_next_id (S (next_id w)) w).

(** The clock never runs backwards. *)
Definition monotone (c : nat -> Z) : Prop :=
  forall i j : nat, (i <= j)%nat -> (c i <= c j)%Z.

Definition hours_ms (h : Z) : Z := (h * 60 * 60 * 1000)%Z.


(** ** Collection operations *)

(** [AIInteraction.find({ userId, createdAt: { $gte: since } })
      .sort({ createdAt: -1 }).limit(100).lean()] *)
Definition AIInteraction_find_recent (userId : nat) (since : Z) (w : World)
  : list AIInteraction.t :=
  firstn 100
    (Js.sort (fun a b => (AIInteraction.createdAt b <=? AIInteraction.createdAt a)%Z)
       (List.filter
          (fun x => (AIInteraction.userId x =? userId)%nat
                    && (since <=? AIInteraction.createdAt x)%Z)
          (aiInteractions w))).

(** The unique index [{ interactionId: 1, signalType: 1 }]. *)
Definition same_signal_key (iid : nat) (k : SignalType) (s : StruggleSignal.t) : bool :=
  (StruggleSignal.interactionId (StruggleSignal.fields s) =? iid)%nat
  && bool_decide (StruggleSignal.signalType (StruggleSignal.fields s) = k).

(** [StruggleSignal.create(payload)]: schema validation of [value]
    (min 0, max 1), then the insert, which the unique index may refuse. *)
Definition StruggleSignal_create (p : StruggleSignal.payload) (w : World)
  : (DbError + StruggleSignal.t) * World :=
  if negb (Js.leb 0 (StruggleSignal.value p) && Js.leb (StruggleSignal.value p) 1)
  then (inl (ValidationError "value"), w)
  else if existsb (same_signal_key (StruggleSignal.interactionId p)
                                   (StruggleSignal.signalType p)) (struggleSignals w)
  then (inl E11000, w)
  else
    let '(now, w) := Date_now w in
    let '(id, w) := fresh_id w in
    let doc := StruggleSignal.mk id p now in
    (inr doc, set_signals (struggleSignals w ++ [doc]) w).

(** [StruggleSignal.find({ userId, createdAt: { $gte: since } }).lean()] *)
Definition StruggleSignal_find (userId : nat) (since : Z) (w : World)
  : list StruggleSignal.t :=
  List.filter
    (fun s => (StruggleSignal.userId (StruggleSignal.fields s) =? userId)%nat
              && (since <=? StruggleSignal.createdAt s)%Z)
    (struggleSignals w).

(** ** StruggleSignalService *)

Module StruggleSignalService.

Local Open Scope Q_scope.

Record Options : Type := mkOptions { windowHours : option Z }.

Record Result : Type := mkResult {
  created : nat;
  skipped : nat;
  signals : list StruggleSignal.t;
}.

Definition _clamp01 (n : Q) : Q := Js.Math_max 0 (Js.Math_min 1 n).

Definition _normalizeLinear (x min max : Q) : Q :=
  if Js.leb max min then 0
  else if Js.leb x min then 0
  else if Js.geb x max then 1
  else (x - min) / (max - min).

Definition negative : list string :=
  [ "stuck"; "confused"; "frustrated"; "annoying"; "hate"; "cant"; "can't";
    "won't"; "doesnt make sense"; "doesn't make sense"; "im lost"; "i'm lost";
    "give up"; "hard"; "im done"; "i'm done"; "this sucks" ].

Definition positive : list string :=
  [ "got it"; "thanks"; "thank you"; "understand"; "makes sense"; "nice";
    "awesome"; "great"; "cool"; "worked"; "solved"; "lets go"; "let's go" ].

Definition _sentimentLexiconScore (text : string) : Q :=
  let t := Js.toLowerCase text in
  let score := fold_left (fun sc w => if Js.includes t w then (sc - 1)%Z else sc) negative 0%Z in
  let score := fold_left (fun sc w => if Js.includes t w then (sc + 1)%Z else sc) positive score in
  if (score <=? -3)%Z then -1
  else if (3 <=? score)%Z then 1
  else inject_Z score / 3.

Definition _computeEngagementDrop (recent : list AIInteraction.t) (w : World)
  : option Q * World :=
  if (length recent <? 10)%nat then (None, w)
  else
    let '(now, w) := Date_now w in
    let h6 := (6 * 60 * 60 * 1000)%Z in
    let last6h :=
      length (List.filter (fun x => (now - AIInteraction.createdAt x <=? h6)%Z) recent) in
    let prev6h :=
      length (List.filter
                (fun x => let dt := (now - AIInteraction.createdAt x)%Z in
                          (h6 <? dt)%Z && (dt <=? 2 * h6)%Z) recent) in
    if (prev6h <? 3)%nat then (None, w)
    else
      let ratio := inject_Z (Z.of_nat last6h) / inject_Z (Z.of_nat prev6h) in
      (Some (_normalizeLinear (1 - ratio) 0.1 0.8), w).

Definition _signal (interaction : AIInteraction.t) (track topic : string)
    (signalType : SignalType) (value : Q) (windowHours : Z) (raw : RawMeta)
  : StruggleSignal.payload :=
  StruggleSignal.mkPayload
    (AIInteraction.userId interaction)
    (AIInteraction._id interaction)
    (Js.or_default (Js.Str track) "general")
    (Js.or_default (Js.Str topic) "unknown")
    signalType
    (_clamp01 value)
    windowHours
    raw.

Definition topic_of (x : AIInteraction.t) : string :=
  Js.or_default (AIInteraction.topicOneLine x) "unknown".

Definition hintMarkers : list string :=
  [ "hint"; "clue"; "nudge"; "dont give answer"; "no answer"; "just help"; "guide me" ].

Definition is_hint_text (text : string) : bool :=
  Js.some (fun m => Js.includes (Js.toLowerCase text) m) hintMarkers.

Section Rules.

Variable interaction : AIInteraction.t.
Variable track topic : string.
Variable windowHours : Z.
Variable recent : list AIInteraction.t.

(** 1) FAILED_ATTEMPT *)
Definition rule_failedAttempt : list StruggleSignal.payload :=
  if String.eqb (AIInteraction.status interaction) "FAILED"
  then [ _signal interaction track topic FAILED_ATTEMPT 1 windowHours
           (RawStatus (AIInteraction.status interaction)) ]
  else [].

(** 2) REPEATED_TOPIC *)
Definition rule_repeatedTopic : list StruggleSignal.payload :=
  let sameTopicCount :=
    length (List.filter (fun x => String.eqb (topic_of x) topic) recent) in
  let repeatedTopicValue := _normalizeLinear (inject_Z (Z.of_nat sameTopicCount)) 1 5 in
  if (3 <=? sameTopicCount)%nat
  then [ _signal interaction track topic REPEATED_TOPIC repeatedTopicValue windowHours
           (RawSameTopicCount sameTopicCount) ]
  else [].

(** 3) LONG_RESPONSE_TIME *)
Definition rule_longResponseTime : list StruggleSignal.payload :=
  match AIInteraction.processingTime interaction with
  | None => []
  | Some latencyMs =>
      let latencies :=
        Js.sort Js.leb
          (firstn 30 (omap AIInteraction.processingTime recent)) in
      let baseline :=
        match latencies with
        | [] => 4000
        | _ => nth (length latencies / 2)%nat latencies 0
        end in
      let ratio := if Js.gtb baseline 0 then latencyMs / baseline else 1 in
      let longRespValue := _normalizeLinear ratio 1.1 2.5 in
      if Js.geb ratio 1.5
      then [ _signal interaction track topic LONG_RESPONSE_TIME longRespValue windowHours
               (RawLatency latencyMs baseline ratio) ]
      else []
  end.

(** 4) NEGATIVE_SENTIMENT *)
Definition rule_negativeSentiment (inputText : string) : list StruggleSignal.payload :=
  let sentimentScore := _sentimentLexiconScore inputText in
  let negativeSentimentValue := _clamp01 ((- sentimentScore + 0.1) / 1.1) in
  if Js.geb negativeSentimentValue 0.45
  then [ _signal interaction track topic NEGATIVE_SENTIMENT negativeSentimentValue
           windowHours (RawSentiment sentimentScore) ]
  else [].

(** 5) HINT_DEPENDENCY *)
Definition rule_hintDependency (inputText : string) : list StruggleSignal.payload :=
  if is_hint_text inputText
  then
    let hintCount :=
      length (List.filter
                (fun x => is_hint_text (Js.or_default (AIInteraction.inputText x) ""))
                recent) in
    let hintDepValue := _normalizeLinear (inject_Z (Z.of_nat hintCount)) 1 8 in
    [ _signal interaction track topic HINT_DEPENDENCY hintDepValue windowHours
        (RawHintCount hintCount) ]
  else [].

(** 6) ENGAGEMENT_DROP *)
Definition rule_engagementDrop (engagementDrop : option Q) : list StruggleSignal.payload :=
  match engagementDrop with
  | Some v =>
      if Js.geb v 0.6
      then [ _signal interaction track topic ENGAGEMENT_DROP v windowHours
               (RawMethod "6h-vs-prev-6h") ]
      else []
  | None => []
  end.

End Rules.

(** The list [signalPayloads] the source builds before writing. *)
Definition signalPayloads (interaction : AIInteraction.t) (windowHours : Z) (w : World)
  : list StruggleSignal.payload * World :=
  let userId := AIInteraction.userId interaction in
  let track := Js.or_default (AIInteraction.track interaction) "general" in
  let topic := topic_of interaction in
  let '(now, w) := Date_now w in
  let since := (now - hours_ms windowHours)%Z in
  let recent := AIInteraction_find_recent userId since w in
  let inputText := Js.or_default (AIInteraction.inputText interaction) "" in
  let '(engagementDrop, w) := _computeEngagementDrop recent w in
  ( rule_failedAttempt interaction track topic windowHours
      ++ rule_repeatedTopic interaction track topic windowHours recent
      ++ rule_longResponseTime interaction track topic windowHours recent
      ++ rule_negativeSentiment interaction track topic windowHours inputText
      ++ rule_hintDependency interaction track topic windowHours recent inputText
      ++ rule_engagementDrop interaction track topic windowHours engagementDrop,
    w ).

(** The write loop: a duplicate-key error is counted, any other is rethrown. *)
Fixpoint writeSignals (payloads : list StruggleSignal.payload)
    (created skipped : nat) (results : list StruggleSignal.t) (w : World)
  : (DbError + Result) * World :=
  match payloads with
  | [] => (inr (mkResult created skipped results), w)
  | payload :: rest =>
      match StruggleSignal_create payload w with
      | (inr doc, w') => writeSignals rest (S created) skipped (results ++ [doc]) w'
      | (inl err, w') =>
          if bool_decide (err_code err = Some 11000%Z)
          then writeSignals rest created (S skipped) results w'
          else (inl err, w')
      end
  end.

(** The role test at the top of [extractSignalsFromInteraction]. *)
Definition role_gate (interaction : AIInteraction.t) : bool :=
  Js.truthy (AIInteraction.role interaction)
  && Js.strict_neq (AIInteraction.role interaction) "STUDENT".

Definition extractSignalsFromInteraction (interaction : AIInteraction.t)
    (options : Options) (w : World) : (DbError + Result) * World :=
  let windowHours := default 24%Z (windowHours options) in
  if role_gate interaction
  then (inr (mkResult 0 0 []), w)
  else
    let '(payloads, w) := signalPayloads interaction windowHours w in
    writeSignals payloads 0 0 [] w.

End StruggleSignalService.

(** ** StruggleScoringService *)

Module StruggleScoringService.

Local Open Scope Q_scope.

(** [Object.entries(WEIGHTS)], in declaration order. *)
Definition WEIGHTS : list (SignalType * Q) :=
  [ (REPEATED_TOPIC, 0.25);
    (FAILED_ATTEMPT, 0.20);
    (NEGATIVE_SENTIMENT, 0.15);
    (ENGAGEMENT_DROP, 0.15);
    (LONG_RESPONSE_TIME, 0.15);
    (HINT_DEPENDENCY, 0.10) ].

Record Options : Type := mkOptions { windowHours : option Z }.

(** The object [aggregated]: a signal type is either absent or holds a number. *)
Definition Aggregated : Type := SignalType -> option Q.

Definition empty_aggregated : Aggregated := fun _ => None.

(** [aggregated[type] || 0]; for a number [v], [v || 0] is [v]. *)
Definition get_or_0 (aggregated : Aggregated) (type : SignalType) : Q :=
  match aggregated type with
  | Some v => v
  | None => 0
  end.

Definition set_key (aggregated : Aggregated) (type : SignalType) (v : Q) : Aggregated :=
  fun k => if bool_decide (k = type) then Some v else aggregated k.

(** [for (const s of signals) aggregated[s.signalType] = Math.max(..., s.value)] *)
Definition aggregate (sigs : list StruggleSignal.t) : Aggregated :=
  fold_left
    (fun aggregated s =>
       let type := StruggleSignal.signalType (StruggleSignal.fields s) in
       set_key aggregated type
         (Js.Math_max (get_or_0 aggregated type)
                      (StruggleSignal.value (StruggleSignal.fields s))))
    sigs empty_aggregated.

(** One iteration of the loop over [Object.entries(this.WEIGHTS)]. *)
Definition score_step (aggregated : Aggregated)
    (acc : Q * list ContributingSignal.t) (entry : SignalType * Q)
  : Q * list ContributingSignal.t :=
  let '(rawScore, contributingSignals) := acc in
  let '(type, weight) := entry in
  let value := get_or_0 aggregated type in
  ( rawScore + weight * value,
    if Js.gtb value 0
    then contributingSignals ++ [ ContributingSignal.mk type weight value ]
    else contributingSignals ).

Definition score_loop (aggregated : Aggregated) : Q * list ContributingSignal.t :=
  fold_left (score_step aggregated) WEIGHTS (0, []).

Definition rawScore_of (aggregated : Aggregated) : Q := fst (score_loop aggregated).

(** [Math.min(10, Math.max(1, Math.round((1 + rawScore * 9) * 10) / 10))],
    in exact arithmetic: a product that is exactly halfway between two
    integers is rounded up here, while the code rounds the floating-point
    product, which may lie just below the tie. *)
Definition struggleScore_of (rawScore : Q) : Q :=
  Js.Math_min 10
    (Js.Math_max 1 (inject_Z (Js.Math_round ((1 + rawScore * 9) * 10)) / 10)).

(** The trend against the stored profile, in exact arithmetic: a score
    exactly 0.5 away from the stored one is STABLE here, while the code
    compares with the floating-point sum or difference. *)
Definition trend_of (prevProfile : option StruggleProfile.t) (struggleScore : Q) : Trend :=
  match prevProfile with
  | Some prev =>
      if Js.gtb struggleScore (StruggleProfile.struggleScore prev + 0.5) then UP
      else if Js.ltb struggleScore (StruggleProfile.struggleScore prev - 0.5) then DOWN
      else STABLE
  | None => STABLE
  end.

Definition supportLevel_of (struggleScore : Q) : SupportLevel :=
  if Js.geb struggleScore 7 then HIGH
  else if Js.geb struggleScore 4 then MEDIUM
  else LOW.

Definition reasonSummary_of (contributingSignals : list ContributingSignal.t) : string :=
  Js.join " & "
    (map (fun s => Js.toLowerCase
                     (Js.replace_underscores
                        (SignalType_name (ContributingSignal.signalType s))))
         (firstn 2 contributingSignals)).

(** [StruggleProfile.findOneAndUpdate({ userId },
      { ...data, lastEvaluatedAt: new Date() }, { upsert: true, new: true })] *)
Definition _upsertProfile (userId : nat) (d : StruggleProfile.data) (w : World)
  : StruggleProfile.t * World :=
  let '(now, w) := Date_now w in
  let doc :=
    match struggleProfiles w !! userId with
    | Some p =>
        StruggleProfile.mk (StruggleProfile.userId p) (StruggleProfile.track p)
          (StruggleProfile.cohortId p)
          (StruggleProfile.d_struggleScore d) (StruggleProfile.d_trend d)
          (StruggleProfile.d_supportLevel d) (Some now)
          (StruggleProfile.d_contributingSignals d)
          (StruggleProfile.d_lastReasonSummary d)
    | None =>
        StruggleProfile.mk userId "general" "default"
          (StruggleProfile.d_struggleScore d) (StruggleProfile.d_trend d)
          (StruggleProfile.d_supportLevel d) (Some now)
          (StruggleProfile.d_contributingSignals d)
          (StruggleProfile.d_lastReasonSummary d)
    end in
  (doc, set_profiles (<[userId := doc]> (struggleProfiles w)) w).

Definition recomputeForUser (userId : nat) (options : Options) (w : World)
  : StruggleProfile.t * World :=
  let windowHours := default 24%Z (windowHours options) in
  let '(now, w) := Date_now w in
  let since := (now - hours_ms windowHours)%Z in
  let sigs := StruggleSignal_find userId since w in
  if (length sigs =? 0)%nat
  then _upsertProfile userId (StruggleProfile.mkData 1 STABLE LOW [] "") w
  else
    let aggregated := aggregate sigs in
    let '(rawScore, contributingSignals) := score_loop aggregated in
    let struggleScore := struggleScore_of rawScore in
    let prevProfile := struggleProfiles w !! userId in
    let trend := trend_of prevProfile struggleScore in
    let supportLevel := supportLevel_of struggleScore in
    let reasonSummary := reasonSummary_of contributingSignals in
    _upsertProfile userId
      (StruggleProfile.mkData struggleScore trend supportLevel
         contributingSignals reasonSummary) w.

(** What [checkBreakthrough] returns when a profile exists:
    [{ isBreakthrough: true, currentScore, topic }] or
    [{ isBreakthrough: false }]. *)
Record Breakthrough : Type := mkBreakthrough {
  isBreakthrough : bool;
  currentScore : option Q;
  topic : option string;
}.

Definition checkBreakthrough (userId : nat) (w : World) : option Breakthrough :=
  match struggleProfiles w !! userId with
  | None => None
  | Some profile =>
      if bool_decide (StruggleProfile.trend profile = DOWN)
         && Js.leb (StruggleProfile.struggleScore profile) 4
      then Some (mkBreakthrough true
                   (Some (StruggleProfile.struggleScore profile))
                   (Some (StruggleProfile.lastReasonSummary profile)))
      else Some (mkBreakthrough false None None)
  end.

End StruggleScoringService.

(** ** Users and the care network *)

(** The [User] fields that [populate] selects:
    [profile.firstName profile.lastName profile.displayName]. *)
Module User.
Record profile : Type := mkProfile {
  firstName : Js.value;
  lastName : Js.value;
  displayName : Js.value;
}.
End User.

Definition set_networks (n : gmap nat TutorCareNetwork.t) (w : World) : World :=
  mkWorld (aiInteractions w) (struggleSignals w) (struggleProfiles w) n (tutorAlerts w)
          (clock w) (tick w) (next_id w).

(** [$addToSet: { tutorIds: tutorId }] *)
Definition addToSet (tutorId : nat) (tutorIds : list nat) : list nat :=
  if existsb (Nat.eqb tutorId) tutorIds then tutorIds else tutorIds ++ [tutorId].

(** [TutorCareNetworkSchema.statics.linkTutorToStudent]:
    [findOneAndUpdate({ studentId },
       { $addToSet: { tutorIds: tutorId }, $set: { lastInteractionAt: new Date() } },
       { upsert: true, new: true })] *)
Definition TutorCareNetwork_linkTutorToStudent (studentId tutorId : nat) (w : World)
  : TutorCareNetwork.t * World :=
  let '(now, w) := Date_now w in
  let doc :=
    match careNetworks w !! studentId with
    | Some network =>
        TutorCareNetwork.mk (TutorCareNetwork.studentId network)
          (addToSet tutorId (TutorCareNetwork.tutorIds network)) (Some now)
    | None => TutorCareNetwork.mk studentId (addToSet tutorId []) (Some now)
    end in
  (doc, set_networks (<[studentId := doc]> (careNetworks w)) w).

(** [TutorCareNetwork.find({ tutorIds: userId })]: the networks that list
    the tutor. *)
Definition TutorCareNetwork_find_by_tutor (userId : nat) (w : World)
  : list TutorCareNetwork.t :=
  List.filter (fun n => existsb (Nat.eqb userId) (TutorCareNetwork.tutorIds n))
    (map snd (map_to_list (careNetworks w))).

(** [TutorAlert.countDocuments({ tutorId, isRead })] *)
Definition TutorAlert_count (tutorId : nat) (isRead : bool) (w : World) : nat :=
  length (List.filter
            (fun a => (TutorAlert.tutorId a =? tutorId)%nat
                      && Bool.eqb (TutorAlert.isRead a) isRead)
            (tutorAlerts w)).

(** [.limit(n)]: a limit of 0 means no limit. *)
Definition limit_docs {A} (n : nat) (docs : list A) : list A :=
  if (n =? 0)%nat then docs else firstn n docs.

(** ** TutorAlertService *)

(** [TutorAlert.findOne({ tutorId, studentId, createdAt: { $gte: since } })] *)
Definition TutorAlert_findOne_recent (tutorId studentId : nat) (since : Z) (w : World)
  : option TutorAlert.t :=
  List.find
    (fun a => (TutorAlert.tutorId a =? tutorId)%nat
              && (TutorAlert.studentId a =? studentId)%nat
              && (since <=? TutorAlert.createdAt a)%Z)
    (tutorAlerts w).

(** [TutorAlert.create({...})]: schema validation of [struggleScore]
    (min 1, max 10), then the insert; [isRead] takes its default. *)
Definition TutorAlert_create (tutorId studentId : nat) (urgency : Urgency)
    (topic : string) (struggleScore : Q) (reasonSummary : string) (w : World)
  : (DbError + TutorAlert.t) * World :=
  if negb (Js.leb 1 struggleScore && Js.leb struggleScore 10)
  then (inl (ValidationError "struggleScore"), w)
  else
    let '(now, w) := Date_now w in
    let '(id, w) := fresh_id w in
    let doc :=
      TutorAlert.mk id tutorId studentId urgency topic struggleScore
        reasonSummary false now in
    (inr doc, set_alerts (tutorAlerts w ++ [doc]) w).

(** [TutorAlert.findOneAndUpdate({ _id: alertId, tutorId }, { isRead: true },
      { new: true })] on the collection's documents. *)
Fixpoint findOneAndUpdate_isRead (alertId tutorId : nat) (docs : list TutorAlert.t)
  : option TutorAlert.t * list TutorAlert.t :=
  match docs with
  | [] => (None, [])
  | a :: rest =>
      if (TutorAlert._id a =? alertId)%nat && (TutorAlert.tutorId a =? tutorId)%nat
      then (Some (TutorAlert.set_isRead true a), TutorAlert.set_isRead true a :: rest)
      else
        let '(r, rest') := findOneAndUpdate_isRead alertId tutorId rest in
        (r, a :: rest')
  end.

Module TutorAlertService.

Local Open Scope Q_scope.

Definition COOLDOWN_HOURS : Z := 24.

(** The test that makes [createAlertsIfNeeded] return early:
    [(supportLevel !== "HIGH" || trend !== "UP") && struggleScore < 9]. *)
Definition below_alert_gate (profile : StruggleProfile.t) : bool :=
  (negb (bool_decide (StruggleProfile.supportLevel profile = HIGH))
   || negb (bool_decide (StruggleProfile.trend profile = UP)))
  && Js.ltb (StruggleProfile.struggleScore profile) 9.

(** The body of [for (const tutorId of network.tutorIds)]. *)
Fixpoint alert_loop (profile : StruggleProfile.t) (studentId : nat)
    (tutorIds : list nat) (alerts : list TutorAlert.t) (w : World)
  : (DbError + list TutorAlert.t) * World :=
  match tutorIds with
  | [] => (inr alerts, w)
  | tutorId :: rest =>
      let '(now, w) := Date_now w in
      let since := (now - hours_ms COOLDOWN_HOURS)%Z in
      match TutorAlert_findOne_recent tutorId studentId since w with
      | Some _ => alert_loop profile studentId rest alerts w
      | None =>
          match
            TutorAlert_create tutorId studentId
              (if Js.geb (StruggleProfile.struggleScore profile) 9 then URGENT else SOFT)
              (Js.or_default (Js.Str (StruggleProfile.lastReasonSummary profile))
                 "current topic")
              (StruggleProfile.struggleScore profile)
              "A learner you helped before may benefit from support."
              w
          with
          | (inr alert, w') => alert_loop profile studentId rest (alerts ++ [alert]) w'
          | (inl err, w') => (inl err, w')
          end
      end
  end.

Definition createAlertsIfNeeded (studentId : nat) (w : World)
  : (DbError + list TutorAlert.t) * World :=
  match struggleProfiles w !! studentId with
  | None => (inr [], w)
  | Some profile =>
      if below_alert_gate profile then (inr [], w)
      else
        match careNetworks w !! studentId with
        | None => (inr [], w)
        | Some network =>
            match TutorCareNetwork.tutorIds network with
            | [] => (inr [], w)
            | tutorIds => alert_loop profile studentId tutorIds [] w
            end
        end
  end.

Definition markAsRead (alertId tutorId : nat) (w : World)
  : option TutorAlert.t * World :=
  let '(r, docs) := findOneAndUpdate_isRead alertId tutorId (tutorAlerts w) in
  (r, set_alerts docs w).

Definition getUnreadCount (tutorId : nat) (w : World) : nat :=
  length (List.filter
            (fun a => (TutorAlert.tutorId a =? tutorId)%nat && negb (TutorAlert.isRead a))
            (tutorAlerts w)).

(** [TutorAlert.find({ tutorId, isRead: false })
      .populate('studentId', ...).sort({ createdAt: -1 }).limit(limit)];
    a populated reference is [None] when the user no longer exists. *)
Definition getAlertsForTutor (users : gmap nat User.profile) (tutorId limit : nat)
    (w : World) : list (TutorAlert.t * option User.profile) :=
  map (fun a => (a, users !! TutorAlert.studentId a))
    (limit_docs limit
       (Js.sort (fun a b => (TutorAlert.createdAt b <=? TutorAlert.createdAt a)%Z)
          (List.filter
             (fun a => (TutorAlert.tutorId a =? tutorId)%nat && negb (TutorAlert.isRead a))
             (tutorAlerts w)))).

End TutorAlertService.

(** ** Routes of the tutor dashboard ([routes/tutorAlerts.js]) *)

Module TutorAlertsRoute.

Record FormattedAlert : Type := mkFormatted {
  id : nat;
  studentName : string;
  topic : string;
  urgency : Urgency;
  message : string;
  createdAt : Z;
  isRead : bool;
}.

(** [alert.studentId?.profile?.x] *)
Definition field_of (f : User.profile -> Js.value) (u : option User.profile) : Js.value :=
  match u with
  | Some p => f p
  | None => Js.Undefined
  end.

(** [displayName || `${firstName || ''} ${lastName || ''}`.trim() || 'A learner'] *)
Definition studentName_of (u : option User.profile) : string :=
  if Js.truthy (field_of User.displayName u)
  then Js.or_default (field_of User.displayName u) ""
  else
    Js.or_default
      (Js.Str (Js.trim (Js.or_default (field_of User.firstName u) ""
                        ++ " " ++ Js.or_default (field_of User.lastName u) "")))
      "A learner".

Definition format_alert (entry : TutorAlert.t * option User.profile) : FormattedAlert :=
  let '(alert, student) := entry in
  mkFormatted (TutorAlert._id alert) (studentName_of student)
    (TutorAlert.topic alert) (TutorAlert.urgency alert)
    (TutorAlert.reasonSummary alert) (TutorAlert.createdAt alert)
    (TutorAlert.isRead alert).

(** [GET /alerts]: the formatted alerts and [unreadCount]. *)
Definition get_alerts (users : gmap nat User.profile) (userId : nat) (w : World)
  : list FormattedAlert * nat :=
  ( map format_alert (TutorAlertService.getAlertsForTutor users userId 20 w),
    TutorAlertService.getUnreadCount userId w ).





Record Stats : Type := mkStats {
  studentsHelped : nat;
  alertsResponded : nat;
  impactScore : nat;
}.

(** [GET /stats] *)
Definition get_stats (userId : nat) (w : World) : Stats :=
  let studentsHelped := length (TutorCareNetwork_find_by_tutor userId w) in
  let alertsResponded := TutorAlert_count userId true w in
  mkStats studentsHelped alertsResponded (studentsHelped * 10 + alertsResponded * 5).

End TutorAlertsRoute.

(** ** The detection pipeline of [routes/ai.js] *)

Module AiRoute.

(** The [try] block run after a learner's request was served: extraction,
    re-scoring, alerting.  An error of any stage is caught and logged; it
    is returned here so that it can be observed. *)
Definition struggleDetection (interaction : AIInteraction.t) (userId : nat) (w : World)
  : option DbError * World :=
  match
    StruggleSignalService.extractSignalsFromInteraction interaction
      (StruggleSignalService.mkOptions (Some 24%Z)) w
  with
  | (inl err, w1) => (Some err, w1)
  | (inr signalResult, w1) =>
      let '(profile, w2) :=
        StruggleScoringService.recomputeForUser userId
          (StruggleScoringService.mkOptions None) w1 in
      match TutorAlertService.createAlertsIfNeeded userId w2 with
      | (inl err, w3) => (Some err, w3)
      | (inr alerts, w3) => (None, w3)
      end
  end.

End AiRoute.

(** * Specification vocabulary *)

Section Vocabulary.

Local Open Scope Q_scope.

(** A magnitude. *)
Definition in_unit (v : Q) : Prop := 0 <= v <= 1.

Definition unit_valued (aggregated : StruggleScoringService.Aggregated) : Prop :=
  forall t v, aggregated t = Some v -> in_unit v.

Definition weight_sum : Q :=
  fold_right Qplus 0 (map snd StruggleScoringService.WEIGHTS).

(** The same interaction attributed to another role. *)
Definition with_role (r : Js.value) (i : AIInteraction.t) : AIInteraction.t :=
  AIInteraction.mk (AIInteraction._id i) (AIInteraction.userId i) r
    (AIInteraction.track i) (AIInteraction.topicOneLine i)
    (AIInteraction.inputText i) (AIInteraction.status i)
    (AIInteraction.processingTime i) (AIInteraction.createdAt i).

(** Number of stored signals of kind [k] for interaction [iid]. *)
Definition sig_count (iid : nat) (k : SignalType) (sigs : list StruggleSignal.t) : nat :=
  length (List.filter (same_signal_key iid k) sigs).

(** What the unique index on (interaction, kind) maintains. *)
Definition unique_index (sigs : list StruggleSignal.t) : Prop :=
  forall iid k, (sig_count iid k sigs <= 1)%nat.

(** A payload whose (interaction, kind) pair is already stored. *)
Definition already_stored (sigs : list StruggleSignal.t) (p : StruggleSignal.payload) : bool :=
  existsb (same_signal_key (StruggleSignal.interactionId p) (StruggleSignal.signalType p)) sigs.

(** The query [{ _id: alertId, tutorId }]. *)
Definition alert_matches (alertId tutorId : nat) (a : TutorAlert.t) : Prop :=
  TutorAlert._id a = alertId /\ TutorAlert.tutorId a = tutorId.

(** [a'] is [a] with the read flag raised and nothing else touched. *)
Definition same_but_read (a a' : TutorAlert.t) : Prop :=
  TutorAlert._id a' = TutorAlert._id a
  /\ TutorAlert.tutorId a' = TutorAlert.tutorId a
  /\ TutorAlert.studentId a' = TutorAlert.studentId a
  /\ TutorAlert.urgency a' = TutorAlert.urgency a
  /\ TutorAlert.topic a' = TutorAlert.topic a
  /\ TutorAlert.struggleScore a' = TutorAlert.struggleScore a
  /\ TutorAlert.reasonSummary a' = TutorAlert.reasonSummary a
  /\ TutorAlert.createdAt a' = TutorAlert.createdAt a
  /\ TutorAlert.isRead a' = true.

(** An alert about the pair (tutor, student). *)
Definition for_pair (t s : nat) (a : TutorAlert.t) : bool :=
  (TutorAlert.tutorId a =? t)%nat && (TutorAlert.studentId a =? s)%nat.

Definition pair_count (t s : nat) (l : list TutorAlert.t) : nat :=
  length (List.filter (for_pair t s) l).

(** The alerts appended to the collection between two states. *)
Definition created_between (w w' : World) : list TutorAlert.t :=
  drop (length (tutorAlerts w)) (tutorAlerts w').

(** Between two calls alerts are never deleted; their read flag may change. *)
Definition alerts_kept (l l' : list TutorAlert.t) : Prop :=
  forall a, In a l ->
    exists a', In a' l'
      /\ TutorAlert.tutorId a' = TutorAlert.tutorId a
      /\ TutorAlert.studentId a' = TutorAlert.studentId a
      /\ TutorAlert.createdAt a' = TutorAlert.createdAt a.

(** The document [createAlertsIfNeeded] hands to [TutorAlert.create] for one
    tutor, as stored. *)
Definition created_doc (tutorId studentId : nat) (profile : StruggleProfile.t) (w : World)
  : TutorAlert.t :=
  TutorAlert.mk (next_id w) tutorId studentId
    (if Js.geb (StruggleProfile.struggleScore profile) 9 then URGENT else SOFT)
    (Js.or_default (Js.Str (StruggleProfile.lastReasonSummary profile)) "current topic")
    (StruggleProfile.struggleScore profile)
    "A learner you helped before may benefit from support."
    false (clock w (tick w)).

(** The store after appending [doc]. *)
Definition after_create (doc : TutorAlert.t) (w : World) : World :=
  set_alerts (tutorAlerts w ++ [doc]) (set_next_id (S (next_id w)) (set_tick (S (tick w)) w)).

(** The signal [StruggleSignal.create] stores for [p], and the store after. *)
Definition stored_signal (p : StruggleSignal.payload) (w : World) : StruggleSignal.t :=
  StruggleSignal.mk (next_id w) p (clock w (tick w)).

Definition after_store (doc : StruggleSignal.t) (w : World) : World :=
  set_signals (struggleSignals w ++ [doc])
    (set_next_id (S (next_id w)) (set_tick (S (tick w)) w)).

(** The order in which the extractor examines the signal kinds. *)
Definition rule_kinds : list SignalType :=
  [ FAILED_ATTEMPT; REPEATED_TOPIC; LONG_RESPONSE_TIME; NEGATIVE_SENTIMENT;
    HINT_DEPENDENCY; ENGAGEMENT_DROP ].

(** A payload built by [_signal] for interaction [i]. *)
Definition payload_of (i : AIInteraction.t) (p : StruggleSignal.payload) : Prop :=
  StruggleSignal.interactionId p = AIInteraction._id i
  /\ StruggleSignal.userId p = AIInteraction.userId i
  /\ in_unit (StruggleSignal.value p).

(** Each rule contributes nothing or one payload of its own kind. *)
Definition rule_shape (i : AIInteraction.t) (k : SignalType)
    (l : list StruggleSignal.payload) : Prop :=
  Forall (payload_of i) l /\ map StruggleSignal.signalType l `sublist_of` [k].

End Vocabulary.

(** * Sample data

    Concrete documents and stores on which the properties below are
    exercised. *)

Module Sample.

(** One clock reading per second, starting at an arbitrary instant. *)
Definition clock (n : nat) : Z := (1700000000000 + 1000 * Z.of_nat n)%Z.

(** A failed tutoring request whose [role] field is absent. *)
Definition failed_no_role : AIInteraction.t :=
  AIInteraction.mk 7 1 Js.Undefined (Js.Str "AI") (Js.Str "recursion")
    (Js.Str "please explain recursion") "FAILED" (Some 9000%Q) 1699999999000%Z.

(** The same request attributed to a learner, and to a tutor. *)
Definition failed_student : AIInteraction.t := with_role (Js.Str "STUDENT") failed_no_role.
Definition failed_alumni : AIInteraction.t := with_role (Js.Str "ALUMNI") failed_no_role.

Definition empty_world (i : AIInteraction.t) : World :=
  mkWorld [i] [] ∅ ∅ [] clock 0 100.

(** A learner with a critical score, a stable trend and a medium support
    level, and the two tutors who helped them before. *)
Definition learner : nat := 1.
Definition tutor_a : nat := 11.
Definition tutor_b : nat := 12.

Definition critical_profile : StruggleProfile.t :=
  StruggleProfile.mk learner "general" "default" 9.2%Q STABLE MEDIUM
    (Some 1699999990000%Z)
    [ ContributingSignal.mk REPEATED_TOPIC 0.25%Q 1%Q;
      ContributingSignal.mk FAILED_ATTEMPT 0.20%Q 1%Q ]
    "repeated topic & failed attempt".

Definition network : TutorCareNetwork.t :=
  TutorCareNetwork.mk learner [tutor_a; tutor_b] None.

Definition alert_world : World :=
  mkWorld [] [] {[ learner := critical_profile ]} {[ learner := network ]} []
    clock 0 100.

(** Nine requests made seven hours before the first clock reading and one
    made a second before it. *)
Definition busy_then_quiet : list AIInteraction.t :=
  map (fun n => AIInteraction.mk (20 + n) 1 (Js.Str "STUDENT") (Js.Str "AI")
                  (Js.Str "recursion") (Js.Str "please explain recursion")
                  "COMPLETED" None 1699974800000%Z)
      (seq 0 9)
  ++ [failed_student].

(** The learner of [critical_profile] after one failed request was
    turned into signals. *)
Definition scored_world : World :=
  set_profiles {[ learner := critical_profile ]}
    (snd (StruggleSignalService.extractSignalsFromInteraction failed_student
            (StruggleSignalService.mkOptions None) (empty_world failed_student))).

(** The store after the alert dispatcher ran once on [alert_world]. *)
Definition after_first_run : World :=
  snd (TutorAlertService.createAlertsIfNeeded learner alert_world).

End Sample.

(** * Vocabulary for the detection rules and the dashboards *)

Section RuleVocabulary.

Local Open Scope Q_scope.

(** The integer [score] of [_sentimentLexiconScore] before it is scaled:
    positive matches minus negative matches. *)
Definition lexicon_net (text : string) : Z :=
  let t := Js.toLowerCase text in
  fold_left (fun sc w => if Js.includes t w then (sc + 1)%Z else sc)
    StruggleSignalService.positive
    (fold_left (fun sc w => if Js.includes t w then (sc - 1)%Z else sc)
       StruggleSignalService.negative 0%Z).

(** [sameTopicCount] of the repeated-topic rule. *)
Definition sameTopicCount (recent : list AIInteraction.t) (topic : string) : nat :=
  length (List.filter (fun x => String.eqb (StruggleSignalService.topic_of x) topic) recent).

(** [hintCount] of the hint-dependency rule. *)
Definition hintCount (recent : list AIInteraction.t) : nat :=
  length (List.filter
            (fun x => StruggleSignalService.is_hint_text
                        (Js.or_default (AIInteraction.inputText x) ""))
            recent).

(** [last6h] and [prev6h] of [_computeEngagementDrop]. *)
Definition last6h (now : Z) (recent : list AIInteraction.t) : nat :=
  length (List.filter
            (fun x => (now - AIInteraction.createdAt x <=? 6 * 60 * 60 * 1000)%Z) recent).

Definition prev6h (now : Z) (recent : list AIInteraction.t) : nat :=
  length (List.filter
            (fun x => let dt := (now - AIInteraction.createdAt x)%Z in
                      (6 * 60 * 60 * 1000 <? dt)%Z
                      && (dt <=? 2 * (6 * 60 * 60 * 1000))%Z) recent).

(** The magnitudes of a list of payloads. *)
Definition payload_values (l : list StruggleSignal.payload) : list Q :=
  map StruggleSignal.value l.

(** [Σ weight × value] over the contributing signals of a profile. *)
Definition contribution_sum (l : list ContributingSignal.t) : Q :=
  fold_right (fun c acc => ContributingSignal.weight c * ContributingSignal.value c + acc) 0 l.

(** The query of [markAsRead], as a test. *)
Definition matches_alert (alertId tutorId : nat) (a : TutorAlert.t) : bool :=
  (TutorAlert._id a =? alertId)%nat && (TutorAlert.tutorId a =? tutorId)%nat.

(** No alert of the store about student [s] for a tutor of [tutorIds] is
    inside the cooldown at reading [now]. *)
Definition no_recent_alert (s : nat) (tutorIds : list nat) (now : Z) (w : World) : Prop :=
  forall a, In a (tutorAlerts w) ->
    TutorAlert.studentId a = s ->
    In (TutorAlert.tutorId a) tutorIds ->
    (TutorAlert.createdAt a < now - hours_ms TutorAlertService.COOLDOWN_HOURS)%Z.

(** Frames: the collections a stage leaves as they are. *)
Definition only_signals_change (w w' : World) : Prop :=
  aiInteractions w' = aiInteractions w
  /\ struggleProfiles w' = struggleProfiles w
  /\ careNetworks w' = careNetworks w
  /\ tutorAlerts w' = tutorAlerts w
  /\ clock w' = clock w.

Definition only_profiles_change (w w' : World) : Prop :=
  aiInteractions w' = aiInteractions w
  /\ struggleSignals w' = struggleSignals w
  /\ careNetworks w' = careNetworks w
  /\ tutorAlerts w' = tutorAlerts w
  /\ clock w' = clock w.

Definition only_alerts_change (w w' : World) : Prop :=
  aiInteractions w' = aiInteractions w
  /\ struggleSignals w' = struggleSignals w
  /\ struggleProfiles w' = struggleProfiles w
  /\ careNetworks w' = careNetworks w
  /\ clock w' = clock w.

Definition only_networks_change (w w' : World) : Prop :=
  aiInteractions w' = aiInteractions w
  /\ struggleSignals w' = struggleSignals w
  /\ struggleProfiles w' = struggleProfiles w
  /\ tutorAlerts w' = tutorAlerts w
  /\ clock w' = clock w.

(** The thresholds of the support level, read on a profile. *)
Definition level_matches_score (p : StruggleProfile.t) : Prop :=
  (StruggleProfile.supportLevel p = HIGH <-> 7 <= StruggleProfile.struggleScore p)
  /\ (StruggleProfile.supportLevel p = MEDIUM
      <-> 4 <= StruggleProfile.struggleScore p /\ StruggleProfile.struggleScore p < 7)
  /\ (StruggleProfile.supportLevel p = LOW <-> StruggleProfile.struggleScore p < 4).

(** A profile as [recomputeForUser] leaves it: a score the schema accepts
    and a support level that matches it. *)
Definition well_scored (p : StruggleProfile.t) : Prop :=
  1 <= StruggleProfile.struggleScore p <= 10 /\ level_matches_score p.

(** The entry of a contributing signal for one line of the weight table. *)
Definition contribution (aggregated : StruggleScoringService.Aggregated)
    (entry : SignalType * Q) : ContributingSignal.t :=
  ContributingSignal.mk (fst entry) (snd entry)
    (StruggleScoringService.get_or_0 aggregated (fst entry)).

(** The lines of the weight table whose aggregated magnitude is positive,
    in the order of the table. *)
Definition contributing_of (aggregated : StruggleScoringService.Aggregated)
  : list ContributingSignal.t :=
  map (contribution aggregated)
    (List.filter
       (fun entry => Js.gtb (StruggleScoringService.get_or_0 aggregated (fst entry)) 0)
       StruggleScoringService.WEIGHTS).

(** The unread alerts of a tutor, in the order of the collection. *)
Definition unread_of (tutorId : nat) (w : World) : list TutorAlert.t :=
  List.filter
    (fun a => (TutorAlert.tutorId a =? tutorId)%nat && negb (TutorAlert.isRead a))
    (tutorAlerts w).

(** A list is ordered newest first on a date key when no entry is older
    than one that comes after it. *)
Definition newest_first {A : Type} (key : A -> Z) (l : list A) : Prop :=
  forall (i j : nat) (x y : A),
    (i < j)%nat -> l !! i = Some x -> l !! j = Some y -> (key y <= key x)%Z.

End RuleVocabulary.

(** * Properties *)

(** ** Numbers *)

Section Numbers.

Local Open Scope Q_scope.

Lemma leb_le (x y : Q) : Js.leb x y = true <-> x <= y.
Proof. apply Qle_bool_iff. Qed.

Lemma leb_gt (x y : Q) : Js.leb x y = false <-> y < x.
Proof.
  unfold Js.leb. rewrite <- not_true_iff_false, Qle_bool_iff.
  split; [apply Qnot_le_lt | apply Qlt_not_le].
Qed.

Lemma Math_min_spec (a b : Q) :
  (a <= b /\ Js.Math_min a b = a) \/ (b < a /\ Js.Math_min a b = b).
Proof.
  unfold Js.Math_min. destruct (Qle_bool a b) eqn:E.
  - left. split; [by apply Qle_bool_iff | done].
  - right. split; [by apply leb_gt | done].
Qed.

Lemma Math_max_spec (a b : Q) :
  (a <= b /\ Js.Math_max a b = b) \/ (b < a /\ Js.Math_max a b = a).
Proof.
  unfold Js.Math_max. destruct (Qle_bool a b) eqn:E.
  - left. split; [by apply Qle_bool_iff | done].
  - right. split; [by apply leb_gt | done].
Qed.

End Numbers.

(** Case analysis on every numeric comparison of the goal. *)
Ltac js_compare :=
  repeat match goal with
    | |- context [Js.leb ?x ?y] =>
        let E := fresh "E" in
        destruct (Js.leb x y) eqn:E; [apply leb_le in E | apply leb_gt in E]
    | |- context [Js.geb ?x ?y] => unfold Js.geb
    | |- context [Js.gtb ?x ?y] => unfold Js.gtb
    | |- context [Js.ltb ?x ?y] => unfold Js.ltb
    | |- context [Qle_bool ?x ?y] => change (Qle_bool x y) with (Js.leb x y)
    end; simpl negb.

(** ** Linear normalization *)

Section Normalize.

Local Open Scope Q_scope.
Import StruggleSignalService.

Lemma normalize_range (x mn mx : Q) : 0 <= _normalizeLinear x mn mx <= 1.
Proof.
  unfold _normalizeLinear. js_compare; try lra.
  assert (0 < mx - mn) by lra.
  split.
  - apply Qle_shift_div_l; lra.
  - apply Qle_shift_div_r; lra.
Qed.

Lemma normalize_at_min (mn mx : Q) : _normalizeLinear mn mn mx = 0.
Proof. unfold _normalizeLinear. js_compare; try done; lra. Qed.

Lemma normalize_at_max (mn mx : Q) : mn < mx -> _normalizeLinear mx mn mx = 1.
Proof. intros H. unfold _normalizeLinear. js_compare; try done; lra. Qed.

Lemma normalize_mono (x y mn mx : Q) :
  x <= y -> _normalizeLinear x mn mx <= _normalizeLinear y mn mx.
Proof.
  intros Hxy. unfold _normalizeLinear. js_compare; try lra.
  - assert (0 < mx - mn) by lra. apply Qle_shift_div_l; lra.
  - assert (0 < mx - mn) by lra. apply Qle_shift_div_r; lra.
  - assert (0 < mx - mn) by lra. unfold Qdiv.
    apply Qmult_le_compat_r; [lra|]. apply Qlt_le_weak, Qinv_lt_0_compat. lra.
Qed.

(** On a degenerate range the guard [max <= min] answers 0 for every [x]. *)
Lemma normalize_degenerate (x mn mx : Q) : mx <= mn -> _normalizeLinear x mn mx = 0.
Proof. intros H. unfold _normalizeLinear. js_compare; try done; lra. Qed.

(** C7, as stated, fails: with [min = max = 5] the value at [max] is 0,
    not 1, because the guard [if (max <= min) return 0] comes first. *)
Lemma normalizeLinear_at_max_degenerate : ~ (_normalizeLinear 5 5 5 == 1).
Proof. vm_compute. discriminate. Qed.

(** C7 (amended): for every [x], [min], [max] the result of
    [_normalizeLinear] lies in [0,1], the value at [min] is 0, the function
    is monotonic non-decreasing in [x], and the value at [max] is 1 whenever
    [min < max]. *)
Theorem normalizeLinear_properties (x y mn mx : Q) :
  0 <= _normalizeLinear x mn mx <= 1
  /\ _normalizeLinear mn mn mx == 0
  /\ (mn < mx -> _normalizeLinear mx mn mx == 1)
  /\ (x <= y -> _normalizeLinear x mn mx <= _normalizeLinear y mn mx).
Proof.
  split; [apply normalize_range|].
  split; [by rewrite normalize_at_min|].
  split; [intros H; by rewrite normalize_at_max|].
  apply normalize_mono.
Qed.

Lemma normalizeLinear_properties_witness :
  _normalizeLinear 5 1 5 == 1 /\ _normalizeLinear 2 1 5 <= _normalizeLinear 3 1 5.
Proof.
  destruct (normalizeLinear_properties 2 3 1 5) as (_ & _ & Hmax & Hmono).
  split; [apply Hmax; reflexivity | apply Hmono; discriminate].
Defined.

End Normalize.

(** ** Score aggregation *)

Section Scoring.

Local Open Scope Q_scope.
Import StruggleScoringService.

Lemma get_or_0_unit (aggregated : Aggregated) (t : SignalType) :
  unit_valued aggregated -> in_unit (get_or_0 aggregated t).
Proof.
  intros H. unfold get_or_0. destruct (aggregated t) eqn:E.
  - by apply (H t).
  - unfold in_unit. lra.
Qed.

Lemma rawScore_unfold (aggregated : Aggregated) :
  rawScore_of aggregated ==
    0.25 * get_or_0 aggregated REPEATED_TOPIC
    + 0.20 * get_or_0 aggregated FAILED_ATTEMPT
    + 0.15 * get_or_0 aggregated NEGATIVE_SENTIMENT
    + 0.15 * get_or_0 aggregated ENGAGEMENT_DROP
    + 0.15 * get_or_0 aggregated LONG_RESPONSE_TIME
    + 0.10 * get_or_0 aggregated HINT_DEPENDENCY.
Proof. unfold rawScore_of, score_loop, WEIGHTS. simpl. lra. Qed.

Lemma struggleScore_range (rawScore : Q) : 1 <= struggleScore_of rawScore <= 10.
Proof.
  unfold struggleScore_of.
  set (r := inject_Z _ / 10).
  destruct (Math_max_spec 1 r) as [[? ->]|[? ->]];
    [destruct (Math_min_spec 10 r) as [[? ->]|[? ->]]
    |destruct (Math_min_spec 10 1) as [[? ->]|[? ->]]]; lra.
Qed.

(** The maxima computed from stored signals are magnitudes again. *)
Lemma aggregate_unit (sigs : list StruggleSignal.t) :
  Forall (fun s => in_unit (StruggleSignal.value (StruggleSignal.fields s))) sigs ->
  unit_valued (aggregate sigs).
Proof.
  unfold aggregate.
  assert (Hgen : forall (a0 : Aggregated), unit_valued a0 ->
            Forall (fun s => in_unit (StruggleSignal.value (StruggleSignal.fields s))) sigs ->
            unit_valued
              (fold_left
                 (fun aggregated s =>
                    let type := StruggleSignal.signalType (StruggleSignal.fields s) in
                    set_key aggregated type
                      (Js.Math_max (get_or_0 aggregated type)
                         (StruggleSignal.value (StruggleSignal.fields s))))
                 sigs a0)).
  { induction sigs as [|s sigs IH]; intros a0 Ha0 Hall; [exact Ha0|].
    inversion Hall as [|? ? Hs Hrest]; subst. simpl. apply IH; [|exact Hrest].
    intros t v. unfold set_key. case_bool_decide; [|apply Ha0].
    intros [= <-].
    pose proof (get_or_0_unit a0 (StruggleSignal.signalType (StruggleSignal.fields s)) Ha0).
    destruct (Math_max_spec
                (get_or_0 a0 (StruggleSignal.signalType (StruggleSignal.fields s)))
                (StruggleSignal.value (StruggleSignal.fields s))) as [[_ ->]|[_ ->]];
      assumption. }
  apply Hgen. intros t v. discriminate.
Qed.

(** C3: the fixed weights sum to 1; for per-kind maxima that all lie in
    [0,1] the raw weighted sum lies in [0,1], and the composite score
    [min(10, max(1, round((1 + raw * 9) * 10) / 10))] lies in [1,10]. *)
Theorem score_bounds (aggregated : Aggregated) :
  unit_valued aggregated ->
  weight_sum == 1
  /\ 0 <= rawScore_of aggregated <= 1
  /\ 1 <= struggleScore_of (rawScore_of aggregated) <= 10.
Proof.
  intros H.
  split; [vm_compute; reflexivity|].
  split; [|apply struggleScore_range].
  rewrite rawScore_unfold.
  pose proof (get_or_0_unit aggregated REPEATED_TOPIC H) as H1.
  pose proof (get_or_0_unit aggregated FAILED_ATTEMPT H) as H2.
  pose proof (get_or_0_unit aggregated NEGATIVE_SENTIMENT H) as H3.
  pose proof (get_or_0_unit aggregated ENGAGEMENT_DROP H) as H4.
  pose proof (get_or_0_unit aggregated LONG_RESPONSE_TIME H) as H5.
  pose proof (get_or_0_unit aggregated HINT_DEPENDENCY H) as H6.
  unfold in_unit in *. lra.
Qed.

End Scoring.

Lemma score_bounds_witness :
  let aggregated : StruggleScoringService.Aggregated := fun _ => Some 1%Q in
  (0 <= StruggleScoringService.rawScore_of aggregated <= 1)%Q.
Proof.
  apply (score_bounds (fun _ => Some 1%Q)).
  intros t v [= <-]. unfold in_unit. lra.
Defined.

(** ** Empty evaluation window *)

Section EmptyWindow.

Import StruggleScoringService.

(** C6: when the user has no signal in the evaluation window,
    [recomputeForUser] returns normally and overwrites the profile with
    score 1, trend STABLE, support level LOW, no contributing signals and
    an empty reason summary, whatever was stored before; the other
    collections and the other users' profiles are untouched. *)
Theorem empty_window_reset (userId : nat) (options : Options) (w : World) :
  StruggleSignal_find userId
    (clock w (tick w) - hours_ms (default 24 (windowHours options)))%Z w = [] ->
  exists p w',
    recomputeForUser userId options w = (p, w')
    /\ struggleProfiles w' !! userId = Some p
    /\ StruggleProfile.struggleScore p = 1%Q
    /\ StruggleProfile.trend p = STABLE
    /\ StruggleProfile.supportLevel p = LOW
    /\ StruggleProfile.contributingSignals p = []
    /\ StruggleProfile.lastReasonSummary p = ""
    /\ struggleSignals w' = struggleSignals w
    /\ tutorAlerts w' = tutorAlerts w
    /\ (forall u, u <> userId -> struggleProfiles w' !! u = struggleProfiles w !! u).
Proof.
  intros Hnone.
  unfold recomputeForUser, Date_now. cbn -[hours_ms].
  unfold StruggleSignal_find in *. cbn -[hours_ms] in *. rewrite Hnone. cbn.
  unfold _upsertProfile, Date_now. cbn.
  eexists _, _. split; [reflexivity|]. cbn.
  split; [by rewrite lookup_insert_eq|].
  destruct (struggleProfiles w !! userId) eqn:Eprev; cbn;
    repeat split; try reflexivity; intros u Hu; by rewrite lookup_insert_ne.
Qed.

End EmptyWindow.

(** ** Mark as read *)

Section MarkAsRead.

Import TutorAlertService.

Lemma set_isRead_same_but_read (a : TutorAlert.t) :
  same_but_read a (TutorAlert.set_isRead true a).
Proof. by repeat split. Qed.

Lemma findOneAndUpdate_length (alertId tutorId : nat) (docs : list TutorAlert.t) :
  length (snd (findOneAndUpdate_isRead alertId tutorId docs)) = length docs.
Proof.
  induction docs as [|a rest IH]; [done|]. simpl.
  destruct (_ && _); [done|].
  destruct (findOneAndUpdate_isRead alertId tutorId rest). simpl in *. by rewrite IH.
Qed.

Lemma match_test_spec (alertId tutorId : nat) (a : TutorAlert.t) :
  (TutorAlert._id a =? alertId)%nat && (TutorAlert.tutorId a =? tutorId)%nat = true
  <-> alert_matches alertId tutorId a.
Proof.
  unfold alert_matches. rewrite andb_true_iff, !Nat.eqb_eq. tauto.
Qed.

Lemma findOneAndUpdate_pointwise (alertId tutorId : nat) (docs : list TutorAlert.t)
    (i : nat) (a : TutorAlert.t) :
  docs !! i = Some a ->
  snd (findOneAndUpdate_isRead alertId tutorId docs) !! i = Some a
  \/ (alert_matches alertId tutorId a
      /\ snd (findOneAndUpdate_isRead alertId tutorId docs) !! i
         = Some (TutorAlert.set_isRead true a)).
Proof.
  revert i. induction docs as [|b rest IH]; intros i Hi; [done|].
  simpl. destruct (_ && _) eqn:E.
  - destruct i as [|i]; simpl in *.
    + injection Hi as ->. right. split; [by apply match_test_spec|done].
    + by left.
  - destruct (findOneAndUpdate_isRead alertId tutorId rest) as [r rest'] eqn:Er.
    destruct i as [|i]; simpl in *; [by left|].
    apply (IH i Hi).
Qed.

Lemma findOneAndUpdate_no_match (alertId tutorId : nat) (docs : list TutorAlert.t) :
  (forall a, In a docs -> ~ alert_matches alertId tutorId a) ->
  findOneAndUpdate_isRead alertId tutorId docs = (None, docs).
Proof.
  induction docs as [|b rest IH]; intros Hno; [done|].
  simpl. destruct (_ && _) eqn:E.
  - exfalso. apply (Hno b); [by left|]. by apply match_test_spec.
  - rewrite IH; [done|]. intros a Ha. apply Hno. by right.
Qed.

Lemma findOneAndUpdate_result (alertId tutorId : nat) (docs : list TutorAlert.t)
    (a' : TutorAlert.t) :
  fst (findOneAndUpdate_isRead alertId tutorId docs) = Some a' ->
  exists a, In a docs /\ alert_matches alertId tutorId a
            /\ a' = TutorAlert.set_isRead true a
            /\ In a' (snd (findOneAndUpdate_isRead alertId tutorId docs)).
Proof.
  induction docs as [|b rest IH]; [done|].
  simpl. destruct (_ && _) eqn:E.
  - simpl. intros [= <-]. exists b.
    split; [by left|]. split; [by apply match_test_spec|]. split; [done|by left].
  - destruct (findOneAndUpdate_isRead alertId tutorId rest) as [r rest'] eqn:Er.
    simpl in *. intros Hr. destruct (IH Hr) as (a & Ha & Hm & Heq & Hin).
    exists a. split; [by right|]. split; [done|]. split; [done|by right].
Qed.

(** When some alert matches, the first one that does is returned with its
    read flag set and stored in its place; every other position holds
    what it held before. *)
Lemma findOneAndUpdate_first (alertId tutorId : nat) (docs : list TutorAlert.t) :
  (exists a, In a docs /\ alert_matches alertId tutorId a) ->
  exists i a0,
    docs !! i = Some a0
    /\ alert_matches alertId tutorId a0
    /\ (forall j b, (j < i)%nat -> docs !! j = Some b -> ~ alert_matches alertId tutorId b)
    /\ fst (findOneAndUpdate_isRead alertId tutorId docs)
       = Some (TutorAlert.set_isRead true a0)
    /\ snd (findOneAndUpdate_isRead alertId tutorId docs) !! i
       = Some (TutorAlert.set_isRead true a0)
    /\ (forall j, j <> i ->
          snd (findOneAndUpdate_isRead alertId tutorId docs) !! j = docs !! j).
Proof.
  induction docs as [|b rest IH]; intros (a & Hin & Hm); [by destruct Hin|].
  cbn [findOneAndUpdate_isRead].
  destruct (_ && _) eqn:E.
  - exists 0%nat, b. apply match_test_spec in E.
    split; [reflexivity|]. split; [exact E|]. split; [intros j c Hj; lia|].
    split; [reflexivity|]. split; [reflexivity|].
    intros j Hj. destruct j as [|j]; [done|reflexivity].
  - assert (Hrest : exists a, In a rest /\ alert_matches alertId tutorId a).
    { destruct Hin as [<-|Hin]; [|by exists a].
      apply match_test_spec in Hm. congruence. }
    destruct (IH Hrest) as (i & a0 & Hi & Hm0 & Hfirst & Hr & Hs & Hother).
    destruct (findOneAndUpdate_isRead alertId tutorId rest) as [r rest'].
    cbn [fst snd] in *.
    exists (S i), a0. split; [exact Hi|]. split; [exact Hm0|].
    split.
    { intros j c Hj Hc. destruct j as [|j].
      - cbn in Hc. injection Hc as <-. intros Hb. apply match_test_spec in Hb. congruence.
      - apply (Hfirst j c); [lia|exact Hc]. }
    split; [exact Hr|]. split; [exact Hs|].
    intros j Hj. destruct j as [|j]; [reflexivity|]. apply Hother. lia.
Qed.

(** C9: [markAsRead alertId tutorId] leaves every other collection alone
    and keeps the alerts in place; an alert that changes is one whose id is
    [alertId] and whose tutor is [tutorId], and it changes only by having
    its read flag set; an alert that does not match is unchanged; when no
    alert with that id belongs to that tutor, nothing is stored and no
    document is returned; a returned document is the updated alert; and
    when an alert with that id belongs to that tutor, the first such alert
    is returned with its read flag set to true and every other field as
    before, it is stored in the place of the original, and every other
    alert stays as it was. *)
Theorem markAsRead_frame (alertId tutorId : nat) (w w' : World)
    (r : option TutorAlert.t) :
  markAsRead alertId tutorId w = (r, w') ->
  (aiInteractions w' = aiInteractions w /\ struggleSignals w' = struggleSignals w
   /\ struggleProfiles w' = struggleProfiles w /\ careNetworks w' = careNetworks w)
  /\ length (tutorAlerts w') = length (tutorAlerts w)
  /\ (forall i a, tutorAlerts w !! i = Some a ->
        tutorAlerts w' !! i = Some a
        \/ (alert_matches alertId tutorId a
            /\ exists a', tutorAlerts w' !! i = Some a' /\ same_but_read a a'))
  /\ (forall i a, tutorAlerts w !! i = Some a -> ~ alert_matches alertId tutorId a ->
        tutorAlerts w' !! i = Some a)
  /\ ((forall a, In a (tutorAlerts w) -> ~ alert_matches alertId tutorId a) ->
        r = None /\ w' = w)
  /\ (forall a', r = Some a' ->
        exists a, In a (tutorAlerts w) /\ alert_matches alertId tutorId a
                  /\ same_but_read a a' /\ In a' (tutorAlerts w'))
  /\ ((exists a, In a (tutorAlerts w) /\ alert_matches alertId tutorId a) ->
        exists i a0 a',
          tutorAlerts w !! i = Some a0
          /\ alert_matches alertId tutorId a0
          /\ (forall j b, (j < i)%nat -> tutorAlerts w !! j = Some b ->
                          ~ alert_matches alertId tutorId b)
          /\ r = Some a'
          /\ same_but_read a0 a'
          /\ TutorAlert.isRead a' = true
          /\ tutorAlerts w' !! i = Some a'
          /\ (forall j, j <> i -> tutorAlerts w' !! j = tutorAlerts w !! j)).
Proof.
  unfold markAsRead.
  destruct (findOneAndUpdate_isRead alertId tutorId (tutorAlerts w)) as [r0 docs] eqn:E.
  intros [= <- <-]. cbn.
  assert (Hdocs : docs = snd (findOneAndUpdate_isRead alertId tutorId (tutorAlerts w)))
    by (by rewrite E).
  assert (Hr : r0 = fst (findOneAndUpdate_isRead alertId tutorId (tutorAlerts w)))
    by (by rewrite E).
  split; [done|].
  split; [rewrite Hdocs; apply findOneAndUpdate_length|].
  split.
  { intros i a Hi. rewrite Hdocs.
    destruct (findOneAndUpdate_pointwise alertId tutorId _ i a Hi) as [H|[Hm H]];
      [by left|right].
    split; [done|]. eexists. split; [exact H|apply set_isRead_same_but_read]. }
  split.
  { intros i a Hi Hno. rewrite Hdocs.
    destruct (findOneAndUpdate_pointwise alertId tutorId _ i a Hi) as [H|[Hm H]];
      [done|by destruct Hno]. }
  split.
  { intros Hno. rewrite (findOneAndUpdate_no_match _ _ _ Hno) in E.
    injection E as <- <-. split; [done|]. by destruct w. }
  split.
  { intros a' Ha'. rewrite Hr in Ha'.
    destruct (findOneAndUpdate_result _ _ _ _ Ha') as (a & Hin & Hm & -> & Hin').
    exists a. rewrite Hdocs.
    split; [done|]. split; [done|]. split; [apply set_isRead_same_but_read|done]. }
  intros Hsome.
  destruct (findOneAndUpdate_first alertId tutorId (tutorAlerts w) Hsome)
    as (i & a0 & Hi & Hm & Hfirst & Hfst & Hsnd & Hother).
  exists i, a0, (TutorAlert.set_isRead true a0).
  split; [exact Hi|]. split; [exact Hm|]. split; [exact Hfirst|].
  split; [by rewrite Hr|]. split; [apply set_isRead_same_but_read|].
  split; [reflexivity|]. rewrite Hdocs. split; [exact Hsnd|exact Hother].
Qed.

End MarkAsRead.

(** ** The role gate *)

Section RoleGate.

Import StruggleSignalService.

Lemma role_gate_spec (i : AIInteraction.t) :
  role_gate i = true
  <-> exists r, AIInteraction.role i = Js.Str r /\ r <> "" /\ r <> "STUDENT".
Proof.
  unfold role_gate, Js.truthy, Js.strict_neq.
  destruct (AIInteraction.role i) as [| |r].
  - split; [done|]. by intros (r & ? & _).
  - split; [done|]. by intros (r & ? & _).
  - rewrite andb_true_iff, !negb_true_iff, !String.eqb_neq. split.
    + intros [H1 H2]. by exists r.
    + intros (r' & [= <-] & H1 & H2). done.
Qed.

Lemma role_gate_falsy (i : AIInteraction.t) :
  AIInteraction.role i = Js.Undefined
  \/ AIInteraction.role i = Js.Null
  \/ AIInteraction.role i = Js.Str "" ->
  role_gate i = false.
Proof. unfold role_gate. by intros [-> | [-> | ->]]. Qed.

(** Nothing after the gate reads the role. *)
Lemma signalPayloads_role (r : Js.value) (i : AIInteraction.t) (windowHours : Z) (w : World) :
  signalPayloads (with_role r i) windowHours w = signalPayloads i windowHours w.
Proof.
  unfold signalPayloads, topic_of, rule_failedAttempt, rule_repeatedTopic,
    rule_longResponseTime, rule_negativeSentiment, rule_hintDependency,
    rule_engagementDrop, _signal, with_role.
  cbn [AIInteraction._id AIInteraction.userId AIInteraction.role AIInteraction.track
       AIInteraction.topicOneLine AIInteraction.inputText AIInteraction.status
       AIInteraction.processingTime AIInteraction.createdAt].
  reflexivity.
Qed.

(** C8, as stated, fails: an interaction with no role at all is not
    attributed to the learner role, yet extraction goes ahead, reports one
    created signal and stores it. *)
Lemma role_absent_not_short_circuited :
  AIInteraction.role Sample.failed_no_role = Js.Undefined
  /\ fst (extractSignalsFromInteraction Sample.failed_no_role (mkOptions None)
            (Sample.empty_world Sample.failed_no_role))
     <> inr (mkResult 0 0 [])
  /\ length (struggleSignals
               (snd (extractSignalsFromInteraction Sample.failed_no_role (mkOptions None)
                       (Sample.empty_world Sample.failed_no_role)))) = 1%nat.
Proof. split; [done|]. split; [vm_compute; discriminate|by vm_compute]. Qed.

(** C8 (amended): for every interaction whose role field holds a non-empty
    value other than "STUDENT", [extractSignalsFromInteraction] returns
    [{created: 0, skipped: 0, signals: []}] at once, with no error and the
    store untouched. *)
Theorem other_role_short_circuits (i : AIInteraction.t) (options : Options)
    (w : World) (r : string) :
  AIInteraction.role i = Js.Str r -> r <> "" -> r <> "STUDENT" ->
  extractSignalsFromInteraction i options w = (inr (mkResult 0 0 []), w).
Proof.
  intros Hr H1 H2. unfold extractSignalsFromInteraction.
  assert (Hg : role_gate i = true) by (apply role_gate_spec; by exists r).
  by rewrite Hg.
Qed.

Lemma other_role_short_circuits_witness :
  extractSignalsFromInteraction Sample.failed_alumni (mkOptions None)
    (Sample.empty_world Sample.failed_alumni)
  = (inr (mkResult 0 0 []), Sample.empty_world Sample.failed_alumni).
Proof.
  apply (other_role_short_circuits Sample.failed_alumni (mkOptions None)
           (Sample.empty_world Sample.failed_alumni) "ALUMNI");
    [reflexivity | discriminate | discriminate].
Defined.

(** C10: the gate fires exactly when the role field holds a non-empty
    string other than "STUDENT"; when the role is absent, [null] or the
    empty string the call does not return early: it computes the payloads
    and runs the write loop, with the same outcome as for the same
    interaction attributed to "STUDENT". *)
Theorem falsy_role_runs_extraction (i : AIInteraction.t) (options : Options) (w : World) :
  (role_gate i = true
   <-> exists r, AIInteraction.role i = Js.Str r /\ r <> "" /\ r <> "STUDENT")
  /\ (AIInteraction.role i = Js.Undefined
      \/ AIInteraction.role i = Js.Null
      \/ AIInteraction.role i = Js.Str "" ->
      role_gate i = false
      /\ extractSignalsFromInteraction i options w
         = (let '(payloads, w1) :=
              signalPayloads i (default 24%Z (windowHours options)) w in
            writeSignals payloads 0 0 [] w1)
      /\ extractSignalsFromInteraction i options w
         = extractSignalsFromInteraction (with_role (Js.Str "STUDENT") i) options w).
Proof.
  split; [apply role_gate_spec|].
  intros Hfalsy. pose proof (role_gate_falsy i Hfalsy) as Hg.
  split; [done|].
  unfold extractSignalsFromInteraction. rewrite Hg.
  split; [done|].
  replace (role_gate (with_role (Js.Str "STUDENT") i)) with false
    by (by destruct i).
  by rewrite signalPayloads_role.
Qed.

Lemma falsy_role_runs_extraction_witness :
  extractSignalsFromInteraction Sample.failed_no_role (mkOptions None)
    (Sample.empty_world Sample.failed_no_role)
  = extractSignalsFromInteraction Sample.failed_student (mkOptions None)
      (Sample.empty_world Sample.failed_no_role).
Proof.
  apply (falsy_role_runs_extraction Sample.failed_no_role (mkOptions None)
           (Sample.empty_world Sample.failed_no_role)).
  left. reflexivity.
Defined.

End RoleGate.

(** ** Alert cooldown *)

Section Cooldown.

Import TutorAlertService.

Lemma TutorAlert_create_cases (tutorId studentId : nat) (profile : StruggleProfile.t) (w : World) :
  let call :=
    TutorAlert_create tutorId studentId
      (if Js.geb (StruggleProfile.struggleScore profile) 9 then URGENT else SOFT)
      (Js.or_default (Js.Str (StruggleProfile.lastReasonSummary profile)) "current topic")
      (StruggleProfile.struggleScore profile)
      "A learner you helped before may benefit from support." w in
  (~ (1 <= StruggleProfile.struggleScore profile <= 10)%Q
   /\ call = (inl (ValidationError "struggleScore"), w))
  \/ ((1 <= StruggleProfile.struggleScore profile <= 10)%Q
      /\ call = (inr (created_doc tutorId studentId profile w),
                 after_create (created_doc tutorId studentId profile w) w)).
Proof.
  cbv zeta. unfold TutorAlert_create.
  destruct (Js.leb 1 _) eqn:E1; [destruct (Js.leb _ 10) eqn:E2|]; simpl.
  - right. apply leb_le in E1, E2. done.
  - left. apply leb_le in E1. apply leb_gt in E2. split; [lra|done].
  - left. apply leb_gt in E1. split; [lra|done].
Qed.

Lemma alert_loop_cons (profile : StruggleProfile.t) (studentId tutorId : nat)
    (rest : list nat) (acc : list TutorAlert.t) (w : World) :
  alert_loop profile studentId (tutorId :: rest) acc w =
    let w1 := set_tick (S (tick w)) w in
    match TutorAlert_findOne_recent tutorId studentId
            (clock w (tick w) - hours_ms COOLDOWN_HOURS)%Z w1 with
    | Some _ => alert_loop profile studentId rest acc w1
    | None =>
        match
          TutorAlert_create tutorId studentId
            (if Js.geb (StruggleProfile.struggleScore profile) 9 then URGENT else SOFT)
            (Js.or_default (Js.Str (StruggleProfile.lastReasonSummary profile)) "current topic")
            (StruggleProfile.struggleScore profile)
            "A learner you helped before may benefit from support." w1
        with
        | (inr alert, w') => alert_loop profile studentId rest (acc ++ [alert]) w'
        | (inl err, w') => (inl err, w')
        end
    end.
Proof. reflexivity. Qed.

(** Unfold one iteration of the loop in hypothesis [H]. *)
Ltac loop_step H tutorId studentId profile w Efind Hscore :=
  rewrite alert_loop_cons in H; cbv zeta in H;
  destruct (TutorAlert_findOne_recent tutorId studentId _ (set_tick (S (tick w)) w))
    as [found|] eqn:Efind;
  [| destruct (TutorAlert_create_cases tutorId studentId profile (set_tick (S (tick w)) w))
       as [[Hscore Hcreate]|[Hscore Hcreate]];
     cbv zeta in Hcreate; rewrite Hcreate in H ].

(** What one run of the loop does to the store. *)
Lemma alert_loop_frame (profile : StruggleProfile.t) (studentId : nat) (tutorIds : list nat) :
  forall (acc : list TutorAlert.t) (w w' : World) r,
    alert_loop profile studentId tutorIds acc w = (r, w') ->
    exists new,
      tutorAlerts w' = tutorAlerts w ++ new
      /\ clock w' = clock w
      /\ (tick w <= tick w')%nat
      /\ (forall res, r = inr res -> res = acc ++ new)
      /\ Forall (fun a =>
                   TutorAlert.studentId a = studentId
                   /\ In (TutorAlert.tutorId a) tutorIds
                   /\ TutorAlert.urgency a
                      = (if Js.geb (StruggleProfile.struggleScore profile) 9
                         then URGENT else SOFT)
                   /\ TutorAlert.struggleScore a = StruggleProfile.struggleScore profile
                   /\ exists k, (tick w <= k < tick w')%nat
                                /\ TutorAlert.createdAt a = clock w k) new.
Proof.
  induction tutorIds as [|tutorId rest IH]; intros acc w w' r H.
  - simpl in H. injection H as <- <-. exists [].
    rewrite app_nil_r. repeat split; try done.
    intros res [= <-]. by rewrite app_nil_r.
  - loop_step H tutorId studentId profile w Efind Hscore.
    + destruct (IH _ _ _ _ H) as (new & Ha & Hc & Ht & Hr & Hall).
      exists new. simpl in *. repeat split; try done; [lia|].
      eapply Forall_impl; [exact Hall|]. simpl.
      intros a (? & ? & ? & ? & k & ? & ?). repeat split; try done; [by right|].
      exists k. split; [lia|done].
    + injection H as <- <-. exists []. simpl. rewrite app_nil_r.
      repeat split; try done. lia.
    + destruct (IH _ _ _ _ H) as (new & Ha & Hc & Ht & Hr & Hall).
      exists (created_doc tutorId studentId profile (set_tick (S (tick w)) w) :: new).
      simpl in *. rewrite <- app_assoc in Ha. simpl in Ha.
      repeat split; try done; [lia| |].
      * intros res Hres. rewrite (Hr res Hres), <- app_assoc. done.
      * constructor.
        -- simpl. repeat split; try done; [by left|].
           exists (S (tick w)). split; [lia|done].
        -- eapply Forall_impl; [exact Hall|]. simpl.
           intros a (? & ? & ? & ? & k & ? & ?). repeat split; try done; [by right|].
           exists k. split; [lia|done].
Qed.

Lemma for_pair_spec (t s : nat) (a : TutorAlert.t) :
  for_pair t s a = true <-> TutorAlert.tutorId a = t /\ TutorAlert.studentId a = s.
Proof. unfold for_pair. rewrite andb_true_iff, !Nat.eqb_eq. tauto. Qed.

Lemma pair_count_cons (t s : nat) (a : TutorAlert.t) (l : list TutorAlert.t) :
  pair_count t s (a :: l)
  = ((if for_pair t s a then 1 else 0) + pair_count t s l)%nat.
Proof. unfold pair_count. simpl. by destruct (for_pair t s a). Qed.

Lemma pair_count_app (t s : nat) (l1 l2 : list TutorAlert.t) :
  pair_count t s (l1 ++ l2) = (pair_count t s l1 + pair_count t s l2)%nat.
Proof. unfold pair_count. by rewrite List.filter_app, length_app. Qed.

Lemma pair_count_pos (t s : nat) (l : list TutorAlert.t) :
  (0 < pair_count t s l)%nat -> exists a, In a l /\ for_pair t s a = true.
Proof.
  induction l as [|a l IH]; [unfold pair_count; simpl; lia|].
  rewrite pair_count_cons. destruct (for_pair t s a) eqn:E.
  - intros _. exists a. split; [by left|done].
  - intros H. destruct IH as (b & ? & ?); [simpl in H; lia|].
    exists b. split; [by right|done].
Qed.

(** The cooldown query finds every alert of the pair that is recent enough. *)
Lemma findOne_recent_hit (t s : nat) (since : Z) (w : World) (a : TutorAlert.t) :
  In a (tutorAlerts w) -> for_pair t s a = true ->
  (since <= TutorAlert.createdAt a)%Z ->
  TutorAlert_findOne_recent t s since w <> None.
Proof.
  intros Hin Hp Hsince Hnone. unfold TutorAlert_findOne_recent in Hnone.
  pose proof (find_none _ _ Hnone a Hin) as Hf. simpl in Hf.
  apply for_pair_spec in Hp as [Ht Hs].
  rewrite Ht, Hs, !Nat.eqb_refl in Hf. simpl in Hf. apply Z.leb_gt in Hf. lia.
Qed.

(** While an alert of the pair is within the cooldown, the loop creates
    no further alert for the pair. *)
Lemma alert_loop_skips (profile : StruggleProfile.t) (s t : nat) (tutorIds : list nat) :
  forall (acc : list TutorAlert.t) (w w' : World) r new,
    monotone (clock w) ->
    alert_loop profile s tutorIds acc w = (r, w') ->
    tutorAlerts w' = tutorAlerts w ++ new ->
    (exists a, In a (tutorAlerts w) /\ for_pair t s a = true
               /\ (clock w (tick w') - hours_ms COOLDOWN_HOURS <= TutorAlert.createdAt a)%Z) ->
    pair_count t s new = 0%nat.
Proof.
  induction tutorIds as [|tutorId rest IH]; intros acc w w' r new Hmono H Hnew Hrecent.
  - simpl in H. injection H as <- <-.
    rewrite <- (app_nil_r (tutorAlerts w)) in Hnew at 1.
    apply app_inv_head in Hnew. by subst.
  - destruct Hrecent as (a & Hin & Hpair & Hfresh).
    pose proof (alert_loop_frame _ _ _ _ _ _ _ H) as (new0 & Hn0 & _ & Htick & _).
    loop_step H tutorId s profile w Efind Hscore.
    + assert (Hmono' : monotone (clock (set_tick (S (tick w)) w))) by exact Hmono.
      eapply (IH _ _ _ _ _ Hmono' H); [exact Hnew|]. by exists a.
    + injection H as <- <-. simpl in Hnew.
      rewrite <- (app_nil_r (tutorAlerts w)) in Hnew at 1.
      apply app_inv_head in Hnew. by subst.
    + pose proof (alert_loop_frame _ _ _ _ _ _ _ H) as (new1 & Hn1 & _ & Htick1 & _).
      simpl in Hn1, Htick1. rewrite <- app_assoc in Hn1. simpl in Hn1.
      rewrite Hnew in Hn1. apply app_inv_head in Hn1. subst new.
      rewrite pair_count_cons.
      assert (Hne : for_pair t s (created_doc tutorId s profile (set_tick (S (tick w)) w)) = false).
      { destruct (for_pair t s (created_doc tutorId s profile (set_tick (S (tick w)) w))) eqn:Ep;
          [|done]. exfalso.
        apply for_pair_spec in Ep as [Ep _]. unfold created_doc in Ep. simpl in Ep. subst tutorId.
        eapply (findOne_recent_hit t s _ _ a); [| exact Hpair | | exact Efind];
          [exact Hin|].
        pose proof (Hmono (tick w) (tick w') ltac:(lia)). lia. }
      rewrite Hne. simpl.
      assert (Hmono' : monotone
                (clock (after_create
                          (created_doc tutorId s profile (set_tick (S (tick w)) w))
                          (set_tick (S (tick w)) w)))) by exact Hmono.
      eapply (IH _ _ _ _ _ Hmono' H).
      * simpl. rewrite <- app_assoc. exact Hnew.
      * exists a. simpl. split; [apply in_or_app; by left|]. done.
Qed.

(** One run of the loop that lasts at most the cooldown creates at most
    one alert per pair. *)
Lemma alert_loop_at_most_one (profile : StruggleProfile.t) (s t : nat) (tutorIds : list nat) :
  forall (acc : list TutorAlert.t) (w w' : World) r new,
    monotone (clock w) ->
    alert_loop profile s tutorIds acc w = (r, w') ->
    tutorAlerts w' = tutorAlerts w ++ new ->
    (clock w (tick w') - clock w (tick w) <= hours_ms COOLDOWN_HOURS)%Z ->
    (pair_count t s new <= 1)%nat.
Proof.
  induction tutorIds as [|tutorId rest IH]; intros acc w w' r new Hmono H Hnew Hspan.
  - simpl in H. injection H as <- <-.
    rewrite <- (app_nil_r (tutorAlerts w)) in Hnew at 1.
    apply app_inv_head in Hnew. subst. unfold pair_count. simpl. lia.
  - pose proof (alert_loop_frame _ _ _ _ _ _ _ H) as (new0 & Hn0 & _ & Htick & _).
    loop_step H tutorId s profile w Efind Hscore.
    + pose proof (alert_loop_frame _ _ _ _ _ _ _ H) as (new1 & _ & _ & Htick1 & _).
      simpl in Htick1.
      assert (Hmono' : monotone (clock (set_tick (S (tick w)) w))) by exact Hmono.
      eapply (IH _ _ _ _ _ Hmono' H); [exact Hnew|]. simpl.
      pose proof (Hmono (tick w) (S (tick w)) ltac:(lia)). lia.
    + injection H as <- <-. simpl in Hnew.
      rewrite <- (app_nil_r (tutorAlerts w)) in Hnew at 1.
      apply app_inv_head in Hnew. subst. unfold pair_count. simpl. lia.
    + pose proof (alert_loop_frame _ _ _ _ _ _ _ H) as (new1 & Hn1 & _ & Htick1 & _).
      simpl in Hn1, Htick1. rewrite <- app_assoc in Hn1. simpl in Hn1.
      rewrite Hnew in Hn1. apply app_inv_head in Hn1. subst new.
      rewrite pair_count_cons.
      set (doc := created_doc tutorId s profile (set_tick (S (tick w)) w)) in *.
      assert (Hmono' : monotone (clock (after_create doc (set_tick (S (tick w)) w))))
        by exact Hmono.
      destruct (for_pair t s doc) eqn:Ep.
      * assert (pair_count t s new1 = 0%nat); [|lia].
        eapply (alert_loop_skips _ _ _ _ _ _ _ _ _ Hmono' H).
        -- simpl. rewrite <- app_assoc. exact Hnew.
        -- exists doc. simpl. split; [apply in_or_app; right; by left|].
           split; [done|].
           pose proof (Hmono (tick w) (S (tick w)) ltac:(lia)). lia.
      * simpl. eapply (IH _ _ _ _ _ Hmono' H).
        -- simpl. rewrite <- app_assoc. exact Hnew.
        -- simpl. pose proof (Hmono (tick w) (S (S (tick w))) ltac:(lia)). lia.
Qed.

(** With a score the schema accepts the loop never fails, and afterwards
    every tutor of the list has an alert no older than the cooldown. *)
Lemma alert_loop_covers (profile : StruggleProfile.t) (s : nat) (tutorIds : list nat) :
  (1 <= StruggleProfile.struggleScore profile <= 10)%Q ->
  forall (acc : list TutorAlert.t) (w w' : World) r,
    monotone (clock w) ->
    alert_loop profile s tutorIds acc w = (r, w') ->
    (exists res, r = inr res)
    /\ forall t, In t tutorIds ->
         exists a, In a (tutorAlerts w') /\ for_pair t s a = true
                   /\ (clock w (tick w) - hours_ms COOLDOWN_HOURS
                       <= TutorAlert.createdAt a)%Z.
Proof.
  intros Hvalid.
  induction tutorIds as [|tutorId rest IH]; intros acc w w' r Hmono H.
  - simpl in H. injection H as <- <-. split; [by eexists|]. intros t [].
  - pose proof (alert_loop_frame _ _ _ _ _ _ _ H) as (new0 & Hn0 & _ & _ & _).
    assert (Htail : forall (w1 : World),
               clock w1 = clock w -> (tick w <= tick w1)%nat ->
               (forall t, In t rest ->
                  exists a, In a (tutorAlerts w') /\ for_pair t s a = true
                            /\ (clock w1 (tick w1) - hours_ms COOLDOWN_HOURS
                                <= TutorAlert.createdAt a)%Z) ->
               forall t, In t rest ->
                  exists a, In a (tutorAlerts w') /\ for_pair t s a = true
                            /\ (clock w (tick w) - hours_ms COOLDOWN_HOURS
                                <= TutorAlert.createdAt a)%Z).
    { intros w1 Hc Ht Hall t Hin. destruct (Hall t Hin) as (a & ? & ? & ?).
      exists a. split; [done|]. split; [done|].
      rewrite Hc in *. pose proof (Hmono (tick w) (tick w1) Ht). lia. }
    loop_step H tutorId s profile w Efind Hscore.
    + assert (Hmono' : monotone (clock (set_tick (S (tick w)) w))) by exact Hmono.
      destruct (IH _ _ _ _ Hmono' H) as [Hok Hall].
      split; [done|]. intros t [<-|Hin].
      * unfold TutorAlert_findOne_recent in Efind.
        apply find_some in Efind as [Hfin Hf]. simpl in Hfin.
        rewrite !andb_true_iff, !Nat.eqb_eq, Z.leb_le in Hf.
        destruct Hf as [[Ht Hs] Hsince].
        exists found. rewrite Hn0. split; [apply in_or_app; by left|].
        split; [by apply for_pair_spec|done].
      * eapply Htail; [ | | exact Hall | exact Hin]; [reflexivity | simpl; lia].
    + by destruct Hscore.
    + set (doc := created_doc tutorId s profile (set_tick (S (tick w)) w)) in *.
      assert (Hmono' : monotone (clock (after_create doc (set_tick (S (tick w)) w))))
        by exact Hmono.
      destruct (IH _ _ _ _ Hmono' H) as [Hok Hall].
      pose proof (alert_loop_frame _ _ _ _ _ _ _ H) as (new1 & Hn1 & _ & _ & _).
      split; [done|]. intros t [<-|Hin].
      * exists doc. rewrite Hn1. simpl.
        split; [apply in_or_app; left; apply in_or_app; right; by left|].
        split; [apply for_pair_spec; by split|].
        unfold doc, created_doc. simpl.
        assert (0 <= hours_ms COOLDOWN_HOURS)%Z by (by vm_compute).
        pose proof (Hmono (tick w) (S (tick w)) ltac:(lia)). lia.
      * eapply Htail; [ | | exact Hall | exact Hin]; [reflexivity | simpl; lia].
Qed.

Lemma created_between_app (w w' : World) (new : list TutorAlert.t) :
  tutorAlerts w' = tutorAlerts w ++ new -> created_between w w' = new.
Proof. intros H. unfold created_between. rewrite H. apply drop_app_length. Qed.

(** [createAlertsIfNeeded] either returns at once with nothing changed or
    runs the loop over the student's care network. *)
Lemma createAlertsIfNeeded_cases (s : nat) (w w' : World) r :
  createAlertsIfNeeded s w = (r, w') ->
  (r = inr [] /\ w' = w)
  \/ exists profile network,
       struggleProfiles w !! s = Some profile
       /\ below_alert_gate profile = false
       /\ careNetworks w !! s = Some network
       /\ alert_loop profile s (TutorCareNetwork.tutorIds network) [] w = (r, w').
Proof.
  unfold createAlertsIfNeeded.
  destruct (struggleProfiles w !! s) as [profile|] eqn:Ep;
    [|intros [= <- <-]; by left].
  destruct (below_alert_gate profile) eqn:Eg; [intros [= <- <-]; by left|].
  destruct (careNetworks w !! s) as [network|] eqn:En;
    [|intros [= <- <-]; by left].
  destruct (TutorCareNetwork.tutorIds network) as [|t0 rest] eqn:Et;
    [intros [= <- <-]; by left|].
  intros H. right. exists profile, network. rewrite Et. done.
Qed.

Lemma createAlertsIfNeeded_frame (s : nat) (w w' : World) r :
  createAlertsIfNeeded s w = (r, w') ->
  exists new,
    tutorAlerts w' = tutorAlerts w ++ new
    /\ clock w' = clock w
    /\ (tick w <= tick w')%nat
    /\ Forall (fun a => exists k, (tick w <= k < tick w')%nat
                                  /\ TutorAlert.createdAt a = clock w k) new.
Proof.
  intros H. destruct (createAlertsIfNeeded_cases _ _ _ _ H)
    as [[-> ->]|(profile & network & _ & _ & _ & Hloop)].
  - exists []. rewrite app_nil_r. repeat split; try done.
  - destruct (alert_loop_frame _ _ _ _ _ _ _ Hloop) as (new & ? & ? & ? & _ & Hall).
    exists new. repeat split; try done.
    eapply Forall_impl; [exact Hall|]. simpl. by intros a (_ & _ & _ & _ & ?).
Qed.

Lemma createAlertsIfNeeded_skips (s t : nat) (w w' : World) r :
  monotone (clock w) ->
  createAlertsIfNeeded s w = (r, w') ->
  (exists a, In a (tutorAlerts w) /\ for_pair t s a = true
             /\ (clock w (tick w') - hours_ms COOLDOWN_HOURS
                 <= TutorAlert.createdAt a)%Z) ->
  pair_count t s (created_between w w') = 0%nat.
Proof.
  intros Hmono H Hrecent.
  destruct (createAlertsIfNeeded_frame _ _ _ _ H) as (new & Hnew & _).
  rewrite (created_between_app _ _ _ Hnew).
  destruct (createAlertsIfNeeded_cases _ _ _ _ H)
    as [[-> ->]|(profile & network & _ & _ & _ & Hloop)].
  - rewrite <- (app_nil_r (tutorAlerts w)) in Hnew at 1.
    apply app_inv_head in Hnew. by subst.
  - by eapply alert_loop_skips.
Qed.

Lemma createAlertsIfNeeded_at_most_one (s t : nat) (w w' : World) r :
  monotone (clock w) ->
  createAlertsIfNeeded s w = (r, w') ->
  (clock w (tick w') - clock w (tick w) <= hours_ms COOLDOWN_HOURS)%Z ->
  (pair_count t s (created_between w w') <= 1)%nat.
Proof.
  intros Hmono H Hspan.
  destruct (createAlertsIfNeeded_frame _ _ _ _ H) as (new & Hnew & _).
  rewrite (created_between_app _ _ _ Hnew).
  destruct (createAlertsIfNeeded_cases _ _ _ _ H)
    as [[-> ->]|(profile & network & _ & _ & _ & Hloop)].
  - rewrite <- (app_nil_r (tutorAlerts w)) in Hnew at 1.
    apply app_inv_head in Hnew. subst. unfold pair_count. simpl. lia.
  - by eapply alert_loop_at_most_one.
Qed.

(** C1: two calls of [createAlertsIfNeeded] for a student whose clock
    readings all lie within 24 hours create at most one alert in total for
    any (tutor, student) pair, whatever happened to the profile, the care
    network and the read flags in between; and a call made while an alert
    of the pair is no older than 24 hours creates nothing for that pair. *)
Theorem alert_cooldown (s t : nat) :
  (forall (w0 w1 w1' w2 : World) r1 r2,
     monotone (clock w0) ->
     createAlertsIfNeeded s w0 = (r1, w1) ->
     clock w1' = clock w1 ->
     (tick w1 <= tick w1')%nat ->
     alerts_kept (tutorAlerts w1) (tutorAlerts w1') ->
     createAlertsIfNeeded s w1' = (r2, w2) ->
     (clock w0 (tick w2) - clock w0 (tick w0) <= hours_ms COOLDOWN_HOURS)%Z ->
     (pair_count t s (created_between w0 w1 ++ created_between w1' w2) <= 1)%nat)
  /\ (forall (w w' : World) r,
        monotone (clock w) ->
        createAlertsIfNeeded s w = (r, w') ->
        (exists a, In a (tutorAlerts w) /\ for_pair t s a = true
                   /\ (clock w (tick w') - hours_ms COOLDOWN_HOURS
                       <= TutorAlert.createdAt a)%Z) ->
        pair_count t s (created_between w w') = 0%nat).
Proof.
  split; [|intros w w' r; apply createAlertsIfNeeded_skips].
  intros w0 w1 w1' w2 r1 r2 Hmono H1 Hclock Htick Hkept H2 Hspan.
  destruct (createAlertsIfNeeded_frame _ _ _ _ H1) as (new1 & Hnew1 & Hc1 & Ht1 & Hall1).
  destruct (createAlertsIfNeeded_frame _ _ _ _ H2) as (new2 & Hnew2 & Hc2 & Ht2 & _).
  assert (Hc : clock w1' = clock w0) by congruence.
  assert (Hmono' : monotone (clock w1')) by (by rewrite Hc).
  rewrite pair_count_app.
  pose proof (Hmono (tick w0) (tick w1) Ht1).
  pose proof (Hmono (tick w1) (tick w1') Htick).
  pose proof (Hmono (tick w1') (tick w2) Ht2).
  assert (Hone1 : (pair_count t s (created_between w0 w1) <= 1)%nat).
  { eapply createAlertsIfNeeded_at_most_one; [done|exact H1|lia]. }
  assert (Hone2 : (pair_count t s (created_between w1' w2) <= 1)%nat).
  { eapply createAlertsIfNeeded_at_most_one; [done|exact H2|rewrite Hc; lia]. }
  destruct (pair_count t s (created_between w0 w1)) as [|n] eqn:Ecount; [lia|].
  assert (Hzero : pair_count t s (created_between w1' w2) = 0%nat); [|lia].
  eapply createAlertsIfNeeded_skips; [done|exact H2|].
  destruct (pair_count_pos t s (created_between w0 w1)) as (a & Hin & Hpair); [lia|].
  rewrite (created_between_app _ _ _ Hnew1) in Hin.
  rewrite Forall_forall in Hall1. destruct (Hall1 a) as (k & Hk & Hat).
  { by apply list_elem_of_In. }
  destruct (Hkept a) as (a' & Hin' & Htutor & Hstudent & Hcreated).
  { rewrite Hnew1. apply in_or_app. by right. }
  exists a'. split; [done|]. split.
  { apply for_pair_spec. apply for_pair_spec in Hpair. destruct Hpair. split; congruence. }
  rewrite Hc, Hcreated, Hat.
  pose proof (Hmono (tick w0) k ltac:(lia)). lia.
Qed.

Lemma pair_count_in (t s : nat) (a : TutorAlert.t) (l : list TutorAlert.t) :
  In a l -> for_pair t s a = true -> (1 <= pair_count t s l)%nat.
Proof.
  induction l as [|b l IH]; [done|]. rewrite pair_count_cons.
  intros [->|Hin] Hp; [rewrite Hp; lia|]. specialize (IH Hin Hp). lia.
Qed.

Lemma below_gate_iff (profile : StruggleProfile.t) :
  below_alert_gate profile = false
  <-> (StruggleProfile.supportLevel profile = HIGH /\ StruggleProfile.trend profile = UP)
      \/ (9 <= StruggleProfile.struggleScore profile)%Q.
Proof.
  unfold below_alert_gate, Js.ltb.
  destruct (Js.leb 9 (StruggleProfile.struggleScore profile)) eqn:E;
    change (Qle_bool 9 (StruggleProfile.struggleScore profile))
      with (Js.leb 9 (StruggleProfile.struggleScore profile)); rewrite E; simpl.
  - apply leb_le in E. rewrite andb_false_r. split; [by right|done].
  - apply leb_gt in E. rewrite andb_true_r.
    repeat case_bool_decide; simpl; split; try done; try (by left);
      intros [[? ?]|?]; try done; lra.
Qed.

(** C4: for a student with a stored profile, [createAlertsIfNeeded] goes
    past its gate exactly when (support level HIGH and trend UP) or
    score >= 9; below the gate it returns the empty list and changes
    nothing; past the gate it runs the loop over the care network.  In
    particular a profile with score 9.2, trend STABLE and support level
    MEDIUM, a non-empty care network and no alert for any of its tutors
    about this student in the last 24 hours yields a non-empty list of
    stored alerts, all URGENT, at least one for each tutor. *)
Theorem alert_eligibility_gate (s : nat) (w : World) (profile : StruggleProfile.t) :
  struggleProfiles w !! s = Some profile ->
  (below_alert_gate profile = false
   <-> (StruggleProfile.supportLevel profile = HIGH
        /\ StruggleProfile.trend profile = UP)
       \/ (9 <= StruggleProfile.struggleScore profile)%Q)
  /\ (below_alert_gate profile = true ->
        createAlertsIfNeeded s w = (inr [], w))
  /\ (below_alert_gate profile = false ->
        forall network, careNetworks w !! s = Some network ->
          createAlertsIfNeeded s w
          = alert_loop profile s (TutorCareNetwork.tutorIds network) [] w)
  /\ ((StruggleProfile.struggleScore profile == 9.2)%Q ->
      StruggleProfile.trend profile = STABLE ->
      StruggleProfile.supportLevel profile = MEDIUM ->
      forall network,
        careNetworks w !! s = Some network ->
        TutorCareNetwork.tutorIds network <> [] ->
        monotone (clock w) ->
        (forall a, In a (tutorAlerts w) ->
           TutorAlert.studentId a = s ->
           In (TutorAlert.tutorId a) (TutorCareNetwork.tutorIds network) ->
           (TutorAlert.createdAt a < clock w (tick w) - hours_ms COOLDOWN_HOURS)%Z) ->
        exists created w',
          createAlertsIfNeeded s w = (inr created, w')
          /\ created <> []
          /\ tutorAlerts w' = tutorAlerts w ++ created
          /\ Forall (fun a => TutorAlert.urgency a = URGENT
                              /\ TutorAlert.studentId a = s
                              /\ In (TutorAlert.tutorId a)
                                    (TutorCareNetwork.tutorIds network)) created
          /\ (forall t, In t (TutorCareNetwork.tutorIds network) ->
                (1 <= pair_count t s created)%nat)).
Proof.
  intros Hprofile.
  split; [apply below_gate_iff|].
  split.
  { intros Hg. unfold createAlertsIfNeeded. by rewrite Hprofile, Hg. }
  assert (Hpast : below_alert_gate profile = false ->
            forall network, careNetworks w !! s = Some network ->
              createAlertsIfNeeded s w
              = alert_loop profile s (TutorCareNetwork.tutorIds network) [] w).
  { intros Hg network Hn. unfold createAlertsIfNeeded.
    rewrite Hprofile, Hg, Hn. by destruct (TutorCareNetwork.tutorIds network). }
  split; [exact Hpast|].
  intros Hscore _ _ network Hn Hne Hmono Hold.
  assert (Hg : below_alert_gate profile = false).
  { apply below_gate_iff. right. rewrite Hscore. by vm_compute. }
  rewrite (Hpast Hg network Hn).
  destruct (alert_loop profile s (TutorCareNetwork.tutorIds network) [] w)
    as [r w'] eqn:Hloop.
  assert (Hvalid : (1 <= StruggleProfile.struggleScore profile <= 10)%Q).
  { rewrite Hscore. split; by vm_compute. }
  destruct (alert_loop_covers _ _ _ Hvalid _ _ _ _ Hmono Hloop) as [[res ->] Hcov].
  destruct (alert_loop_frame _ _ _ _ _ _ _ Hloop) as (new & Hnew & _ & _ & Hres & Hall).
  rewrite (Hres res eq_refl). simpl.
  assert (Hfresh : forall t, In t (TutorCareNetwork.tutorIds network) ->
            exists a, In a new /\ for_pair t s a = true).
  { intros t Hin. destruct (Hcov t Hin) as (a & Ha & Hp & Hrecent).
    exists a. split; [|done]. rewrite Hnew in Ha.
    apply in_app_or in Ha as [Ha|Ha]; [|done]. exfalso.
    apply for_pair_spec in Hp as [Ht Hs].
    specialize (Hold a Ha Hs). rewrite Ht in Hold. specialize (Hold Hin). lia. }
  exists new, w'. split; [done|].
  split.
  { destruct (TutorCareNetwork.tutorIds network) as [|t0 rest] eqn:Et; [done|].
    destruct (Hfresh t0) as (a & Ha & _); [by left|]. by destruct new. }
  split; [done|].
  split.
  { eapply Forall_impl; [exact Hall|]. simpl. intros a (Hs & Ht & Hu & _).
    split; [|done]. rewrite Hu.
    replace (Js.geb (StruggleProfile.struggleScore profile) 9) with true; [done|].
    symmetry. apply leb_le. rewrite Hscore. by vm_compute. }
  intros t Hin. destruct (Hfresh t Hin) as (a & Ha & Hp).
  by eapply pair_count_in.
Qed.

End Cooldown.

(** ** Signal persistence *)

Section Persistence.

Local Open Scope Q_scope.
Import StruggleSignalService.

Lemma clamp01_unit (n : Q) : in_unit (_clamp01 n).
Proof.
  unfold _clamp01, in_unit.
  destruct (Math_min_spec 1 n) as [[? ->]|[? ->]];
    [destruct (Math_max_spec 0 1) as [[? ->]|[? ->]]
    |destruct (Math_max_spec 0 n) as [[? ->]|[? ->]]]; lra.
Qed.

Lemma signal_payload_of (i : AIInteraction.t) (track topic : string) (k : SignalType)
    (v : Q) (wh : Z) (raw : RawMeta) :
  payload_of i (_signal i track topic k v wh raw)
  /\ StruggleSignal.signalType (_signal i track topic k v wh raw) = k.
Proof. unfold payload_of. simpl. repeat split. all: apply clamp01_unit. Qed.

Lemma rule_shape_nil (i : AIInteraction.t) (k : SignalType) : rule_shape i k [].
Proof. split; [constructor|apply sublist_nil_l]. Qed.

Lemma rule_shape_one (i : AIInteraction.t) (track topic : string) (k : SignalType)
    (v : Q) (wh : Z) (raw : RawMeta) :
  rule_shape i k [_signal i track topic k v wh raw].
Proof.
  split; [repeat constructor; apply signal_payload_of|]. simpl. done.
Qed.

(** [signalPayloads] concatenates the six rules and leaves the stored
    signals alone. *)
Lemma signalPayloads_unfold (i : AIInteraction.t) (wh : Z) (w : World) :
  exists recent drop,
    fst (signalPayloads i wh w)
    = rule_failedAttempt i (Js.or_default (AIInteraction.track i) "general")
        (topic_of i) wh
      ++ rule_repeatedTopic i (Js.or_default (AIInteraction.track i) "general")
           (topic_of i) wh recent
      ++ rule_longResponseTime i (Js.or_default (AIInteraction.track i) "general")
           (topic_of i) wh recent
      ++ rule_negativeSentiment i (Js.or_default (AIInteraction.track i) "general")
           (topic_of i) wh (Js.or_default (AIInteraction.inputText i) "")
      ++ rule_hintDependency i (Js.or_default (AIInteraction.track i) "general")
           (topic_of i) wh recent (Js.or_default (AIInteraction.inputText i) "")
      ++ rule_engagementDrop i (Js.or_default (AIInteraction.track i) "general")
           (topic_of i) wh drop.
Proof.
  unfold signalPayloads. cbv zeta.
  destruct (Date_now w) as [now w1].
  destruct (_computeEngagementDrop
              (AIInteraction_find_recent (AIInteraction.userId i)
                 (now - hours_ms wh)%Z w1) w1) as [drop w2].
  eexists _, drop. cbn [fst]. reflexivity.
Qed.

Lemma computeEngagementDrop_signals (recent : list AIInteraction.t) (w : World) :
  struggleSignals (snd (_computeEngagementDrop recent w)) = struggleSignals w.
Proof.
  unfold _computeEngagementDrop.
  destruct (_ <? 10)%nat; [reflexivity|].
  unfold Date_now. cbv zeta.
  destruct (_ <? 3)%nat; reflexivity.
Qed.

Lemma signalPayloads_signals (i : AIInteraction.t) (wh : Z) (w : World) :
  struggleSignals (snd (signalPayloads i wh w)) = struggleSignals w.
Proof.
  unfold signalPayloads. cbv zeta. unfold Date_now.
  pose proof (computeEngagementDrop_signals
                (AIInteraction_find_recent (AIInteraction.userId i)
                   (clock w (tick w) - hours_ms wh)%Z (set_tick (S (tick w)) w))
                (set_tick (S (tick w)) w)) as H.
  destruct (_computeEngagementDrop _ _) as [drop w2].
  cbn [snd] in *. exact H.
Qed.

Lemma signalPayloads_shape (i : AIInteraction.t) (wh : Z) (w : World) :
  Forall (payload_of i) (fst (signalPayloads i wh w))
  /\ NoDup (map StruggleSignal.signalType (fst (signalPayloads i wh w))).
Proof.
  destruct (signalPayloads_unfold i wh w) as (recent & drop & ->).
  set (track := Js.or_default (AIInteraction.track i) "general").
  set (topic := topic_of i).
  set (text := Js.or_default (AIInteraction.inputText i) "").
  assert (H1 : rule_shape i FAILED_ATTEMPT (rule_failedAttempt i track topic wh)).
  { unfold rule_failedAttempt. destruct (String.eqb _ _);
      [apply rule_shape_one|apply rule_shape_nil]. }
  assert (H2 : rule_shape i REPEATED_TOPIC (rule_repeatedTopic i track topic wh recent)).
  { unfold rule_repeatedTopic. cbv zeta. destruct (_ <=? _)%nat;
      [apply rule_shape_one|apply rule_shape_nil]. }
  assert (H3 : rule_shape i LONG_RESPONSE_TIME
                 (rule_longResponseTime i track topic wh recent)).
  { unfold rule_longResponseTime. destruct (AIInteraction.processingTime i);
      [|apply rule_shape_nil].
    cbv zeta. destruct (Js.geb _ 1.5); [apply rule_shape_one|apply rule_shape_nil]. }
  assert (H4 : rule_shape i NEGATIVE_SENTIMENT
                 (rule_negativeSentiment i track topic wh text)).
  { unfold rule_negativeSentiment. cbv zeta. destruct (Js.geb _ 0.45);
      [apply rule_shape_one|apply rule_shape_nil]. }
  assert (H5 : rule_shape i HINT_DEPENDENCY
                 (rule_hintDependency i track topic wh recent text)).
  { unfold rule_hintDependency. destruct (is_hint_text text);
      [apply rule_shape_one|apply rule_shape_nil]. }
  assert (H6 : rule_shape i ENGAGEMENT_DROP
                 (rule_engagementDrop i track topic wh drop)).
  { unfold rule_engagementDrop. destruct drop as [v|]; [|apply rule_shape_nil].
    destruct (Js.geb v 0.6); [apply rule_shape_one|apply rule_shape_nil]. }
  destruct H1 as [F1 S1], H2 as [F2 S2], H3 as [F3 S3], H4 as [F4 S4],
           H5 as [F5 S5], H6 as [F6 S6].
  split.
  - repeat (apply Forall_app; split); assumption.
  - apply (sublist_NoDup _ rule_kinds).
    + apply (bool_decide_unpack _). by vm_compute.
    + rewrite !map_app.
      change rule_kinds with
        ([FAILED_ATTEMPT] ++ [REPEATED_TOPIC] ++ [LONG_RESPONSE_TIME]
           ++ [NEGATIVE_SENTIMENT] ++ [HINT_DEPENDENCY] ++ [ENGAGEMENT_DROP]).
      repeat (apply sublist_app; [assumption|]). assumption.
Qed.

Lemma StruggleSignal_create_cases (p : StruggleSignal.payload) (w : World) :
  (~ in_unit (StruggleSignal.value p)
   /\ StruggleSignal_create p w = (inl (ValidationError "value"), w))
  \/ (in_unit (StruggleSignal.value p)
      /\ already_stored (struggleSignals w) p = true
      /\ StruggleSignal_create p w = (inl E11000, w))
  \/ (in_unit (StruggleSignal.value p)
      /\ already_stored (struggleSignals w) p = false
      /\ StruggleSignal_create p w
         = (inr (stored_signal p w), after_store (stored_signal p w) w)).
Proof.
  unfold StruggleSignal_create, in_unit.
  destruct (Js.leb 0 _) eqn:E1; [destruct (Js.leb _ 1) eqn:E2|]; simpl.
  - apply leb_le in E1, E2. right.
    fold (already_stored (struggleSignals w) p).
    destruct (already_stored (struggleSignals w) p); [left|right]; done.
  - left. apply leb_le in E1. apply leb_gt in E2. split; [lra|done].
  - left. apply leb_gt in E1. split; [lra|done].
Qed.

Lemma sig_count_snoc (iid : nat) (k : SignalType) (sigs : list StruggleSignal.t)
    (doc : StruggleSignal.t) :
  sig_count iid k (sigs ++ [doc])
  = (sig_count iid k sigs + (if same_signal_key iid k doc then 1 else 0))%nat.
Proof.
  unfold sig_count. rewrite List.filter_app, length_app. simpl.
  by destruct (same_signal_key iid k doc).
Qed.

Lemma not_stored_count (sigs : list StruggleSignal.t) (p : StruggleSignal.payload) :
  already_stored sigs p = false ->
  sig_count (StruggleSignal.interactionId p) (StruggleSignal.signalType p) sigs = 0%nat.
Proof.
  unfold already_stored, sig_count. induction sigs as [|s sigs IH]; [done|].
  simpl. intros H. apply orb_false_iff in H as [-> H]. by apply IH.
Qed.

Lemma same_signal_key_spec (iid : nat) (k : SignalType) (s : StruggleSignal.t) :
  same_signal_key iid k s = true
  <-> StruggleSignal.interactionId (StruggleSignal.fields s) = iid
      /\ StruggleSignal.signalType (StruggleSignal.fields s) = k.
Proof.
  unfold same_signal_key. rewrite andb_true_iff, Nat.eqb_eq, bool_decide_eq_true. done.
Qed.

(** The collection never holds two signals of one kind for one interaction. *)
Lemma create_keeps_unique (p : StruggleSignal.payload) (w w' : World) r :
  unique_index (struggleSignals w) ->
  StruggleSignal_create p w = (r, w') ->
  unique_index (struggleSignals w').
Proof.
  intros Hu H.
  destruct (StruggleSignal_create_cases p w)
    as [[_ Hc]|[(_ & _ & Hc)|(_ & Hfresh & Hc)]];
    rewrite Hc in H; injection H as <- <-; [done|done|].
  intros iid k. simpl. rewrite sig_count_snoc.
  destruct (same_signal_key iid k (stored_signal p w)) eqn:Ek; [|specialize (Hu iid k); lia].
  apply same_signal_key_spec in Ek as [<- <-]. simpl.
  rewrite (not_stored_count _ _ Hfresh). lia.
Qed.

Lemma writeSignals_keeps_unique (payloads : list StruggleSignal.payload) :
  forall (c s : nat) (results : list StruggleSignal.t) (w w' : World) r,
    unique_index (struggleSignals w) ->
    writeSignals payloads c s results w = (r, w') ->
    unique_index (struggleSignals w').
Proof.
  induction payloads as [|p rest IH]; intros c s results w w' r Hu H.
  - simpl in H. by injection H as <- <-.
  - simpl in H.
    destruct (StruggleSignal_create p w) as [[err|doc] w1] eqn:Ec.
    + pose proof (create_keeps_unique _ _ _ _ Hu Ec) as Hu1.
      case_bool_decide; [by eapply IH|]. by injection H as <- <-.
    + pose proof (create_keeps_unique _ _ _ _ Hu Ec) as Hu1. by eapply IH.
Qed.

(** A duplicate-key refusal moves the loop on with [skipped] incremented
    and the store as it was. *)
Lemma writeSignals_duplicate (p : StruggleSignal.payload)
    (rest : list StruggleSignal.payload) (c s : nat)
    (results : list StruggleSignal.t) (w : World) :
  in_unit (StruggleSignal.value p) ->
  already_stored (struggleSignals w) p = true ->
  writeSignals (p :: rest) c s results w = writeSignals rest c (S s) results w.
Proof.
  intros Hv Hdup. simpl.
  destruct (StruggleSignal_create_cases p w)
    as [[Hbad _]|[(_ & _ & Hc)|(_ & Hfresh & _)]]; [done| |congruence].
  by rewrite Hc.
Qed.

Lemma writeSignals_fresh (p : StruggleSignal.payload)
    (rest : list StruggleSignal.payload) (c s : nat)
    (results : list StruggleSignal.t) (w : World) :
  in_unit (StruggleSignal.value p) ->
  already_stored (struggleSignals w) p = false ->
  writeSignals (p :: rest) c s results w
  = writeSignals rest (S c) s (results ++ [stored_signal p w])
      (after_store (stored_signal p w) w).
Proof.
  intros Hv Hfresh. simpl.
  destruct (StruggleSignal_create_cases p w)
    as [[Hbad _]|[(_ & Hdup & _)|(_ & _ & Hc)]]; [done|congruence|].
  by rewrite Hc.
Qed.

Lemma already_stored_snoc (sigs : list StruggleSignal.t) (doc : StruggleSignal.t)
    (q : StruggleSignal.payload) :
  already_stored (sigs ++ [doc]) q
  = already_stored sigs q
    || same_signal_key (StruggleSignal.interactionId q) (StruggleSignal.signalType q) doc.
Proof. unfold already_stored. rewrite existsb_app. simpl. by rewrite orb_false_r. Qed.

(** For payloads of one interaction with pairwise different kinds and
    valid magnitudes the loop ends normally; it skips exactly the payloads
    whose (interaction, kind) pair was stored beforehand and creates the
    others. *)
Lemma writeSignals_counts (i : AIInteraction.t) (payloads : list StruggleSignal.payload) :
  forall (c s : nat) (results : list StruggleSignal.t) (w : World),
    Forall (payload_of i) payloads ->
    NoDup (map StruggleSignal.signalType payloads) ->
    exists res w',
      writeSignals payloads c s results w = (inr res, w')
      /\ skipped res
         = (s + length (List.filter (already_stored (struggleSignals w)) payloads))%nat
      /\ created res
         = (c + length (List.filter (fun p => negb (already_stored (struggleSignals w) p))
                          payloads))%nat.
Proof.
  induction payloads as [|p rest IH]; intros c s results w Hall Hnd.
  - eexists _, _. simpl. split; [reflexivity|]. simpl. lia.
  - inversion Hall as [|? ? Hp Hrest]; subst.
    inversion Hnd as [|? ? Hnotin Hnd']; subst.
    destruct Hp as (Hid & _ & Hv).
    destruct (already_stored (struggleSignals w) p) eqn:Es.
    + rewrite (writeSignals_duplicate _ _ _ _ _ _ Hv Es).
      destruct (IH c (S s) results w Hrest Hnd') as (res & w' & Hrun & Hs & Hc).
      exists res, w'. split; [done|]. simpl. rewrite Es. simpl. lia.
    + rewrite (writeSignals_fresh _ _ _ _ _ _ Hv Es).
      destruct (IH (S c) s (results ++ [stored_signal p w])
                  (after_store (stored_signal p w) w) Hrest Hnd')
        as (res & w' & Hrun & Hs & Hc).
      exists res, w'. split; [done|]. simpl. rewrite Es. simpl.
      assert (Hsame : forall q, In q rest ->
                already_stored (struggleSignals w ++ [stored_signal p w]) q
                = already_stored (struggleSignals w) q).
      { intros q Hq. rewrite already_stored_snoc.
        destruct (same_signal_key _ _ (stored_signal p w)) eqn:Ek;
          [|by rewrite orb_false_r].
        exfalso. apply same_signal_key_spec in Ek as [_ Ek]. simpl in Ek.
        apply Hnotin. rewrite Ek. apply list_elem_of_In. by apply in_map. }
      simpl in Hs, Hc.
      rewrite (List.filter_ext_in _ _ _ Hsame) in Hs.
      rewrite (List.filter_ext_in
                 (fun q => negb (already_stored (struggleSignals w ++ [stored_signal p w]) q))
                 (fun q => negb (already_stored (struggleSignals w) q))) in Hc
        by (intros q Hq; by rewrite Hsame).
      lia.
Qed.

(** C2: starting from a collection that respects its unique index, running
    the extractor on an interaction and then running it again on the same
    interaction with the same options (whatever else changed in between,
    the stored signals apart) ends normally both times and leaves at most
    one stored signal per kind for that interaction; the second run counts
    as skipped exactly the payloads whose (interaction, kind) pair was
    already stored, creating only the others. *)
Theorem extraction_idempotent (i : AIInteraction.t) (options : Options)
    (w w1 w1' w2 : World) r1 r2 :
  unique_index (struggleSignals w) ->
  extractSignalsFromInteraction i options w = (r1, w1) ->
  struggleSignals w1' = struggleSignals w1 ->
  extractSignalsFromInteraction i options w1' = (r2, w2) ->
  (exists res1, r1 = inr res1)
  /\ (exists res2,
        r2 = inr res2
        /\ (role_gate i = false ->
            let payloads :=
              fst (signalPayloads i (default 24%Z (windowHours options)) w1') in
            skipped res2
            = length (List.filter (already_stored (struggleSignals w1')) payloads)
            /\ created res2
               = length (List.filter
                           (fun p => negb (already_stored (struggleSignals w1') p))
                           payloads)))
  /\ (forall k, (sig_count (AIInteraction._id i) k (struggleSignals w2) <= 1)%nat).
Proof.
  intros Hu H1 Hsame H2.
  unfold extractSignalsFromInteraction in H1, H2.
  destruct (role_gate i) eqn:Eg.
  - injection H1 as <- <-. injection H2 as <- <-.
    split; [by eexists|]. split; [eexists; split; [reflexivity|done]|].
    intros k. rewrite Hsame. apply Hu.
  - destruct (signalPayloads i (default 24%Z (windowHours options)) w) as [ps wa] eqn:E1.
    destruct (signalPayloads i (default 24%Z (windowHours options)) w1') as [ps' wb] eqn:E2.
    pose proof (signalPayloads_shape i (default 24%Z (windowHours options)) w) as [Hf Hn].
    pose proof (signalPayloads_shape i (default 24%Z (windowHours options)) w1') as [Hf' Hn'].
    rewrite E1 in Hf, Hn. rewrite E2 in Hf', Hn'. simpl in Hf, Hn, Hf', Hn'.
    assert (Hwa : struggleSignals wa = struggleSignals w).
    { pose proof (signalPayloads_signals i (default 24%Z (windowHours options)) w) as Hsig.
      rewrite E1 in Hsig. exact Hsig. }
    assert (Hwb : struggleSignals wb = struggleSignals w1').
    { pose proof (signalPayloads_signals i (default 24%Z (windowHours options)) w1') as Hsig.
      rewrite E2 in Hsig. exact Hsig. }
    destruct (writeSignals_counts i ps 0 0 [] wa Hf Hn) as (res1 & wa' & Hr1 & _ & _).
    destruct (writeSignals_counts i ps' 0 0 [] wb Hf' Hn') as (res2 & wb' & Hr2 & Hs2 & Hc2).
    rewrite Hr1 in H1. injection H1 as <- <-.
    rewrite Hr2 in H2. injection H2 as <- <-.
    split; [by eexists|].
    split.
    { exists res2. split; [done|]. intros _. simpl. rewrite Hwb in Hs2, Hc2. done. }
    intros k.
    assert (Hu1 : unique_index (struggleSignals wa')).
    { eapply writeSignals_keeps_unique; [|exact Hr1]. by rewrite Hwa. }
    assert (Hu2 : unique_index (struggleSignals wb')).
    { eapply writeSignals_keeps_unique; [|exact Hr2]. by rewrite Hwb, Hsame. }
    apply Hu2.
Qed.

End Persistence.

(** ** A single failed interaction *)

Section SingleFailure.

Local Open Scope Q_scope.
Import StruggleSignalService.

Lemma fold_left_skip (p : string -> bool) (g : Z -> Z) (l : list string) (z : Z) :
  (forall m, In m l -> p m = false) ->
  fold_left (fun sc m => if p m then g sc else sc) l z = z.
Proof.
  revert z. induction l as [|m l IH]; intros z H; [done|].
  simpl. rewrite (H m) by (by left). apply IH. intros m' Hm'. apply H. by right.
Qed.

Lemma filter_none {A} (p : A -> bool) (l : list A) :
  (forall x, In x l -> p x = false) -> List.filter p l = [].
Proof.
  induction l as [|x l IH]; intros H; [done|].
  simpl. rewrite (H x) by (by left). apply IH. intros y Hy. apply H. by right.
Qed.

Lemma existsb_none {A} (p : A -> bool) (l : list A) :
  (forall m, In m l -> p m = false) -> existsb p l = false.
Proof.
  induction l as [|m l IH]; intros H; [done|].
  simpl. rewrite (H m) by (by left). apply IH. intros m' Hm'. apply H. by right.
Qed.

(** Text that contains no phrase of either lexicon scores 0. *)
Lemma sentiment_neutral (text : string) :
  (forall m, In m (negative ++ positive) ->
     Js.includes (Js.toLowerCase text) m = false) ->
  _sentimentLexiconScore text = inject_Z 0 / 3.
Proof.
  intros H. unfold _sentimentLexiconScore. cbv zeta.
  assert (Hneg : fold_left
                   (fun sc m => if Js.includes (Js.toLowerCase text) m
                                then (sc - 1)%Z else sc) negative 0%Z = 0%Z).
  { apply (fold_left_skip (Js.includes (Js.toLowerCase text)) (fun sc => (sc - 1)%Z)).
    intros m Hm. apply H. apply in_or_app. by left. }
  rewrite Hneg.
  assert (Hpos : fold_left
                   (fun sc m => if Js.includes (Js.toLowerCase text) m
                                then (sc + 1)%Z else sc) positive 0%Z = 0%Z).
  { apply (fold_left_skip (Js.includes (Js.toLowerCase text)) (fun sc => (sc + 1)%Z)).
    intros m Hm. apply H. apply in_or_app. by right. }
  rewrite Hpos. reflexivity.
Qed.

Section OneInteraction.

Variable i : AIInteraction.t.
Variable track : string.
Variable wh : Z.

Lemma failedAttempt_fires :
  AIInteraction.status i = "FAILED" ->
  rule_failedAttempt i track (topic_of i) wh
  = [ _signal i track (topic_of i) FAILED_ATTEMPT 1 wh (RawStatus "FAILED") ].
Proof. intros H. unfold rule_failedAttempt. rewrite H. reflexivity. Qed.

Lemma repeatedTopic_silent : rule_repeatedTopic i track (topic_of i) wh [i] = [].
Proof.
  unfold rule_repeatedTopic. cbn [List.filter].
  rewrite String.eqb_refl. reflexivity.
Qed.

Lemma longResponseTime_silent : rule_longResponseTime i track (topic_of i) wh [i] = [].
Proof.
  unfold rule_longResponseTime.
  destruct (AIInteraction.processingTime i) as [latencyMs|] eqn:E; [|reflexivity].
  replace (omap AIInteraction.processingTime [i]) with [latencyMs]
    by (cbn; by rewrite E).
  cbn [firstn Js.sort fold_right Js.insert_sorted length Nat.div Nat.divmod fst nth].
  cbv zeta.
  assert (Hratio : Js.geb (if Js.gtb latencyMs 0 then latencyMs / latencyMs else 1) 1.5
                   = false).
  { unfold Js.geb, Js.gtb.
    change (Qle_bool latencyMs 0) with (Js.leb latencyMs 0).
    destruct (Js.leb latencyMs 0) eqn:E0; simpl negb; cbv iota; [reflexivity|].
    apply leb_gt in E0. apply leb_gt.
    assert (latencyMs / latencyMs == 1) as -> by (apply Qmult_inv_r; lra).
    reflexivity. }
  rewrite Hratio. reflexivity.
Qed.

Lemma negativeSentiment_silent (text : string) :
  (forall m, In m (negative ++ positive) ->
     Js.includes (Js.toLowerCase text) m = false) ->
  rule_negativeSentiment i track (topic_of i) wh text = [].
Proof.
  intros H. unfold rule_negativeSentiment. rewrite (sentiment_neutral text H).
  reflexivity.
Qed.

Lemma hintDependency_silent (recent : list AIInteraction.t) (text : string) :
  (forall m, In m hintMarkers -> Js.includes (Js.toLowerCase text) m = false) ->
  rule_hintDependency i track (topic_of i) wh recent text = [].
Proof.
  intros H. unfold rule_hintDependency, is_hint_text, Js.some.
  rewrite (existsb_none (fun m => Js.includes (Js.toLowerCase text) m) _ H). reflexivity.
Qed.

End OneInteraction.

Lemma engagementDrop_too_few (i : AIInteraction.t) (w : World) :
  _computeEngagementDrop [i] w = (None, w).
Proof. reflexivity. Qed.

Lemma find_recent_tick (u : nat) (since : Z) (k : nat) (w : World) :
  AIInteraction_find_recent u since (set_tick k w) = AIInteraction_find_recent u since w.
Proof. reflexivity. Qed.

(** With one interaction in the window, a failed status and neutral text,
    the only payload is the failed-attempt one. *)
Lemma single_failed_payloads (i : AIInteraction.t) (wh : Z) (w : World) :
  AIInteraction.status i = "FAILED" ->
  AIInteraction_find_recent (AIInteraction.userId i)
    (clock w (tick w) - hours_ms wh)%Z w = [i] ->
  (forall m, In m (negative ++ positive ++ hintMarkers) ->
     Js.includes (Js.toLowerCase (Js.or_default (AIInteraction.inputText i) "")) m
     = false) ->
  signalPayloads i wh w
  = ( [ _signal i (Js.or_default (AIInteraction.track i) "general") (topic_of i)
          FAILED_ATTEMPT 1 wh (RawStatus "FAILED") ],
      set_tick (S (tick w)) w ).
Proof.
  intros Hstatus Hrecent Htext.
  unfold signalPayloads. cbv zeta. unfold Date_now.
  rewrite find_recent_tick, Hrecent, engagementDrop_too_few.
  rewrite failedAttempt_fires by exact Hstatus.
  rewrite repeatedTopic_silent, longResponseTime_silent.
  rewrite negativeSentiment_silent.
  2:{ intros m Hm. apply Htext. rewrite app_assoc. apply in_or_app. by left. }
  rewrite hintDependency_silent.
  2:{ intros m Hm. apply Htext. rewrite app_assoc. apply in_or_app. by right. }
  reflexivity.
Qed.

(** Aggregation over one failed-attempt signal of magnitude 1. *)
Lemma single_failed_aggregate (doc : StruggleSignal.t) :
  StruggleSignal.signalType (StruggleSignal.fields doc) = FAILED_ATTEMPT ->
  StruggleSignal.value (StruggleSignal.fields doc) = 1 ->
  StruggleScoringService.score_loop (StruggleScoringService.aggregate [doc])
  = StruggleScoringService.score_loop
      (StruggleScoringService.set_key StruggleScoringService.empty_aggregated
         FAILED_ATTEMPT 1).
Proof.
  intros Hk Hv. unfold StruggleScoringService.aggregate. cbn [fold_left].
  rewrite Hk, Hv. reflexivity.
Qed.

Lemma single_failed_score_loop :
  StruggleScoringService.struggleScore_of
    (fst (StruggleScoringService.score_loop
            (StruggleScoringService.set_key StruggleScoringService.empty_aggregated
               FAILED_ATTEMPT 1))) = 2.8
  /\ snd (StruggleScoringService.score_loop
            (StruggleScoringService.set_key StruggleScoringService.empty_aggregated
               FAILED_ATTEMPT 1))
     = [ ContributingSignal.mk FAILED_ATTEMPT 0.20 1 ]
  /\ fst (StruggleScoringService.score_loop
            (StruggleScoringService.set_key StruggleScoringService.empty_aggregated
               FAILED_ATTEMPT 1)) == 0.20.
Proof. split; [by vm_compute|]. split; by vm_compute. Qed.

(** C5: for an interaction with status "FAILED" that is the only one the
    lookback query returns, whose text contains no lexicon or hint phrase
    and for which (and for whose user) nothing is stored yet, extraction
    creates exactly one signal, of kind FAILED_ATTEMPT and magnitude 1;
    aggregation over that signal alone gives raw = 0.20, score = 2.8 and
    support level LOW, and so does [recomputeForUser] while the signal is
    inside the evaluation window. *)
Theorem single_failed_interaction (i : AIInteraction.t) (options : Options) (w : World) :
  role_gate i = false ->
  AIInteraction.status i = "FAILED" ->
  AIInteraction_find_recent (AIInteraction.userId i)
    (clock w (tick w) - hours_ms (default 24%Z (windowHours options)))%Z w = [i] ->
  (forall m, In m (negative ++ positive ++ hintMarkers) ->
     Js.includes (Js.toLowerCase (Js.or_default (AIInteraction.inputText i) "")) m
     = false) ->
  (forall s, In s (struggleSignals w) ->
     StruggleSignal.interactionId (StruggleSignal.fields s) <> AIInteraction._id i
     /\ StruggleSignal.userId (StruggleSignal.fields s) <> AIInteraction.userId i) ->
  exists doc w1,
    extractSignalsFromInteraction i options w = (inr (mkResult 1 0 [doc]), w1)
    /\ struggleSignals w1 = struggleSignals w ++ [doc]
    /\ StruggleSignal.signalType (StruggleSignal.fields doc) = FAILED_ATTEMPT
    /\ StruggleSignal.value (StruggleSignal.fields doc) = 1
    /\ StruggleSignal.interactionId (StruggleSignal.fields doc) = AIInteraction._id i
    /\ StruggleScoringService.rawScore_of (StruggleScoringService.aggregate [doc]) == 0.20
    /\ StruggleScoringService.struggleScore_of
         (StruggleScoringService.rawScore_of (StruggleScoringService.aggregate [doc]))
       == 2.8
    /\ StruggleScoringService.supportLevel_of
         (StruggleScoringService.struggleScore_of
            (StruggleScoringService.rawScore_of (StruggleScoringService.aggregate [doc])))
       = LOW
    /\ (forall options2,
          (clock w1 (tick w1)
           - hours_ms (default 24%Z (StruggleScoringService.windowHours options2))
           <= StruggleSignal.createdAt doc)%Z ->
          exists p w2,
            StruggleScoringService.recomputeForUser (AIInteraction.userId i) options2 w1
            = (p, w2)
            /\ StruggleProfile.struggleScore p == 2.8
            /\ StruggleProfile.supportLevel p = LOW
            /\ StruggleProfile.contributingSignals p
               = [ ContributingSignal.mk FAILED_ATTEMPT 0.20 1 ]).
Proof.
  intros Hgate Hstatus Hrecent Htext Hstore.
  set (wh := default 24%Z (windowHours options)) in *.
  set (payload := _signal i (Js.or_default (AIInteraction.track i) "general")
                    (topic_of i) FAILED_ATTEMPT 1 wh (RawStatus "FAILED")).
  set (wa := set_tick (S (tick w)) w).
  set (doc := stored_signal payload wa).
  assert (Hrun : extractSignalsFromInteraction i options w
                 = (inr (mkResult 1 0 [doc]), after_store doc wa)).
  { unfold extractSignalsFromInteraction. rewrite Hgate. fold wh.
    rewrite (single_failed_payloads i wh w Hstatus Hrecent Htext).
    fold payload. fold wa.
    rewrite writeSignals_fresh; [reflexivity|apply clamp01_unit|].
    apply existsb_none. intros s Hs. apply not_true_iff_false.
    intros Hk. apply same_signal_key_spec in Hk as [Hk _].
    by destruct (Hstore s Hs) as [Hne _]. }
  destruct single_failed_score_loop as (Hscore & Hcontrib & Hraw).
  assert (Hloop : StruggleScoringService.score_loop (StruggleScoringService.aggregate [doc])
                  = StruggleScoringService.score_loop
                      (StruggleScoringService.set_key
                         StruggleScoringService.empty_aggregated FAILED_ATTEMPT 1))
    by (by apply single_failed_aggregate).
  exists doc, (after_store doc wa).
  split; [exact Hrun|].
  split; [reflexivity|].
  split; [reflexivity|].
  split; [reflexivity|].
  split; [reflexivity|].
  unfold StruggleScoringService.rawScore_of. rewrite Hloop.
  split; [exact Hraw|].
  split; [by rewrite Hscore|].
  split; [by rewrite Hscore|].
  intros options2 Hwindow.
  unfold StruggleScoringService.recomputeForUser, Date_now. cbv zeta.
  assert (Hfind : StruggleSignal_find (AIInteraction.userId i)
                    (clock (after_store doc wa) (tick (after_store doc wa))
                     - hours_ms (default 24%Z (StruggleScoringService.windowHours options2)))%Z
                    (set_tick (S (tick (after_store doc wa))) (after_store doc wa))
                  = [doc]).
  { unfold StruggleSignal_find.
    change (struggleSignals (set_tick _ (after_store doc wa)))
      with (struggleSignals w ++ [doc]).
    rewrite List.filter_app.
    replace (List.filter _ (struggleSignals w)) with (@nil StruggleSignal.t).
    - cbn [List.filter app]. 
      change (StruggleSignal.userId (StruggleSignal.fields doc))
        with (AIInteraction.userId i).
      rewrite Nat.eqb_refl. apply Z.leb_le in Hwindow. rewrite Hwindow. reflexivity.
    - symmetry. apply filter_none. intros s Hs.
      destruct (Hstore s Hs) as [_ Hne].
      apply andb_false_iff. left. by apply Nat.eqb_neq. }
  rewrite Hfind. cbn [length Nat.eqb]. rewrite Hloop.
  destruct (StruggleScoringService.score_loop
              (StruggleScoringService.set_key
                 StruggleScoringService.empty_aggregated FAILED_ATTEMPT 1))
    as [raw contributing] eqn:Eloop.
  cbn [fst snd] in Hscore, Hcontrib.
  unfold StruggleScoringService._upsertProfile, Date_now. cbv zeta.
  rewrite Hscore, Hcontrib.
  destruct (struggleProfiles _ !! AIInteraction.userId i) as [prev|];
    (eexists _, _; split; [reflexivity|]);
    cbn [StruggleProfile.struggleScore StruggleProfile.supportLevel
         StruggleProfile.contributingSignals
         StruggleProfile.d_struggleScore StruggleProfile.d_supportLevel
         StruggleProfile.d_contributingSignals];
    (split; [reflexivity|]); (split; reflexivity).
Qed.

End SingleFailure.

(** ** The properties on the sample data *)

Section Witnesses.

Import TutorAlertService.

Lemma alert_cooldown_witness :
  (pair_count Sample.tutor_a Sample.learner
     (created_between Sample.alert_world Sample.after_first_run
      ++ created_between Sample.after_first_run
           (snd (createAlertsIfNeeded Sample.learner Sample.after_first_run)))
   <= 1)%nat.
Proof.
  apply (proj1 (alert_cooldown Sample.learner Sample.tutor_a)
           Sample.alert_world Sample.after_first_run Sample.after_first_run
           (snd (createAlertsIfNeeded Sample.learner Sample.after_first_run))
           (fst (createAlertsIfNeeded Sample.learner Sample.alert_world))
           (fst (createAlertsIfNeeded Sample.learner Sample.after_first_run))).
  - intros i j Hij. cbn. unfold Sample.clock. lia.
  - apply surjective_pairing.
  - reflexivity.
  - lia.
  - intros a Ha. exists a. done.
  - apply surjective_pairing.
  - vm_compute. discriminate.
Defined.

Lemma alert_eligibility_gate_witness :
  exists created w',
    createAlertsIfNeeded Sample.learner Sample.alert_world = (inr created, w')
    /\ created <> []
    /\ Forall (fun a => TutorAlert.urgency a = URGENT) created.
Proof.
  destruct (alert_eligibility_gate Sample.learner Sample.alert_world Sample.critical_profile)
    as (_ & _ & _ & Hscenario); [reflexivity|].
  destruct (Hscenario ltac:(reflexivity) eq_refl eq_refl Sample.network)
    as (created & w' & Hrun & Hne & _ & Hall & _).
  - reflexivity.
  - discriminate.
  - intros i j Hij. cbn. unfold Sample.clock. lia.
  - intros a [].
  - exists created, w'. split; [exact Hrun|]. split; [exact Hne|].
    eapply Forall_impl; [exact Hall|]. simpl. tauto.
Defined.

Lemma empty_window_reset_witness :
  exists p w',
    StruggleScoringService.recomputeForUser Sample.learner
      (StruggleScoringService.mkOptions None) Sample.alert_world = (p, w')
    /\ StruggleProfile.struggleScore p = 1%Q
    /\ StruggleProfile.supportLevel p = LOW.
Proof.
  destruct (empty_window_reset Sample.learner (StruggleScoringService.mkOptions None)
              Sample.alert_world)
    as (p & w' & Hrun & _ & Hscore & _ & Hlevel & _); [reflexivity|].
  exists p, w'. split; [exact Hrun|]. split; [exact Hscore|exact Hlevel].
Defined.

Lemma markAsRead_frame_witness :
  (fst (markAsRead 100 Sample.tutor_b Sample.after_first_run) = None
   /\ snd (markAsRead 100 Sample.tutor_b Sample.after_first_run) = Sample.after_first_run)
  /\ exists a',
       fst (markAsRead 100 Sample.tutor_a Sample.after_first_run) = Some a'
       /\ TutorAlert.isRead a' = true.
Proof.
  split.
  - destruct (markAsRead_frame 100 Sample.tutor_b Sample.after_first_run
                (snd (markAsRead 100 Sample.tutor_b Sample.after_first_run))
                (fst (markAsRead 100 Sample.tutor_b Sample.after_first_run)))
      as (_ & _ & _ & _ & Hwrong & _); [apply surjective_pairing|].
    apply Hwrong.
    intros a Ha [Hid Htutor]. vm_compute in Ha.
    destruct Ha as [<-|[<-|[]]]; discriminate.
  - destruct (markAsRead_frame 100 Sample.tutor_a Sample.after_first_run
                (snd (markAsRead 100 Sample.tutor_a Sample.after_first_run))
                (fst (markAsRead 100 Sample.tutor_a Sample.after_first_run)))
      as (_ & _ & _ & _ & _ & _ & Hright); [apply surjective_pairing|].
    destruct Hright as (i & a0 & a' & _ & _ & _ & Hr & _ & Hread & _).
    + eexists. split; [vm_compute; left; reflexivity|]. split; reflexivity.
    + exists a'. split; [exact Hr|exact Hread].
Defined.

Lemma extraction_idempotent_witness :
    (sig_count (AIInteraction._id Sample.failed_student) FAILED_ATTEMPT
       (struggleSignals
          (snd (StruggleSignalService.extractSignalsFromInteraction Sample.failed_student
                  (StruggleSignalService.mkOptions None)
                  (snd (StruggleSignalService.extractSignalsFromInteraction
                          Sample.failed_student
                          (StruggleSignalService.mkOptions None)
                          (Sample.empty_world Sample.failed_student))))))
     <= 1)%nat.
Proof.
  set (run := StruggleSignalService.extractSignalsFromInteraction Sample.failed_student
                (StruggleSignalService.mkOptions None)).
  apply (extraction_idempotent Sample.failed_student
           (StruggleSignalService.mkOptions None)
           (Sample.empty_world Sample.failed_student)
           (snd (run (Sample.empty_world Sample.failed_student)))
           (snd (run (Sample.empty_world Sample.failed_student)))
           (snd (run (snd (run (Sample.empty_world Sample.failed_student)))))
           (fst (run (Sample.empty_world Sample.failed_student)))
           (fst (run (snd (run (Sample.empty_world Sample.failed_student)))))).
  - intros iid k. cbn. lia.
  - apply surjective_pairing.
  - reflexivity.
  - apply surjective_pairing.
Defined.

Lemma single_failed_interaction_witness :
  exists doc w1,
    StruggleSignalService.extractSignalsFromInteraction Sample.failed_student
      (StruggleSignalService.mkOptions None) (Sample.empty_world Sample.failed_student)
    = (inr (StruggleSignalService.mkResult 1 0 [doc]), w1)
    /\ (StruggleScoringService.struggleScore_of
          (StruggleScoringService.rawScore_of (StruggleScoringService.aggregate [doc]))
        == 2.8)%Q.
Proof.
  destruct (single_failed_interaction Sample.failed_student
              (StruggleSignalService.mkOptions None)
              (Sample.empty_world Sample.failed_student))
    as (doc & w1 & Hrun & _ & _ & _ & _ & _ & Hscore & _).
  - reflexivity.
  - reflexivity.
  - vm_compute. reflexivity.
  - intros m Hm. vm_compute in Hm.
    repeat (destruct Hm as [<-|Hm]; [vm_compute; reflexivity|]). destruct Hm.
  - intros s [].
  - exists doc, w1. split; [exact Hrun|exact Hscore].
Defined.

End Witnesses.

(** * Further properties *)

(** ** The detection rules *)

Section DetectionRules.

Local Open Scope Q_scope.
Import StruggleSignalService.

Lemma clamp01_cases (x : Q) :
  (x <= 0 /\ _clamp01 x == 0)
  \/ (0 <= x <= 1 /\ _clamp01 x == x)
  \/ (1 <= x /\ _clamp01 x == 1).
Proof.
  unfold _clamp01.
  destruct (Math_min_spec 1 x) as [[H1 ->]|[H1 ->]].
  - destruct (Math_max_spec 0 1) as [[H2 ->]|[H2 ->]]; [|lra].
    right. right. split; [done|reflexivity].
  - destruct (Math_max_spec 0 x) as [[H2 ->]|[H2 ->]].
    + right. left. split; [lra|reflexivity].
    + left. split; [lra|reflexivity].
Qed.

(** X1: [_clamp01] maps every number into [0,1], leaves the numbers of
    [0,1] as they are, is monotone, and clamping twice is clamping once. *)
Theorem clamp01_properties (n m : Q) :
  0 <= _clamp01 n <= 1
  /\ (0 <= n <= 1 -> _clamp01 n == n)
  /\ (n <= m -> _clamp01 n <= _clamp01 m)
  /\ _clamp01 (_clamp01 n) == _clamp01 n.
Proof.
  split; [|split; [|split]].
  - destruct (clamp01_cases n) as [[? ->]|[[? ->]|[? ->]]]; lra.
  - intros Hn. destruct (clamp01_cases n) as [[? ->]|[[? ->]|[? ->]]]; lra.
  - intros Hnm.
    destruct (clamp01_cases n) as [[? ->]|[[? ->]|[? ->]]];
      destruct (clamp01_cases m) as [[? ->]|[[? ->]|[? ->]]]; lra.
  - destruct (clamp01_cases (_clamp01 n)) as [[? ->]|[[? ->]|[? ->]]];
      destruct (clamp01_cases n) as [[? Hn]|[[? Hn]|[? Hn]]]; try reflexivity; lra.
Qed.

Lemma clamp01_properties_witness :
  _clamp01 (1 # 2) == 1 # 2 /\ _clamp01 (-3) <= _clamp01 7.
Proof.
  destruct (clamp01_properties (1 # 2) 7) as (_ & Hid & _ & _).
  destruct (clamp01_properties (-3) 7) as (_ & _ & Hmono & _).
  split; [apply Hid; lra | apply Hmono; lra].
Defined.

Lemma sentiment_of_net (text : string) :
  _sentimentLexiconScore text
  = if (lexicon_net text <=? -3)%Z then -1
    else if (3 <=? lexicon_net text)%Z then 1
    else inject_Z (lexicon_net text) / 3.
Proof. reflexivity. Qed.

Lemma small_net_cases (z : Z) :
  (z <=? -3)%Z = false -> (3 <=? z)%Z = false ->
  z = (-2)%Z \/ z = (-1)%Z \/ z = 0%Z \/ z = 1%Z \/ z = 2%Z.
Proof. intros H1 H2. apply Z.leb_gt in H1, H2. lia. Qed.



(** X3: the negative-sentiment rule fires exactly when the matched negative
    phrases outnumber the positive ones by at least two; its magnitude is
    then 23/33 for a net count of -2 and 1 from -3 on. *)
Theorem negativeSentiment_threshold (i : AIInteraction.t) (track topic : string)
    (wh : Z) (text : string) :
  (rule_negativeSentiment i track topic wh text <> [] <-> (lexicon_net text <= -2)%Z)
  /\ (lexicon_net text = (-2)%Z ->
      exists v, payload_values (rule_negativeSentiment i track topic wh text) = [v]
                /\ v == 23 # 33)
  /\ ((lexicon_net text <= -3)%Z ->
      exists v, payload_values (rule_negativeSentiment i track topic wh text) = [v]
                /\ v == 1).
Proof.
  unfold rule_negativeSentiment. cbv zeta. rewrite sentiment_of_net.
  destruct (lexicon_net text <=? -3)%Z eqn:E1;
    [|destruct (3 <=? lexicon_net text)%Z eqn:E2].
  - apply Z.leb_le in E1.
    split; [split; [intros _; lia|intros _; by vm_compute]|].
    split; [lia|]. intros _. eexists. split; [reflexivity|by vm_compute].
  - apply Z.leb_le in E2.
    split; [split; [intros H; by vm_compute in H|lia]|].
    split; lia.
  - destruct (small_net_cases _ E1 E2) as [-> | [-> | [-> | [-> | ->]]]].
    + split; [split; [intros _; lia|intros _; by vm_compute]|].
      split; [intros _; eexists; split; [reflexivity|by vm_compute]|lia].
    + split; [split; [intros H; by vm_compute in H|lia]|]. split; lia.
    + split; [split; [intros H; by vm_compute in H|lia]|]. split; lia.
    + split; [split; [intros H; by vm_compute in H|lia]|]. split; lia.
    + split; [split; [intros H; by vm_compute in H|lia]|]. split; lia.
Qed.

Lemma negativeSentiment_threshold_witness :
  exists v,
    payload_values
      (rule_negativeSentiment Sample.failed_student "AI" "recursion" 24
         "I am stuck and so confused") = [v]
    /\ v == 23 # 33.
Proof.
  apply (negativeSentiment_threshold Sample.failed_student "AI" "recursion" 24
           "I am stuck and so confused").
  vm_compute. reflexivity.
Defined.


Lemma inject_nat_le (a b : nat) :
  (a <= b)%nat <-> inject_Z (Z.of_nat a) <= inject_Z (Z.of_nat b).
Proof. rewrite <- Zle_Qle. lia. Qed.

Lemma clamp01_normalize (x mn mx : Q) :
  _clamp01 (_normalizeLinear x mn mx) == _normalizeLinear x mn mx.
Proof.
  pose proof (normalize_range x mn mx).
  destruct (clamp01_cases (_normalizeLinear x mn mx)) as [[? ->]|[[? ->]|[? ->]]]; lra.
Qed.

(** X4: the repeated-topic rule fires exactly from the third occurrence of
    the topic in the window on; its magnitude is 1/2 at three occurrences,
    1 from five on, and never below 1/2. *)
Theorem repeatedTopic_threshold (i : AIInteraction.t) (track topic : string) (wh : Z)
    (recent : list AIInteraction.t) :
  (rule_repeatedTopic i track topic wh recent <> [] <-> (3 <= sameTopicCount recent topic)%nat)
  /\ (sameTopicCount recent topic = 3%nat ->
      exists v, payload_values (rule_repeatedTopic i track topic wh recent) = [v]
                /\ v == 1 # 2)
  /\ ((5 <= sameTopicCount recent topic)%nat ->
      exists v, payload_values (rule_repeatedTopic i track topic wh recent) = [v]
                /\ v == 1)
  /\ Forall (fun v => 1 # 2 <= v <= 1)
        (payload_values (rule_repeatedTopic i track topic wh recent)).
Proof.
  unfold rule_repeatedTopic. cbv zeta.
  change (length (List.filter (fun x => String.eqb (topic_of x) topic) recent))
    with (sameTopicCount recent topic).
  set (n := sameTopicCount recent topic).
  destruct (3 <=? n)%nat eqn:E.
  - apply Nat.leb_le in E.
    split; [split; [done|discriminate]|].
    split.
    { intros Hn. eexists. split; [reflexivity|]. cbn [StruggleSignal.value _signal].
      rewrite clamp01_normalize, Hn. by vm_compute. }
    split.
    { intros Hn. eexists. split; [reflexivity|]. cbn [StruggleSignal.value _signal].
      rewrite clamp01_normalize.
      apply inject_nat_le in Hn. change (inject_Z (Z.of_nat 5)) with 5 in Hn.
      unfold _normalizeLinear. js_compare; try reflexivity; lra. }
    repeat constructor; cbn [StruggleSignal.value _signal]; rewrite clamp01_normalize.
    + apply inject_nat_le in E. change (inject_Z (Z.of_nat 3)) with 3 in E.
      assert (H3 : _normalizeLinear 3 1 5 == 1 # 2) by (by vm_compute).
      rewrite <- H3. by apply normalize_mono.
    + apply normalize_range.
  - apply Nat.leb_gt in E.
    split; [split; [done|lia]|].
    split; [lia|]. split; [lia|]. constructor.
Qed.

Lemma repeatedTopic_threshold_witness :
  exists v,
    payload_values
      (rule_repeatedTopic Sample.failed_student "AI" "recursion" 24
         [Sample.failed_student; Sample.failed_no_role; Sample.failed_alumni]) = [v]
    /\ v == 1 # 2.
Proof.
  apply (repeatedTopic_threshold Sample.failed_student "AI" "recursion" 24
           [Sample.failed_student; Sample.failed_no_role; Sample.failed_alumni]).
  reflexivity.
Defined.


(** X5: without a latency the long-response rule is silent.  When no
    interaction of the window carries a latency the baseline is 4000 ms:
    the rule then fires exactly from 6000 ms on and its magnitude is 1 from
    10000 ms on. *)
Theorem longResponse_default_baseline (i : AIInteraction.t) (track topic : string)
    (wh : Z) (recent : list AIInteraction.t) :
  (AIInteraction.processingTime i = None ->
   rule_longResponseTime i track topic wh recent = [])
  /\ (forall latencyMs,
        AIInteraction.processingTime i = Some latencyMs ->
        omap AIInteraction.processingTime recent = [] ->
        (rule_longResponseTime i track topic wh recent <> [] <-> 6000 <= latencyMs)
        /\ (10000 <= latencyMs ->
            exists v, payload_values (rule_longResponseTime i track topic wh recent) = [v]
                      /\ v == 1)).
Proof.
  unfold rule_longResponseTime. split; [by intros ->|].
  intros latencyMs -> ->.
  cbn [firstn Js.sort fold_right]. cbv zeta.
  change (Js.gtb 4000 0) with true. cbv iota.
  unfold Js.geb. change (Qle_bool 1.5 (latencyMs / 4000)) with (Js.leb 1.5 (latencyMs / 4000)).
  assert (Hdiv : latencyMs / 4000 == latencyMs * (1 # 4000)) by reflexivity.
  destruct (Js.leb 1.5 (latencyMs / 4000)) eqn:E.
  - apply leb_le in E.
    split; [split; [intros _; lra|discriminate]|].
    intros Hbig. eexists. split; [reflexivity|].
    cbn [StruggleSignal.value _signal]. rewrite clamp01_normalize.
    unfold _normalizeLinear. js_compare; try reflexivity; lra.
  - apply leb_gt in E.
    split; [split; [done|intros H; lra]|]. intros Hbig. lra.
Qed.

Lemma longResponse_default_baseline_witness :
  rule_longResponseTime Sample.failed_student "AI" "recursion" 24 [] <> [].
Proof.
  destruct (longResponse_default_baseline Sample.failed_student "AI" "recursion" 24 [])
    as [_ H].
  apply (H 9000); [reflexivity|reflexivity|]. by vm_compute.
Defined.

(** X6: the hint-dependency rule fires exactly when the text contains a
    hint marker, whatever the history; the stored magnitude is 0 while at
    most one interaction of the window asks for a hint and 1 from eight
    on. *)
Theorem hintDependency_behaviour (i : AIInteraction.t) (track topic : string) (wh : Z)
    (recent : list AIInteraction.t) (text : string) :
  (rule_hintDependency i track topic wh recent text <> [] <-> is_hint_text text = true)
  /\ (is_hint_text text = true ->
      exists v, payload_values (rule_hintDependency i track topic wh recent text) = [v]
                /\ 0 <= v <= 1
                /\ ((hintCount recent <= 1)%nat -> v == 0)
                /\ ((8 <= hintCount recent)%nat -> v == 1)).
Proof.
  unfold rule_hintDependency.
  destruct (is_hint_text text) eqn:E.
  - split; [split; [done|discriminate]|]. intros _. cbv zeta.
    change (length (List.filter _ recent)) with (hintCount recent).
    eexists. split; [reflexivity|].
    cbn [StruggleSignal.value _signal]. rewrite clamp01_normalize.
    split; [apply normalize_range|]. split.
    + intros Hn. apply inject_nat_le in Hn. change (inject_Z (Z.of_nat 1)) with 1 in Hn.
      unfold _normalizeLinear. js_compare; try reflexivity; lra.
    + intros Hn. apply inject_nat_le in Hn. change (inject_Z (Z.of_nat 8)) with 8 in Hn.
      unfold _normalizeLinear. js_compare; try reflexivity; lra.
  - split; [split; [done|discriminate]|]. discriminate.
Qed.

Lemma hintDependency_behaviour_witness :
  exists v,
    payload_values
      (rule_hintDependency Sample.failed_student "AI" "recursion" 24
         [Sample.failed_student] "Just a HINT please") = [v]
    /\ v == 0.
Proof.
  destruct (hintDependency_behaviour Sample.failed_student "AI" "recursion" 24
              [Sample.failed_student] "Just a HINT please") as [_ H].
  destruct H as (v & Hv & _ & Hzero & _); [reflexivity|].
  exists v. split; [exact Hv|]. apply Hzero. vm_compute. lia.
Defined.


Lemma computeEngagementDrop_cases (recent : list AIInteraction.t) (w : World) :
  _computeEngagementDrop recent w =
    if (length recent <? 10)%nat then (None, w)
    else if (prev6h (clock w (tick w)) recent <? 3)%nat
         then (None, set_tick (S (tick w)) w)
         else (Some (_normalizeLinear
                       (1 - inject_Z (Z.of_nat (last6h (clock w (tick w)) recent))
                            / inject_Z (Z.of_nat (prev6h (clock w (tick w)) recent)))
                       0.1 0.8),
               set_tick (S (tick w)) w).
Proof. reflexivity. Qed.

Lemma ratio_le_iff (l p : nat) :
  (3 <= p)%nat ->
  (inject_Z (Z.of_nat l) / inject_Z (Z.of_nat p) <= 48 # 100
   <-> (100 * l <= 48 * p)%nat)
  /\ (1 <= inject_Z (Z.of_nat l) / inject_Z (Z.of_nat p) <-> (p <= l)%nat).
Proof.
  intros Hp.
  assert (HP : 0 < inject_Z (Z.of_nat p)).
  { change 0 with (inject_Z 0). rewrite <- Zlt_Qlt. lia. }
  split.
  - split.
    + intros H. apply (Qmult_le_compat_r _ _ (inject_Z (Z.of_nat p))) in H; [|lra].
      unfold Qdiv in H. rewrite <- Qmult_assoc, (Qmult_comm (/ _)), Qmult_inv_r in H by lra.
      rewrite Qmult_1_r in H.
      assert (H' : inject_Z (100 * Z.of_nat l) <= inject_Z (48 * Z.of_nat p)).
      { rewrite !inject_Z_mult. change (inject_Z 100) with 100.
        change (inject_Z 48) with 48. lra. }
      rewrite <- Zle_Qle in H'. lia.
    + intros H. apply Qle_shift_div_r; [done|].
      assert (H' : inject_Z (100 * Z.of_nat l) <= inject_Z (48 * Z.of_nat p)).
      { rewrite <- Zle_Qle. lia. }
      rewrite !inject_Z_mult in H'. change (inject_Z 100) with 100 in H'.
      change (inject_Z 48) with 48 in H'. lra.
  - split.
    + intros H. apply (Qmult_le_compat_r _ _ (inject_Z (Z.of_nat p))) in H; [|lra].
      unfold Qdiv in H. rewrite <- Qmult_assoc, (Qmult_comm (/ _)), Qmult_inv_r in H by lra.
      rewrite Qmult_1_r, Qmult_1_l in H. rewrite <- Zle_Qle in H. lia.
    + intros H. apply Qle_shift_div_l; [done|]. rewrite Qmult_1_l.
      rewrite <- Zle_Qle. lia.
Qed.

(** X7: [_computeEngagementDrop] answers [null], without reading the clock,
    for fewer than 10 interactions, and [null] when fewer than 3 of them
    fall in the preceding 6-hour window.  With at least 10 interactions of
    which at least 3 fall in the preceding window it returns a value: that
    value lies in [0,1], is 0 when the last 6 hours saw at least as many
    interactions as the 6 hours before, is 1 when they saw at most a fifth
    as many, and reaches the firing threshold 0.6 exactly when the last 6
    hours saw at most 48% of the preceding count. *)
Theorem engagementDrop_behaviour (recent : list AIInteraction.t) (w : World) :
  ((length recent < 10)%nat -> _computeEngagementDrop recent w = (None, w))
  /\ ((10 <= length recent)%nat ->
      (prev6h (clock w (tick w)) recent < 3)%nat ->
      _computeEngagementDrop recent w = (None, set_tick (S (tick w)) w))
  /\ ((10 <= length recent)%nat ->
      (3 <= prev6h (clock w (tick w)) recent)%nat ->
      exists v,
        _computeEngagementDrop recent w = (Some v, set_tick (S (tick w)) w)
        /\ 0 <= v <= 1
        /\ ((prev6h (clock w (tick w)) recent <= last6h (clock w (tick w)) recent)%nat ->
            v == 0)
        /\ ((5 * last6h (clock w (tick w)) recent
             <= prev6h (clock w (tick w)) recent)%nat ->
            v == 1)
        /\ (0.6 <= v
            <-> (100 * last6h (clock w (tick w)) recent
                 <= 48 * prev6h (clock w (tick w)) recent)%nat)).
Proof.
  rewrite computeEngagementDrop_cases.
  split; [|split].
  - intros H. apply Nat.ltb_lt in H. by rewrite H.
  - intros H1 H2. apply Nat.ltb_ge in H1. apply Nat.ltb_lt in H2. by rewrite H1, H2.
  - intros H1 H2.
    assert (E1 : (length recent <? 10)%nat = false) by (by apply Nat.ltb_ge).
    assert (E2 : (prev6h (clock w (tick w)) recent <? 3)%nat = false)
      by (by apply Nat.ltb_ge).
    rewrite E1, E2. eexists. split; [reflexivity|].
    split; [apply normalize_range|].
    destruct (ratio_le_iff (last6h (clock w (tick w)) recent)
                (prev6h (clock w (tick w)) recent) H2) as [H48 Hone].
    assert (Hfifth : (5 * last6h (clock w (tick w)) recent
                      <= prev6h (clock w (tick w)) recent)%nat ->
                     inject_Z (Z.of_nat (last6h (clock w (tick w)) recent))
                     / inject_Z (Z.of_nat (prev6h (clock w (tick w)) recent)) <= 1 # 5).
    { intros H5.
      assert (HP : 0 < inject_Z (Z.of_nat (prev6h (clock w (tick w)) recent))).
      { change 0 with (inject_Z 0). rewrite <- Zlt_Qlt. lia. }
      apply Qle_shift_div_r; [exact HP|].
      assert (H' : inject_Z (5 * Z.of_nat (last6h (clock w (tick w)) recent))
                   <= inject_Z (Z.of_nat (prev6h (clock w (tick w)) recent))).
      { rewrite <- Zle_Qle. lia. }
      rewrite inject_Z_mult in H'. change (inject_Z 5) with 5 in H'. lra. }
    set (r := inject_Z _ / inject_Z _) in *.
    split; [|split].
    + intros Hge. apply Hone in Hge.
      unfold _normalizeLinear. js_compare; try reflexivity; lra.
    + intros H5. apply Hfifth in H5.
      unfold _normalizeLinear. js_compare; try reflexivity; lra.
    + rewrite <- H48. unfold _normalizeLinear. js_compare; try lra.
      assert (Hinv : / (0.8 - 0.1) == 10 # 7) by (by vm_compute).
      assert (Hlin : (1 - r - 0.1) / (0.8 - 0.1) == (1 - r - 0.1) * (10 # 7))
        by (unfold Qdiv; by rewrite Hinv).
      rewrite Hlin. lra.
Qed.

Lemma engagementDrop_behaviour_witness :
  exists v,
    _computeEngagementDrop Sample.busy_then_quiet
      (Sample.empty_world Sample.failed_student)
    = (Some v, set_tick 1 (Sample.empty_world Sample.failed_student))
    /\ v == 1.
Proof.
  destruct (engagementDrop_behaviour Sample.busy_then_quiet
              (Sample.empty_world Sample.failed_student)) as (_ & _ & H).
  destruct H as (v & Hrun & _ & _ & Hone & _).
  - vm_compute. lia.
  - vm_compute. lia.
  - exists v. split; [exact Hrun|]. apply Hone. vm_compute. lia.
Defined.

End DetectionRules.

(** ** What an extraction run stores *)

Section ExtractionFrame.

Local Open Scope Q_scope.
Import StruggleSignalService.

Lemma computeEngagementDrop_frame (recent : list AIInteraction.t) (w : World) :
  only_signals_change w (snd (_computeEngagementDrop recent w))
  /\ struggleSignals (snd (_computeEngagementDrop recent w)) = struggleSignals w.
Proof.
  rewrite computeEngagementDrop_cases.
  destruct (_ <? 10)%nat; [by repeat split|].
  destruct (_ <? 3)%nat; by repeat split.
Qed.

Lemma signalPayloads_frame (i : AIInteraction.t) (wh : Z) (w : World) :
  only_signals_change w (snd (signalPayloads i wh w)).
Proof.
  unfold signalPayloads. cbv zeta. unfold Date_now.
  pose proof (computeEngagementDrop_frame
                (AIInteraction_find_recent (AIInteraction.userId i)
                   (clock w (tick w) - hours_ms wh)%Z (set_tick (S (tick w)) w))
                (set_tick (S (tick w)) w)) as [H _].
  destruct (_computeEngagementDrop _ _) as [drop w2].
  cbn [snd] in *. exact H.
Qed.

Lemma signalPayloads_length (i : AIInteraction.t) (wh : Z) (w : World) :
  (length (fst (signalPayloads i wh w)) <= 6)%nat.
Proof.
  destruct (signalPayloads_unfold i wh w) as (recent & drop & ->).
  assert (Hlen : forall k l, rule_shape i k l -> (length l <= 1)%nat).
  { intros k l [_ Hsub]. apply sublist_length in Hsub.
    rewrite length_map in Hsub. exact Hsub. }
  rewrite !length_app.
  set (track := Js.or_default (AIInteraction.track i) "general").
  set (topic := topic_of i).
  set (text := Js.or_default (AIInteraction.inputText i) "").
  assert (H1 : (length (rule_failedAttempt i track topic wh) <= 1)%nat).
  { unfold rule_failedAttempt. destruct (String.eqb _ _); simpl; lia. }
  assert (H2 : (length (rule_repeatedTopic i track topic wh recent) <= 1)%nat).
  { unfold rule_repeatedTopic. cbv zeta. destruct (_ <=? _)%nat; simpl; lia. }
  assert (H3 : (length (rule_longResponseTime i track topic wh recent) <= 1)%nat).
  { unfold rule_longResponseTime. destruct (AIInteraction.processingTime i);
      [|simpl; lia].
    cbv zeta. destruct (Js.geb _ 1.5); simpl; lia. }
  assert (H4 : (length (rule_negativeSentiment i track topic wh text) <= 1)%nat).
  { unfold rule_negativeSentiment. cbv zeta. destruct (Js.geb _ 0.45); simpl; lia. }
  assert (H5 : (length (rule_hintDependency i track topic wh recent text) <= 1)%nat).
  { unfold rule_hintDependency. destruct (is_hint_text text); simpl; lia. }
  assert (H6 : (length (rule_engagementDrop i track topic wh drop) <= 1)%nat).
  { unfold rule_engagementDrop. destruct drop as [v|]; [|simpl; lia].
    destruct (Js.geb v 0.6); simpl; lia. }
  lia.
Qed.

Lemma writeSignals_appends (i : AIInteraction.t) (payloads : list StruggleSignal.payload) :
  forall (c s : nat) (results : list StruggleSignal.t) (w : World),
    Forall (payload_of i) payloads ->
    exists res w' new,
      writeSignals payloads c s results w = (inr res, w')
      /\ signals res = results ++ new
      /\ struggleSignals w' = struggleSignals w ++ new
      /\ created res = (c + length new)%nat
      /\ (created res + skipped res = c + s + length payloads)%nat
      /\ Forall (fun d => payload_of i (StruggleSignal.fields d)) new
      /\ only_signals_change w w'.
Proof.
  induction payloads as [|p rest IH]; intros c s results w Hall.
  - exists (mkResult c s results), w, []. simpl. rewrite !app_nil_r.
    repeat split; try done; lia.
  - inversion Hall as [|? ? Hp Hrest]; subst.
    pose proof Hp as (_ & _ & Hv).
    destruct (already_stored (struggleSignals w) p) eqn:Es.
    + rewrite (writeSignals_duplicate _ _ _ _ _ _ Hv Es).
      destruct (IH c (S s) results w Hrest)
        as (res & w' & new & Hrun & Hres & Hsig & Hc & Hsum & Hnew & Hframe).
      exists res, w', new. repeat split; try done; try apply Hframe. simpl. lia.
    + rewrite (writeSignals_fresh _ _ _ _ _ _ Hv Es).
      destruct (IH (S c) s (results ++ [stored_signal p w])
                  (after_store (stored_signal p w) w) Hrest)
        as (res & w' & new & Hrun & Hres & Hsig & Hc & Hsum & Hnew & Hframe).
      exists res, w', (stored_signal p w :: new).
      split; [exact Hrun|].
      split; [by rewrite Hres, <- app_assoc|].
      split; [rewrite Hsig; simpl; by rewrite <- app_assoc|].
      split; [simpl; lia|].
      split; [simpl; lia|].
      split; [by constructor|].
      destruct Hframe as (? & ? & ? & ? & ?). by repeat split.
Qed.

(** X8: an extraction run always ends normally.  It only appends to the
    signal collection: the stored signals afterwards are the earlier ones
    followed by exactly the signals the result lists, [created] is their
    number, created plus skipped never exceeds the six kinds, every new
    signal belongs to the interaction and its user and carries a magnitude
    in [0,1], and no other collection changes. *)
Theorem extraction_appends (i : AIInteraction.t) (options : Options) (w : World) :
  exists res w',
    extractSignalsFromInteraction i options w = (inr res, w')
    /\ struggleSignals w' = struggleSignals w ++ signals res
    /\ created res = length (signals res)
    /\ (created res + skipped res <= 6)%nat
    /\ Forall (fun d =>
                 StruggleSignal.interactionId (StruggleSignal.fields d) = AIInteraction._id i
                 /\ StruggleSignal.userId (StruggleSignal.fields d) = AIInteraction.userId i
                 /\ 0 <= StruggleSignal.value (StruggleSignal.fields d) <= 1)
         (signals res)
    /\ only_signals_change w w'.
Proof.
  unfold extractSignalsFromInteraction.
  destruct (role_gate i).
  { exists (mkResult 0 0 []), w. simpl. rewrite app_nil_r.
    repeat split; try done; lia. }
  set (wh := default 24%Z (windowHours options)).
  pose proof (signalPayloads_shape i wh w) as [Hshape _].
  pose proof (signalPayloads_length i wh w) as Hlen.
  pose proof (signalPayloads_frame i wh w) as Hframe.
  pose proof (signalPayloads_signals i wh w) as Hsig.
  destruct (signalPayloads i wh w) as [payloads w1]. cbn [fst snd] in *.
  destruct (writeSignals_appends i payloads 0 0 [] w1 Hshape)
    as (res & w' & new & Hrun & Hres & Hstore & Hc & Hsum & Hnew & Hframe').
  exists res, w'. simpl in Hres. subst new.
  split; [exact Hrun|].
  split; [by rewrite Hstore, Hsig|].
  split; [exact Hc|].
  split; [lia|].
  split; [exact Hnew|].
  destruct Hframe as (? & ? & ? & ? & ?), Hframe' as (? & ? & ? & ? & ?).
  repeat split; congruence.
Qed.

End ExtractionFrame.

(** ** Score aggregation, continued *)

Section Aggregation.

Local Open Scope Q_scope.
Import StruggleScoringService.

Lemma aggregate_snoc (sigs : list StruggleSignal.t) (s : StruggleSignal.t) :
  aggregate (sigs ++ [s])
  = set_key (aggregate sigs) (StruggleSignal.signalType (StruggleSignal.fields s))
      (Js.Math_max
         (get_or_0 (aggregate sigs) (StruggleSignal.signalType (StruggleSignal.fields s)))
         (StruggleSignal.value (StruggleSignal.fields s))).
Proof. unfold aggregate. by rewrite fold_left_app. Qed.

Lemma get_set_key (aggregated : Aggregated) (k k' : SignalType) (v : Q) :
  get_or_0 (set_key aggregated k v) k'
  = if bool_decide (k' = k) then v else get_or_0 aggregated k'.
Proof. unfold get_or_0, set_key. by case_bool_decide. Qed.

(** X9: aggregation keeps, for every kind, the largest magnitude seen: the
    aggregated value of a kind bounds every signal of that kind, is never
    negative, and is either 0 or the magnitude of one of those signals; a
    kind without signals stays absent. *)
Theorem aggregate_is_maximum (sigs : list StruggleSignal.t) (k : SignalType) :
  Forall (fun s => StruggleSignal.signalType (StruggleSignal.fields s) = k ->
                   StruggleSignal.value (StruggleSignal.fields s)
                   <= get_or_0 (aggregate sigs) k) sigs
  /\ 0 <= get_or_0 (aggregate sigs) k
  /\ (get_or_0 (aggregate sigs) k = 0
      \/ exists s, In s sigs
           /\ StruggleSignal.signalType (StruggleSignal.fields s) = k
           /\ get_or_0 (aggregate sigs) k = StruggleSignal.value (StruggleSignal.fields s))
  /\ ((forall s, In s sigs -> StruggleSignal.signalType (StruggleSignal.fields s) <> k) ->
      aggregate sigs k = None).
Proof.
  induction sigs as [|s sigs IH] using rev_ind.
  - split; [constructor|]. split; [by vm_compute|]. split; [by left|done].
  - destruct IH as (Hbound & Hpos & Hatt & Habs).
    rewrite aggregate_snoc, get_set_key.
    set (ks := StruggleSignal.signalType (StruggleSignal.fields s)) in *.
    set (vs := StruggleSignal.value (StruggleSignal.fields s)) in *.
    case_bool_decide as Ek.
    + subst k.
      destruct (Math_max_spec (get_or_0 (aggregate sigs) ks) vs) as [[Hle ->]|[Hlt ->]].
      * split.
        { apply Forall_app. split.
          - eapply Forall_impl; [exact Hbound|]. simpl. intros x Hx Hk.
            specialize (Hx Hk). lra.
          - constructor; [|constructor]. intros _. fold vs. lra. }
        split; [lra|]. split.
        { right. exists s. split; [apply in_or_app; right; by left|done]. }
        intros Hno. exfalso. apply (Hno s); [apply in_or_app; right; by left|done].
      * split.
        { apply Forall_app. split; [exact Hbound|].
          constructor; [|constructor]. intros _. fold vs. lra. }
        split; [exact Hpos|]. split.
        { destruct Hatt as [H0|(x & Hx & Hk & Hv)]; [by left|].
          right. exists x. split; [apply in_or_app; by left|done]. }
        intros Hno. exfalso. apply (Hno s); [apply in_or_app; right; by left|done].
    + split.
      { apply Forall_app. split; [exact Hbound|].
        constructor; [|constructor]. intros Hk. by destruct Ek. }
      split; [exact Hpos|]. split.
      { destruct Hatt as [H0|(x & Hx & Hk & Hv)]; [by left|].
        right. exists x. split; [apply in_or_app; by left|done]. }
      intros Hno. unfold set_key. case_bool_decide; [done|].
      apply Habs. intros x Hx. apply Hno. apply in_or_app. by left.
Qed.

Lemma score_loop_general (aggregated : Aggregated) (ws : list (SignalType * Q)) :
  forall (r0 : Q) (cs0 : list ContributingSignal.t),
    exists r,
      fold_left (score_step aggregated) ws (r0, cs0)
      = (r, cs0 ++ map (contribution aggregated)
                     (List.filter (fun e => Js.gtb (get_or_0 aggregated (fst e)) 0) ws))
      /\ r == r0 + contribution_sum (map (contribution aggregated) ws).
Proof.
  induction ws as [|[t wgt] ws IH]; intros r0 cs0.
  - exists r0. simpl. rewrite app_nil_r. split; [done|]. unfold contribution_sum. simpl. lra.
  - cbn [fold_left score_step List.filter fst snd].
    destruct (Js.gtb (get_or_0 aggregated t) 0) eqn:E.
    + destruct (IH (r0 + wgt * get_or_0 aggregated t)
                  (cs0 ++ [ContributingSignal.mk t wgt (get_or_0 aggregated t)]))
        as (r & Hrun & Hr).
      exists r. rewrite Hrun. split; [by rewrite <- app_assoc|].
      rewrite Hr. simpl. lra.
    + destruct (IH (r0 + wgt * get_or_0 aggregated t) cs0) as (r & Hrun & Hr).
      exists r. rewrite Hrun. split; [done|]. rewrite Hr. simpl. lra.
Qed.

Lemma contribution_sum_filter (aggregated : Aggregated) (ws : list (SignalType * Q)) :
  (forall t, 0 <= get_or_0 aggregated t) ->
  contribution_sum
    (map (contribution aggregated)
       (List.filter (fun e => Js.gtb (get_or_0 aggregated (fst e)) 0) ws))
  == contribution_sum (map (contribution aggregated) ws).
Proof.
  intros Hpos. induction ws as [|[t wgt] ws IH]; [reflexivity|].
  cbn [List.filter fst].
  destruct (Js.gtb (get_or_0 aggregated t) 0) eqn:E.
  - simpl. rewrite IH. reflexivity.
  - simpl. rewrite IH. unfold Js.gtb in E. apply negb_false_iff, Qle_bool_iff in E.
    specialize (Hpos t).
    assert (H0 : get_or_0 aggregated t == 0) by lra. rewrite H0. lra.
Qed.

(** X10: the contributing signals of a score are exactly the lines of the
    weight table whose aggregated magnitude is positive, in table order,
    so at most six and each with a positive value; when no aggregated
    magnitude is negative the raw score is the sum of weight times value
    over the contributing signals. *)
Theorem contributions_explain_score (aggregated : Aggregated) :
  snd (score_loop aggregated) = contributing_of aggregated
  /\ (length (snd (score_loop aggregated)) <= 6)%nat
  /\ Forall (fun c => 0 < ContributingSignal.value c
                      /\ In (ContributingSignal.signalType c, ContributingSignal.weight c)
                            WEIGHTS)
       (snd (score_loop aggregated))
  /\ ((forall t, 0 <= get_or_0 aggregated t) ->
      rawScore_of aggregated == contribution_sum (snd (score_loop aggregated))).
Proof.
  unfold rawScore_of, score_loop.
  destruct (score_loop_general aggregated WEIGHTS 0 []) as (r & Hrun & Hr).
  rewrite Hrun. cbn [fst snd app]. fold (contributing_of aggregated).
  split; [done|]. split.
  { unfold contributing_of. rewrite length_map.
    etransitivity; [apply List.filter_length_le|]. by vm_compute. }
  split.
  { unfold contributing_of. apply Forall_forall. intros c Hc.
    apply list_elem_of_In, in_map_iff in Hc as ([t wgt] & <- & Hin).
    apply filter_In in Hin as [Hin Hgt]. cbn [fst snd contribution] in *.
    cbn [ContributingSignal.value ContributingSignal.signalType ContributingSignal.weight].
    split; [|exact Hin].
    unfold Js.gtb in Hgt. apply negb_true_iff in Hgt.
    change (Qle_bool (get_or_0 aggregated t) 0) with (Js.leb (get_or_0 aggregated t) 0) in Hgt.
    by apply leb_gt in Hgt. }
  intros Hpos. rewrite Hr. unfold contributing_of.
  rewrite (contribution_sum_filter aggregated WEIGHTS Hpos). lra.
Qed.

Lemma contributions_explain_score_witness :
  rawScore_of (fun _ => Some 1)
  == contribution_sum (snd (score_loop (fun _ => Some 1))).
Proof.
  apply (contributions_explain_score (fun _ => Some 1)).
  intros t. by vm_compute.
Defined.

End Aggregation.

(** ** The score scale and the stored profile *)

Section ProfileUpdate.

Local Open Scope Q_scope.
Import StruggleScoringService.

Lemma Math_min_mono (a x y : Q) : x <= y -> Js.Math_min a x <= Js.Math_min a y.
Proof.
  intros H.
  destruct (Math_min_spec a x) as [[? ->]|[? ->]];
    destruct (Math_min_spec a y) as [[? ->]|[? ->]]; lra.
Qed.

Lemma Math_max_mono (a x y : Q) : x <= y -> Js.Math_max a x <= Js.Math_max a y.
Proof.
  intros H.
  destruct (Math_max_spec a x) as [[? ->]|[? ->]];
    destruct (Math_max_spec a y) as [[? ->]|[? ->]]; lra.
Qed.

Lemma tenth_of (z : Z) : inject_Z z / 10 == inject_Z z * (1 # 10).
Proof. reflexivity. Qed.

Lemma floor_lt (x : Q) (k : Z) : x < inject_Z k -> (Qfloor x < k)%Z.
Proof.
  intros H. pose proof (Qfloor_le x) as Hlo.
  rewrite Zlt_Qlt. lra.
Qed.

Lemma floor_ge (x : Q) (k : Z) : inject_Z k <= x -> (k <= Qfloor x)%Z.
Proof.
  intros H. rewrite <- (Qfloor_Z k). by apply Qfloor_resp_le.
Qed.

(** X11: the score as a function of the raw sum.  It is monotone, it is
    always a whole number of tenths between 1.0 and 10.0, it is 1 for every
    raw sum up to 0 and 10 for every raw sum from 1 on, and it is the tenth
    [z/10] whenever the exact rescaling [1 + 9 raw] lies within 0.04 of
    that tenth.  A raw sum whose rescaling is halfway between two tenths is
    left open: there the rounding of the code depends on the binary
    representation of the operands. *)
Theorem struggleScore_scale (raw raw' : Q) :
  (raw <= raw' -> struggleScore_of raw <= struggleScore_of raw')
  /\ (exists z, (10 <= z <= 100)%Z /\ struggleScore_of raw == inject_Z z / 10)
  /\ (raw <= 0 -> struggleScore_of raw == 1)
  /\ (1 <= raw -> struggleScore_of raw == 10)
  /\ (forall z : Z,
        (10 <= z <= 100)%Z ->
        inject_Z z / 10 - (4 # 100) <= 1 + 9 * raw <= inject_Z z / 10 + (4 # 100) ->
        struggleScore_of raw == inject_Z z / 10).
Proof.
  split; [|split; [|split; [|split]]].
  - intros H. unfold struggleScore_of. apply Math_min_mono, Math_max_mono.
    rewrite !tenth_of. apply Qmult_le_compat_r; [|lra].
    rewrite <- Zle_Qle. unfold Js.Math_round. apply Qfloor_resp_le. lra.
  - unfold struggleScore_of. set (r := Js.Math_round _).
    destruct (Math_max_spec 1 (inject_Z r / 10)) as [[H1 E1]|[H1 E1]]; rewrite E1.
    + destruct (Math_min_spec 10 (inject_Z r / 10)) as [[H2 ->]|[H2 ->]].
      * exists 100%Z. split; [lia|by vm_compute].
      * exists r. split; [|reflexivity].
        rewrite tenth_of in H1, H2.
        assert (Ha : inject_Z 10 <= inject_Z r) by (change (inject_Z 10) with 10; lra).
        assert (Hb : inject_Z r <= inject_Z 100) by (change (inject_Z 100) with 100; lra).
        rewrite <- Zle_Qle in Ha, Hb. lia.
    + destruct (Math_min_spec 10 1) as [[H2 ->]|[H2 ->]]; [lra|].
      exists 10%Z. split; [lia|by vm_compute].
  - intros Hraw. unfold struggleScore_of, Js.Math_round.
    set (x := (1 + raw * 9) * 10).
    pose proof (Qfloor_le (x + (1 # 2))) as Hlo.
    set (r := inject_Z (Qfloor (x + (1 # 2)))) in *.
    assert (Hx : x <= 10) by (unfold x; lra).
    assert (Hdiv : r / 10 == r * (1 # 10)) by reflexivity.
    destruct (Math_max_spec 1 (r / 10)) as [[H1 ->]|[H1 ->]];
      [destruct (Math_min_spec 10 (r / 10)) as [[H2 ->]|[H2 ->]]
      |destruct (Math_min_spec 10 1) as [[H2 ->]|[H2 ->]]]; try lra.
    assert (Hr : r <= inject_Z 10).
    { unfold r. rewrite <- Zle_Qle.
      assert (Hlt : (Qfloor (x + (1 # 2)) < 11)%Z); [|lia].
      apply floor_lt. change (inject_Z 11) with 11. lra. }
    change (inject_Z 10) with 10 in Hr. lra.
  - intros Hraw. unfold struggleScore_of, Js.Math_round.
    set (x := (1 + raw * 9) * 10).
    set (r := inject_Z (Qfloor (x + (1 # 2)))).
    assert (Hx : 100 <= x) by (unfold x; lra).
    assert (Hr : inject_Z 100 <= r).
    { unfold r. rewrite <- Zle_Qle. apply floor_ge.
      change (inject_Z 100) with 100. lra. }
    change (inject_Z 100) with 100 in Hr.
    assert (Hdiv : r / 10 == r * (1 # 10)) by reflexivity.
    destruct (Math_max_spec 1 (r / 10)) as [[H1 ->]|[H1 ->]];
      [destruct (Math_min_spec 10 (r / 10)) as [[H2 ->]|[H2 ->]]
      |destruct (Math_min_spec 10 1) as [[H2 ->]|[H2 ->]]]; lra.
  - intros z Hz Hnear. unfold struggleScore_of, Js.Math_round.
    set (x := (1 + raw * 9) * 10).
    assert (Hzdiv : inject_Z z / 10 == inject_Z z * (1 # 10)) by reflexivity.
    assert (Hfloor : Qfloor (x + (1 # 2)) = z).
    { apply Z.le_antisymm.
      - assert (Hlt : (Qfloor (x + (1 # 2)) < z + 1)%Z); [|lia].
        apply floor_lt. rewrite inject_Z_plus. change (inject_Z 1) with 1.
        unfold x. lra.
      - apply floor_ge. unfold x. lra. }
    rewrite Hfloor.
    assert (Ha : inject_Z 10 <= inject_Z z) by (rewrite <- Zle_Qle; lia).
    assert (Hb : inject_Z z <= inject_Z 100) by (rewrite <- Zle_Qle; lia).
    change (inject_Z 10) with 10 in Ha. change (inject_Z 100) with 100 in Hb.
    destruct (Math_max_spec 1 (inject_Z z / 10)) as [[H1 ->]|[H1 ->]];
      [destruct (Math_min_spec 10 (inject_Z z / 10)) as [[H2 ->]|[H2 ->]]
      |destruct (Math_min_spec 10 1) as [[H2 ->]|[H2 ->]]]; lra.
Qed.

Lemma struggleScore_scale_witness :
  struggleScore_of (1 # 5) <= struggleScore_of (1 # 2)
  /\ struggleScore_of (1 # 2) == inject_Z 55 / 10
  /\ struggleScore_of (3 # 2) == 10.
Proof.
  destruct (struggleScore_scale (1 # 5) (1 # 2)) as (Hmono & _).
  destruct (struggleScore_scale (1 # 2) 0) as (_ & _ & _ & _ & Hnear).
  destruct (struggleScore_scale (3 # 2) 0) as (_ & _ & _ & Hhigh & _).
  split; [apply Hmono; lra|].
  split; [apply (Hnear 55%Z); [lia|vm_compute; split; discriminate]|apply Hhigh; lra].
Defined.

Lemma supportLevel_of_spec (s : Q) :
  (supportLevel_of s = HIGH <-> 7 <= s)
  /\ (supportLevel_of s = MEDIUM <-> 4 <= s /\ s < 7)
  /\ (supportLevel_of s = LOW <-> s < 4).
Proof.
  unfold supportLevel_of, Js.geb.
  change (Qle_bool 7 s) with (Js.leb 7 s). change (Qle_bool 4 s) with (Js.leb 4 s).
  destruct (Js.leb 7 s) eqn:E7; [apply leb_le in E7|apply leb_gt in E7];
    (destruct (Js.leb 4 s) eqn:E4; [apply leb_le in E4|apply leb_gt in E4]);
    repeat split; intros; try done; try lra.
Qed.

(** What [_upsertProfile] stores. *)
Lemma upsertProfile_spec (userId : nat) (d : StruggleProfile.data) (w : World) :
  exists p,
    _upsertProfile userId d w
    = (p, set_profiles (<[userId := p]> (struggleProfiles w)) (set_tick (S (tick w)) w))
    /\ StruggleProfile.struggleScore p = StruggleProfile.d_struggleScore d
    /\ StruggleProfile.trend p = StruggleProfile.d_trend d
    /\ StruggleProfile.supportLevel p = StruggleProfile.d_supportLevel d
    /\ StruggleProfile.contributingSignals p = StruggleProfile.d_contributingSignals d
    /\ StruggleProfile.lastReasonSummary p = StruggleProfile.d_lastReasonSummary d
    /\ StruggleProfile.lastEvaluatedAt p = Some (clock w (tick w))
    /\ match struggleProfiles w !! userId with
       | Some prev =>
           StruggleProfile.userId p = StruggleProfile.userId prev
           /\ StruggleProfile.track p = StruggleProfile.track prev
           /\ StruggleProfile.cohortId p = StruggleProfile.cohortId prev
       | None =>
           StruggleProfile.userId p = userId
           /\ StruggleProfile.track p = "general"
           /\ StruggleProfile.cohortId p = "default"
       end.
Proof.
  unfold _upsertProfile, Date_now. cbv zeta.
  change (struggleProfiles (set_tick (S (tick w)) w)) with (struggleProfiles w).
  destruct (struggleProfiles w !! userId) as [prev|]; eexists; by repeat split.
Qed.

(** The data [recomputeForUser] hands to [_upsertProfile]. *)
Lemma recompute_unfold (userId : nat) (options : Options) (w : World) :
  let sigs :=
    StruggleSignal_find userId
      (clock w (tick w) - hours_ms (default 24%Z (windowHours options)))%Z w in
  let w1 := set_tick (S (tick w)) w in
  recomputeForUser userId options w
  = match sigs with
    | [] => _upsertProfile userId (StruggleProfile.mkData 1 STABLE LOW [] "") w1
    | _ =>
        _upsertProfile userId
          (StruggleProfile.mkData
             (struggleScore_of (rawScore_of (aggregate sigs)))
             (trend_of (struggleProfiles w !! userId)
                (struggleScore_of (rawScore_of (aggregate sigs))))
             (supportLevel_of (struggleScore_of (rawScore_of (aggregate sigs))))
             (snd (score_loop (aggregate sigs)))
             (reasonSummary_of (snd (score_loop (aggregate sigs))))) w1
    end.
Proof.
  cbv zeta. unfold recomputeForUser, Date_now. cbv zeta.
  change (StruggleSignal_find userId ?x (set_tick (S (tick w)) w))
    with (StruggleSignal_find userId x w).
  destruct (StruggleSignal_find userId _ w) as [|s sigs] eqn:E; [reflexivity|].
  cbn [length Nat.eqb]. unfold rawScore_of.
  destruct (score_loop (aggregate (s :: sigs))) as [raw cs]. reflexivity.
Qed.

Lemma recompute_result (userId : nat) (options : Options) (w : World) :
  exists p,
    recomputeForUser userId options w
    = (p, set_profiles (<[userId := p]> (struggleProfiles w)) (set_tick (S (S (tick w))) w))
    /\ well_scored p
    /\ StruggleProfile.lastEvaluatedAt p = Some (clock w (S (tick w)))
    /\ match struggleProfiles w !! userId with
       | Some prev =>
           StruggleProfile.userId p = StruggleProfile.userId prev
           /\ StruggleProfile.track p = StruggleProfile.track prev
           /\ StruggleProfile.cohortId p = StruggleProfile.cohortId prev
       | None =>
           StruggleProfile.userId p = userId
           /\ StruggleProfile.track p = "general"
           /\ StruggleProfile.cohortId p = "default"
       end.
Proof.
  pose proof (recompute_unfold userId options w) as Hun. cbv zeta in Hun. rewrite Hun.
  destruct (StruggleSignal_find userId _ w) as [|s sigs].
  - destruct (upsertProfile_spec userId (StruggleProfile.mkData 1 STABLE LOW [] "")
                (set_tick (S (tick w)) w))
      as (p & Hrun & Hs & _ & Hl & _ & _ & Hat & Hkeep).
    exists p. split; [exact Hrun|]. split; [|split; [exact Hat|exact Hkeep]].
    unfold well_scored, level_matches_score. rewrite Hs, Hl.
    cbn [StruggleProfile.d_struggleScore StruggleProfile.d_supportLevel].
    repeat split; intros; try done; try lra; by vm_compute.
  - set (score := struggleScore_of (rawScore_of (aggregate (s :: sigs)))).
    destruct (upsertProfile_spec userId
                (StruggleProfile.mkData score
                   (trend_of (struggleProfiles w !! userId) score)
                   (supportLevel_of score)
                   (snd (score_loop (aggregate (s :: sigs))))
                   (reasonSummary_of (snd (score_loop (aggregate (s :: sigs))))))
                (set_tick (S (tick w)) w))
      as (p & Hrun & Hs & _ & Hl & _ & _ & Hat & Hkeep).
    exists p. split; [exact Hrun|]. split; [|split; [exact Hat|exact Hkeep]].
    unfold well_scored, level_matches_score. rewrite Hs, Hl.
    cbn [StruggleProfile.d_struggleScore StruggleProfile.d_supportLevel].
    split; [apply struggleScore_range|apply supportLevel_of_spec].
Qed.

(** X12: whatever signals are stored, [recomputeForUser] leaves the user
    with a profile whose score lies in [1,10] and whose support level is
    HIGH exactly from 7, MEDIUM exactly from 4 to below 7 and LOW below 4;
    it stamps the evaluation time, keeps the track and cohort of an
    existing profile (a new one gets "general" and "default"), and touches
    no other user's profile and no other collection. *)
Theorem recompute_profile_valid (userId : nat) (options : Options) (w : World) :
  exists p w',
    recomputeForUser userId options w = (p, w')
    /\ struggleProfiles w' !! userId = Some p
    /\ well_scored p
    /\ StruggleProfile.lastEvaluatedAt p = Some (clock w (S (tick w)))
    /\ (forall prev, struggleProfiles w !! userId = Some prev ->
          StruggleProfile.track p = StruggleProfile.track prev
          /\ StruggleProfile.cohortId p = StruggleProfile.cohortId prev)
    /\ (struggleProfiles w !! userId = None ->
          StruggleProfile.userId p = userId
          /\ StruggleProfile.track p = "general"
          /\ StruggleProfile.cohortId p = "default")
    /\ (forall u, u <> userId -> struggleProfiles w' !! u = struggleProfiles w !! u)
    /\ only_profiles_change w w'.
Proof.
  destruct (recompute_result userId options w) as (p & Hrun & Hwell & Hat & Hkeep).
  eexists p, _. split; [exact Hrun|]. cbn.
  split; [by rewrite lookup_insert_eq|]. split; [exact Hwell|]. split; [exact Hat|].
  split.
  { intros prev Hprev. rewrite Hprev in Hkeep. tauto. }
  split.
  { intros Hnone. rewrite Hnone in Hkeep. exact Hkeep. }
  split; [intros u Hu; by rewrite lookup_insert_ne|].
  by repeat split.
Qed.

End ProfileUpdate.

(** ** Trend, re-evaluation and breakthrough *)

Section Trend.

Local Open Scope Q_scope.
Import StruggleScoringService.

Lemma trend_of_spec (prev : StruggleProfile.t) (s : Q) :
  (trend_of (Some prev) s = UP <-> StruggleProfile.struggleScore prev + 0.5 < s)
  /\ (trend_of (Some prev) s = DOWN <-> s < StruggleProfile.struggleScore prev - 0.5)
  /\ (trend_of (Some prev) s = STABLE
      <-> StruggleProfile.struggleScore prev - 0.5 <= s
          /\ s <= StruggleProfile.struggleScore prev + 0.5).
Proof.
  unfold trend_of, Js.gtb, Js.ltb.
  set (q := StruggleProfile.struggleScore prev).
  change (Qle_bool s (q + 0.5)) with (Js.leb s (q + 0.5)).
  change (Qle_bool (q - 0.5) s) with (Js.leb (q - 0.5) s).
  destruct (Js.leb s (q + 0.5)) eqn:E1; [apply leb_le in E1|apply leb_gt in E1];
    (destruct (Js.leb (q - 0.5) s) eqn:E2; [apply leb_le in E2|apply leb_gt in E2]);
    simpl; repeat split; intros; try done; try lra.
Qed.

(** X13: the trend of a re-evaluation.  A first evaluation is STABLE; an
    evaluation that finds no signal in the window is STABLE with score 1,
    however high the stored score was.  Otherwise, against a stored score
    in [1,10], the trend is UP when the new score is at least 0.6 above
    it, DOWN when it is at least 0.6 below it, and STABLE when the two are
    at most 0.4 apart; and a trend UP (DOWN) is only ever set on a new
    score more than 0.4 above (below) a stored one.  Scores being whole
    tenths, this settles every case but a difference of exactly 0.5,
    where the comparison of the code depends on the binary representation
    of the two scores. *)
Theorem recompute_trend (userId : nat) (options : Options) (w : World) :
  exists p w',
    recomputeForUser userId options w = (p, w')
    /\ (struggleProfiles w !! userId = None -> StruggleProfile.trend p = STABLE)
    /\ (StruggleSignal_find userId
          (clock w (tick w) - hours_ms (default 24%Z (windowHours options)))%Z w = [] ->
        StruggleProfile.trend p = STABLE /\ StruggleProfile.struggleScore p = 1)
    /\ (forall prev,
          struggleProfiles w !! userId = Some prev ->
          1 <= StruggleProfile.struggleScore prev <= 10 ->
          StruggleSignal_find userId
            (clock w (tick w) - hours_ms (default 24%Z (windowHours options)))%Z w <> [] ->
          (StruggleProfile.struggleScore prev + 0.6 <= StruggleProfile.struggleScore p ->
           StruggleProfile.trend p = UP)
          /\ (StruggleProfile.struggleScore p + 0.6 <= StruggleProfile.struggleScore prev ->
              StruggleProfile.trend p = DOWN)
          /\ (StruggleProfile.struggleScore prev - 0.4 <= StruggleProfile.struggleScore p
              /\ StruggleProfile.struggleScore p <= StruggleProfile.struggleScore prev + 0.4 ->
              StruggleProfile.trend p = STABLE))
    /\ (StruggleProfile.trend p = UP ->
        exists prev,
          struggleProfiles w !! userId = Some prev
          /\ StruggleProfile.struggleScore prev + 0.4 < StruggleProfile.struggleScore p)
    /\ (StruggleProfile.trend p = DOWN ->
        exists prev,
          struggleProfiles w !! userId = Some prev
          /\ StruggleProfile.struggleScore p < StruggleProfile.struggleScore prev - 0.4).
Proof.
  pose proof (recompute_unfold userId options w) as Hun. cbv zeta in Hun. rewrite Hun.
  destruct (StruggleSignal_find userId _ w) as [|s sigs].
  - destruct (upsertProfile_spec userId (StruggleProfile.mkData 1 STABLE LOW [] "")
                (set_tick (S (tick w)) w)) as (p & Hrun & Hs & Ht & _).
    eexists p, _. split; [exact Hrun|]. rewrite Ht, Hs.
    cbn [StruggleProfile.d_trend StruggleProfile.d_struggleScore].
    split; [done|]. split; [done|].
    split; [intros prev _ _ Hne; by destruct Hne|].
    split; discriminate.
  - set (score := struggleScore_of (rawScore_of (aggregate (s :: sigs)))).
    destruct (upsertProfile_spec userId
                (StruggleProfile.mkData score
                   (trend_of (struggleProfiles w !! userId) score)
                   (supportLevel_of score)
                   (snd (score_loop (aggregate (s :: sigs))))
                   (reasonSummary_of (snd (score_loop (aggregate (s :: sigs))))))
                (set_tick (S (tick w)) w)) as (p & Hrun & Hs & Ht & _).
    eexists p, _. split; [exact Hrun|]. rewrite Ht, Hs.
    cbn [StruggleProfile.d_trend StruggleProfile.d_struggleScore].
    split; [by intros ->|]. split; [discriminate|].
    split.
    + intros prev -> _ _.
      destruct (trend_of_spec prev score) as (Hup & Hdown & Hstable).
      split; [intros H; apply Hup; lra|].
      split; [intros H; apply Hdown; lra|].
      intros [H1 H2]. apply Hstable. split; lra.
    + destruct (struggleProfiles w !! userId) as [prev|]; [|split; discriminate].
      destruct (trend_of_spec prev score) as (Hup & Hdown & _).
      split; intros H; exists prev; (split; [reflexivity|]).
      * apply Hup in H. lra.
      * apply Hdown in H. lra.
Qed.

Lemma recompute_trend_witness :
  exists p w',
    recomputeForUser Sample.learner (mkOptions None) Sample.scored_world = (p, w')
    /\ StruggleProfile.trend p = DOWN.
Proof.
  destruct (recompute_trend Sample.learner (mkOptions None) Sample.scored_world)
    as (p & w' & Hrun & _ & _ & Hprev & _).
  exists p, w'. split; [exact Hrun|].
  assert (Hp : p = fst (recomputeForUser Sample.learner (mkOptions None)
                          Sample.scored_world)) by (by rewrite Hrun).
  destruct (Hprev Sample.critical_profile) as (_ & Hdown & _).
  - reflexivity.
  - vm_compute. split; discriminate.
  - vm_compute. discriminate.
  - apply Hdown. rewrite Hp. vm_compute. discriminate.
Defined.

(** X14: evaluating twice over the same signals changes nothing but the
    trend: the second profile has the score, support level, contributing
    signals and reason summary of the first, and its trend is STABLE. *)
Theorem recompute_twice_stable (userId : nat) (o1 o2 : Options) (w w1 w2 : World)
    (p1 p2 : StruggleProfile.t) :
  recomputeForUser userId o1 w = (p1, w1) ->
  recomputeForUser userId o2 w1 = (p2, w2) ->
  StruggleSignal_find userId
    (clock w1 (tick w1) - hours_ms (default 24%Z (windowHours o2)))%Z w1
  = StruggleSignal_find userId
      (clock w (tick w) - hours_ms (default 24%Z (windowHours o1)))%Z w ->
  StruggleProfile.struggleScore p2 = StruggleProfile.struggleScore p1
  /\ StruggleProfile.trend p2 = STABLE
  /\ StruggleProfile.supportLevel p2 = StruggleProfile.supportLevel p1
  /\ StruggleProfile.contributingSignals p2 = StruggleProfile.contributingSignals p1
  /\ StruggleProfile.lastReasonSummary p2 = StruggleProfile.lastReasonSummary p1.
Proof.
  intros H1 H2 Hsame.
  pose proof (recompute_unfold userId o2 w1) as Hun2. cbv zeta in Hun2.
  rewrite Hun2, Hsame in H2. clear Hun2 Hsame.
  pose proof (recompute_unfold userId o1 w) as Hun1. cbv zeta in Hun1.
  rewrite Hun1 in H1. clear Hun1.
  destruct (StruggleSignal_find userId _ w) as [|s sigs].
  - destruct (upsertProfile_spec userId (StruggleProfile.mkData 1 STABLE LOW [] "")
                (set_tick (S (tick w)) w)) as (q1 & Hr1 & A1 & B1 & C1 & D1 & E1 & _).
    destruct (upsertProfile_spec userId (StruggleProfile.mkData 1 STABLE LOW [] "")
                (set_tick (S (tick w1)) w1)) as (q2 & Hr2 & A2 & B2 & C2 & D2 & E2 & _).
    rewrite Hr1 in H1. rewrite Hr2 in H2.
    injection H1 as <- _. injection H2 as <- _.
    rewrite A1, A2, B2, C1, C2, D1, D2, E1, E2. repeat split; reflexivity.
  - set (score := struggleScore_of (rawScore_of (aggregate (s :: sigs)))) in *.
    set (cs := snd (score_loop (aggregate (s :: sigs)))) in *.
    destruct (upsertProfile_spec userId
                (StruggleProfile.mkData score
                   (trend_of (struggleProfiles w !! userId) score)
                   (supportLevel_of score) cs (reasonSummary_of cs))
                (set_tick (S (tick w)) w)) as (q1 & Hr1 & A1 & B1 & C1 & D1 & E1 & _).
    rewrite Hr1 in H1. injection H1 as <- <-.
    match type of H2 with
    | _upsertProfile ?u ?d ?w0 = _ =>
        destruct (upsertProfile_spec u d w0) as (q2 & Hr2 & A2 & B2 & C2 & D2 & E2 & _)
    end.
    rewrite Hr2 in H2. injection H2 as <- _.
    rewrite A1, A2, B2, C1, C2, D1, D2, E1, E2.
    cbn [StruggleProfile.d_struggleScore StruggleProfile.d_trend
         StruggleProfile.d_supportLevel StruggleProfile.d_contributingSignals
         StruggleProfile.d_lastReasonSummary struggleProfiles set_profiles].
    rewrite lookup_insert_eq.
    split; [reflexivity|]. split; [|repeat split; reflexivity].
    apply trend_of_spec. rewrite A1. cbn [StruggleProfile.d_struggleScore].
    generalize score. intros x. lra.
Qed.

Lemma recompute_twice_stable_witness :
  StruggleProfile.trend
    (fst (recomputeForUser Sample.learner (mkOptions None)
            (snd (recomputeForUser Sample.learner (mkOptions None) Sample.alert_world))))
  = STABLE.
Proof.
  apply (recompute_twice_stable Sample.learner (mkOptions None) (mkOptions None)
           Sample.alert_world
           (snd (recomputeForUser Sample.learner (mkOptions None) Sample.alert_world))
           (snd (recomputeForUser Sample.learner (mkOptions None)
                   (snd (recomputeForUser Sample.learner (mkOptions None)
                           Sample.alert_world))))
           (fst (recomputeForUser Sample.learner (mkOptions None) Sample.alert_world))).
  - apply surjective_pairing.
  - apply surjective_pairing.
  - reflexivity.
Defined.

End Trend.

(** ** What the alert dispatcher stores *)

Section AlertContents.

Local Open Scope Q_scope.
Import TutorAlertService.

Ltac loop_step' H tutorId studentId profile w Efind Hscore :=
  rewrite alert_loop_cons in H; cbv zeta in H;
  destruct (TutorAlert_findOne_recent tutorId studentId _ (set_tick (S (tick w)) w))
    as [found|] eqn:Efind;
  [| destruct (TutorAlert_create_cases tutorId studentId profile (set_tick (S (tick w)) w))
       as [[Hscore Hcreate]|[Hscore Hcreate]];
     cbv zeta in Hcreate; rewrite Hcreate in H ].

(** The loop appends documents built by [created_doc] and touches nothing
    else; with a score the schema accepts it does not fail. *)
Lemma alert_loop_store (profile : StruggleProfile.t) (s : nat) (tutorIds : list nat) :
  forall (acc : list TutorAlert.t) (w w' : World) r,
    alert_loop profile s tutorIds acc w = (r, w') ->
    exists new,
      tutorAlerts w' = tutorAlerts w ++ new
      /\ only_alerts_change w w'
      /\ (next_id w <= next_id w')%nat
      /\ (1 <= StruggleProfile.struggleScore profile <= 10 -> r = inr (acc ++ new))
      /\ (new <> [] -> 1 <= StruggleProfile.struggleScore profile <= 10)
      /\ Forall (fun a => exists t wk,
                   a = created_doc t s profile wk /\ In t tutorIds
                   /\ (next_id w <= next_id wk)%nat) new.
Proof.
  induction tutorIds as [|tutorId rest IH]; intros acc w w' r H.
  - simpl in H. injection H as <- <-. exists [].
    rewrite !app_nil_r. by repeat split.
  - loop_step' H tutorId s profile w Efind Hscore.
    + destruct (IH _ _ _ _ H) as (new & Ha & Hf & Hid & Hr & Hne & Hall).
      exists new. split; [exact Ha|]. split; [exact Hf|]. split; [exact Hid|].
      split; [exact Hr|]. split; [exact Hne|].
      eapply Forall_impl; [exact Hall|]. simpl.
      intros a (t & wk & ? & ? & ?). exists t, wk. split; [done|]. split; [by right|done].
    + injection H as <- <-. exists []. rewrite app_nil_r.
      split; [reflexivity|]. split; [by repeat split|]. split; [simpl; lia|].
      split; [intros Hv; by destruct Hscore|]. split; [done|constructor].
    + destruct (IH _ _ _ _ H) as (new & Ha & Hf & Hid & Hr & Hne & Hall).
      set (doc := created_doc tutorId s profile (set_tick (S (tick w)) w)) in *.
      exists (doc :: new).
      split; [rewrite Ha; simpl; by rewrite <- app_assoc|].
      split; [destruct Hf as (? & ? & ? & ? & ?); by repeat split|].
      split; [simpl in Hid; lia|].
      split; [intros Hv; rewrite (Hr Hv); by rewrite <- app_assoc|].
      split; [done|].
      constructor.
      * exists tutorId, (set_tick (S (tick w)) w). split; [done|]. split; [by left|simpl; lia].
      * eapply Forall_impl; [exact Hall|]. simpl.
        intros a (t & wk & ? & ? & ?). exists t, wk. split; [done|].
        split; [by right|simpl in *; lia].
Qed.

(** X15: what [createAlertsIfNeeded] can store.  Existing alerts stay as
    they are and no other collection changes; every alert it appends is
    unread, names the student, a tutor of the student's care network and
    the profile's score (which the schema accepts), carries the fixed
    supportive summary and a non-empty topic (the profile's reason summary,
    or "current topic"), and is URGENT exactly when the score is at least
    9; the profile passed the gate. *)
Theorem created_alert_contents (s : nat) (w w' : World) r :
  createAlertsIfNeeded s w = (r, w') ->
  tutorAlerts w' = tutorAlerts w ++ created_between w w'
  /\ only_alerts_change w w'
  /\ (forall res, r = inr res -> res = created_between w w')
  /\ Forall (fun a =>
       exists profile network,
         struggleProfiles w !! s = Some profile
         /\ below_alert_gate profile = false
         /\ careNetworks w !! s = Some network
         /\ In (TutorAlert.tutorId a) (TutorCareNetwork.tutorIds network)
         /\ TutorAlert.studentId a = s
         /\ TutorAlert.isRead a = false
         /\ TutorAlert.struggleScore a = StruggleProfile.struggleScore profile
         /\ 1 <= TutorAlert.struggleScore a <= 10
         /\ (TutorAlert.urgency a = URGENT <-> 9 <= TutorAlert.struggleScore a)
         /\ TutorAlert.reasonSummary a
            = "A learner you helped before may benefit from support."
         /\ TutorAlert.topic a
            = (if String.eqb (StruggleProfile.lastReasonSummary profile) ""
               then "current topic" else StruggleProfile.lastReasonSummary profile)
         /\ TutorAlert.topic a <> ""
         /\ (next_id w <= TutorAlert._id a)%nat)
     (created_between w w').
Proof.
  intros H.
  destruct (createAlertsIfNeeded_cases _ _ _ _ H)
    as [[-> ->]|(profile & network & Hp & Hg & Hn & Hloop)].
  - assert (Hnil : created_between w w = []).
    { apply created_between_app. by rewrite app_nil_r. }
    rewrite Hnil, app_nil_r. split; [done|]. split; [by repeat split|].
    split; [by intros res [= <-]|constructor].
  - destruct (alert_loop_store _ _ _ _ _ _ _ Hloop)
      as (new & Ha & Hf & Hid & Hr & Hne & Hall).
    rewrite (created_between_app _ _ _ Ha).
    split; [exact Ha|]. split; [exact Hf|].
    split.
    { intros res ->. destruct new as [|a0 new'].
      - destruct (alert_loop_frame _ _ _ _ _ _ _ Hloop) as (new2 & Ha2 & _ & _ & Hres & _).
        rewrite Ha in Ha2. apply app_inv_head in Ha2. subst new2.
        by rewrite (Hres res eq_refl).
      - specialize (Hr (Hne ltac:(discriminate))). by injection Hr as ->. }
    apply Forall_forall. intros a Ha'.
    assert (Hvalid : 1 <= StruggleProfile.struggleScore profile <= 10).
    { apply Hne. intros ->. by apply elem_of_nil in Ha'. }
    rewrite Forall_forall in Hall. destruct (Hall a Ha') as (t & wk & -> & Hin & Hfresh).
    exists profile, network. unfold created_doc.
    cbn [TutorAlert.tutorId TutorAlert.studentId TutorAlert.isRead TutorAlert.struggleScore
         TutorAlert.urgency TutorAlert.reasonSummary TutorAlert.topic TutorAlert._id].
    split; [exact Hp|]. split; [exact Hg|]. split; [exact Hn|]. split; [exact Hin|].
    split; [reflexivity|]. split; [reflexivity|]. split; [reflexivity|].
    split; [exact Hvalid|].
    split.
    { unfold Js.geb.
      change (Qle_bool 9 (StruggleProfile.struggleScore profile))
        with (Js.leb 9 (StruggleProfile.struggleScore profile)).
      destruct (Js.leb 9 (StruggleProfile.struggleScore profile)) eqn:E;
        [apply leb_le in E|apply leb_gt in E]; split; intros; try done; lra. }
    split; [reflexivity|].
    unfold Js.or_default.
    destruct (String.eqb (StruggleProfile.lastReasonSummary profile) "") eqn:E.
    + split; [reflexivity|]. split; [discriminate|exact Hfresh].
    + split; [reflexivity|]. split; [by apply String.eqb_neq|exact Hfresh].
Qed.

Lemma created_alert_contents_witness :
  Forall (fun a => TutorAlert.isRead a = false)
    (created_between Sample.alert_world Sample.after_first_run).
Proof.
  destruct (created_alert_contents Sample.learner Sample.alert_world
              Sample.after_first_run
              (fst (createAlertsIfNeeded Sample.learner Sample.alert_world)))
    as (_ & _ & _ & Hall); [apply surjective_pairing|].
  eapply Forall_impl; [exact Hall|]. simpl.
  intros a (profile & network & _ & _ & _ & _ & _ & Hread & _). exact Hread.
Defined.

(** X16: a student without a profile, without a care network, or with an
    empty one gets no alert: the call returns the empty list and the store
    is untouched, whatever the score. *)
Theorem missing_prerequisites_no_alert (s : nat) (w : World) :
  (struggleProfiles w !! s = None
   \/ careNetworks w !! s = None
   \/ (exists network, careNetworks w !! s = Some network
                       /\ TutorCareNetwork.tutorIds network = [])) ->
  createAlertsIfNeeded s w = (inr [], w).
Proof.
  unfold createAlertsIfNeeded.
  intros [Hp|[Hn|(network & Hn & Ht)]].
  - by rewrite Hp.
  - rewrite Hn. destruct (struggleProfiles w !! s) as [profile|]; [|done].
    by destruct (below_alert_gate profile).
  - rewrite Hn, Ht. destruct (struggleProfiles w !! s) as [profile|]; [|done].
    by destruct (below_alert_gate profile).
Qed.

Lemma missing_prerequisites_no_alert_witness :
  createAlertsIfNeeded Sample.tutor_a Sample.alert_world = (inr [], Sample.alert_world).
Proof.
  apply (missing_prerequisites_no_alert Sample.tutor_a Sample.alert_world).
  left. reflexivity.
Defined.

(** With a duplicate-free list of tutors, none of whom was alerted about
    the student within the cooldown, the loop stores one alert per tutor,
    in the order of the list. *)
Lemma alert_loop_one_each (profile : StruggleProfile.t) (s : nat) (tutorIds : list nat) :
  1 <= StruggleProfile.struggleScore profile <= 10 ->
  forall (acc : list TutorAlert.t) (w : World),
    monotone (clock w) ->
    NoDup tutorIds ->
    no_recent_alert s tutorIds (clock w (tick w)) w ->
    exists new w',
      alert_loop profile s tutorIds acc w = (inr (acc ++ new), w')
      /\ map TutorAlert.tutorId new = tutorIds.
Proof.
  intros Hvalid.
  induction tutorIds as [|tutorId rest IH]; intros acc w Hmono Hnd Hold.
  - exists [], w. simpl. by rewrite app_nil_r.
  - inversion Hnd as [|? ? Hnotin Hnd']; subst.
    destruct (alert_loop profile s (tutorId :: rest) acc w) as [r w'] eqn:H.
    loop_step' H tutorId s profile w Efind Hscore.
    + exfalso. unfold TutorAlert_findOne_recent in Efind.
      apply find_some in Efind as [Hin Hf]. simpl in Hin.
      rewrite !andb_true_iff, !Nat.eqb_eq, Z.leb_le in Hf.
      destruct Hf as [[Ht Hs] Hsince].
      specialize (Hold found Hin Hs). rewrite Ht in Hold.
      specialize (Hold ltac:(by left)). lia.
    + by destruct Hscore.
    + set (doc := created_doc tutorId s profile (set_tick (S (tick w)) w)) in *.
      destruct (IH (acc ++ [doc]) (after_create doc (set_tick (S (tick w)) w)))
        as (new & w'' & Hrun & Hmap).
      * exact Hmono.
      * exact Hnd'.
      * intros a Hin Hs Ht. simpl in Hin. apply in_app_or in Hin as [Hin|[<-|[]]].
        -- specialize (Hold a Hin Hs ltac:(by right)). simpl.
           pose proof (Hmono (tick w) (S (S (tick w))) ltac:(lia)). lia.
        -- exfalso. apply Hnotin. apply list_elem_of_In. exact Ht.
      * rewrite Hrun in H. injection H as <- <-.
        exists (doc :: new), w''. split; [by rewrite <- app_assoc|].
        simpl. by rewrite Hmap.
Qed.

(** X17: when the profile passes the gate with a score the schema accepts,
    the care network lists each tutor once and none of them was alerted
    about the student within the last 24 hours, [createAlertsIfNeeded]
    returns exactly one alert per tutor, in the order of the network. *)
Theorem one_alert_per_tutor (s : nat) (w : World) (profile : StruggleProfile.t)
    (network : TutorCareNetwork.t) :
  struggleProfiles w !! s = Some profile ->
  below_alert_gate profile = false ->
  1 <= StruggleProfile.struggleScore profile <= 10 ->
  careNetworks w !! s = Some network ->
  NoDup (TutorCareNetwork.tutorIds network) ->
  monotone (clock w) ->
  no_recent_alert s (TutorCareNetwork.tutorIds network) (clock w (tick w)) w ->
  exists created w',
    createAlertsIfNeeded s w = (inr created, w')
    /\ map TutorAlert.tutorId created = TutorCareNetwork.tutorIds network
    /\ length created = length (TutorCareNetwork.tutorIds network).
Proof.
  intros Hp Hg Hvalid Hn Hnd Hmono Hold.
  unfold createAlertsIfNeeded. rewrite Hp, Hg, Hn.
  destruct (alert_loop_one_each profile s (TutorCareNetwork.tutorIds network) Hvalid
              [] w Hmono Hnd Hold) as (new & w' & Hrun & Hmap).
  simpl in Hrun.
  destruct (TutorCareNetwork.tutorIds network) as [|t0 rest] eqn:Et.
  - destruct new; [|discriminate]. simpl in Hrun. injection Hrun as <-.
    exists [], w. by repeat split.
  - exists new, w'. split; [exact Hrun|]. split; [exact Hmap|].
    by rewrite <- Hmap, length_map.
Qed.

Lemma one_alert_per_tutor_witness :
  exists created w',
    createAlertsIfNeeded Sample.learner Sample.alert_world = (inr created, w')
    /\ map TutorAlert.tutorId created = [Sample.tutor_a; Sample.tutor_b].
Proof.
  destruct (one_alert_per_tutor Sample.learner Sample.alert_world
              Sample.critical_profile Sample.network)
    as (created & w' & Hrun & Hmap & _).
  - reflexivity.
  - reflexivity.
  - split; discriminate.
  - reflexivity.
  - apply (bool_decide_unpack _). by vm_compute.
  - intros i j Hij. cbn. unfold Sample.clock. lia.
  - intros a [].
  - exists created, w'. split; [exact Hrun|exact Hmap].
Defined.

End AlertContents.

(** ** Read flags and unread counts *)

Section ReadFlags.

Import TutorAlertService.

Lemma set_isRead_read (a : TutorAlert.t) :
  TutorAlert.isRead a = true -> TutorAlert.set_isRead true a = a.
Proof. destruct a. simpl. by intros ->. Qed.

(** [findOneAndUpdate] rewrites the first document that matches. *)
Lemma findOneAndUpdate_split (alertId tutorId : nat) (docs : list TutorAlert.t) :
  match List.find (matches_alert alertId tutorId) docs with
  | None => findOneAndUpdate_isRead alertId tutorId docs = (None, docs)
  | Some a0 =>
      exists l1 l2,
        docs = l1 ++ a0 :: l2
        /\ findOneAndUpdate_isRead alertId tutorId docs
           = (Some (TutorAlert.set_isRead true a0),
              l1 ++ TutorAlert.set_isRead true a0 :: l2)
        /\ matches_alert alertId tutorId a0 = true
        /\ Forall (fun b => matches_alert alertId tutorId b = false) l1
  end.
Proof.
  induction docs as [|a rest IH]; [done|].
  cbn [List.find findOneAndUpdate_isRead].
  change ((TutorAlert._id a =? alertId)%nat && (TutorAlert.tutorId a =? tutorId)%nat)
    with (matches_alert alertId tutorId a).
  destruct (matches_alert alertId tutorId a) eqn:E.
  - exists [], rest. by repeat split.
  - destruct (List.find (matches_alert alertId tutorId) rest) as [a0|].
    + destruct IH as (l1 & l2 & -> & -> & Hm & Hl1). exists (a :: l1), l2.
      repeat split; try done. by constructor.
    + by rewrite IH.
Qed.

Lemma filter_count_split {A} (f : A -> bool) (l1 l2 : list A) (x : A) :
  length (List.filter f (l1 ++ x :: l2))
  = (length (List.filter f l1) + (if f x then 1 else 0) + length (List.filter f l2))%nat.
Proof.
  rewrite List.filter_app, length_app. simpl. destruct (f x); simpl; lia.
Qed.

(** X18: marking an alert as read never changes another tutor's unread
    count and never changes how many alerts the tutor has in total; it
    returns the first alert with that id and tutor, read; the tutor's
    unread count drops by exactly one when that alert was unread, and when
    it was already read the store stays as it was. *)
Theorem markAsRead_counts (alertId tutorId : nat) (w w' : World)
    (r : option TutorAlert.t) :
  markAsRead alertId tutorId w = (r, w') ->
  (forall t, t <> tutorId -> getUnreadCount t w' = getUnreadCount t w)
  /\ (getUnreadCount tutorId w' + TutorAlert_count tutorId true w'
      = getUnreadCount tutorId w + TutorAlert_count tutorId true w)%nat
  /\ (forall a0,
        List.find (matches_alert alertId tutorId) (tutorAlerts w) = Some a0 ->
        r = Some (TutorAlert.set_isRead true a0)
        /\ (TutorAlert.isRead a0 = false ->
            getUnreadCount tutorId w = S (getUnreadCount tutorId w')
            /\ TutorAlert_count tutorId true w' = S (TutorAlert_count tutorId true w))
        /\ (TutorAlert.isRead a0 = true -> w' = w)).
Proof.
  unfold markAsRead.
  pose proof (findOneAndUpdate_split alertId tutorId (tutorAlerts w)) as Hsplit.
  destruct (List.find (matches_alert alertId tutorId) (tutorAlerts w)) as [a0|] eqn:Ef.
  - destruct Hsplit as (l1 & l2 & Hdocs & -> & Hm & _).
    intros [= <- <-].
    unfold matches_alert in Hm. apply andb_true_iff in Hm as [_ Ht].
    apply Nat.eqb_eq in Ht.
    unfold getUnreadCount, TutorAlert_count. cbn [tutorAlerts set_alerts].
    split; [|split].
    + intros t Hne. rewrite Hdocs, !filter_count_split.
      cbn [TutorAlert.set_isRead TutorAlert.tutorId TutorAlert.isRead]. rewrite Ht.
      replace (tutorId =? t)%nat with false by (symmetry; apply Nat.eqb_neq; lia).
      reflexivity.
    + rewrite Hdocs, !filter_count_split.
      cbn [TutorAlert.set_isRead TutorAlert.tutorId TutorAlert.isRead].
      rewrite Ht, Nat.eqb_refl. destruct (TutorAlert.isRead a0); simpl; lia.
    + intros a1 [= <-]. split; [reflexivity|]. split.
      * intros Hunread. rewrite Hdocs, !filter_count_split.
        cbn [TutorAlert.set_isRead TutorAlert.tutorId TutorAlert.isRead].
        rewrite Ht, Nat.eqb_refl, Hunread. simpl. lia.
      * intros Hread. rewrite (set_isRead_read a0 Hread), <- Hdocs. by destruct w.
  - rewrite Hsplit. intros [= <- <-].
    replace (set_alerts (tutorAlerts w) w) with w by (by destruct w).
    split; [done|]. split; [done|]. discriminate.
Qed.

Lemma markAsRead_counts_witness :
  getUnreadCount Sample.tutor_a Sample.after_first_run
  = S (getUnreadCount Sample.tutor_a
         (snd (markAsRead 100 Sample.tutor_a Sample.after_first_run))).
Proof.
  destruct (markAsRead_counts 100 Sample.tutor_a Sample.after_first_run
              (snd (markAsRead 100 Sample.tutor_a Sample.after_first_run))
              (fst (markAsRead 100 Sample.tutor_a Sample.after_first_run)))
    as (_ & _ & H); [apply surjective_pairing|].
  eapply H; [vm_compute; reflexivity|reflexivity].
Defined.

Lemma find_first_match {A} (p : A -> bool) (l1 l2 : list A) (x : A) :
  Forall (fun b => p b = false) l1 -> p x = true ->
  List.find p (l1 ++ x :: l2) = Some x.
Proof.
  intros Hl1 Hx. induction Hl1 as [|b l1 Hb _ IH]; simpl.
  - by rewrite Hx.
  - by rewrite Hb.
Qed.

(** X19: marking the same alert as read a second time changes nothing and
    returns the same document. *)
Theorem markAsRead_idempotent (alertId tutorId : nat) (w w' : World)
    (r : option TutorAlert.t) :
  markAsRead alertId tutorId w = (r, w') ->
  markAsRead alertId tutorId w' = (r, w').
Proof.
  unfold markAsRead.
  pose proof (findOneAndUpdate_split alertId tutorId (tutorAlerts w)) as Hsplit.
  destruct (List.find (matches_alert alertId tutorId) (tutorAlerts w)) as [a0|] eqn:Ef.
  - destruct Hsplit as (l1 & l2 & Hdocs & -> & Hm & Hl1).
    intros [= <- <-]. cbn [tutorAlerts set_alerts].
    pose proof (findOneAndUpdate_split alertId tutorId
                  (l1 ++ TutorAlert.set_isRead true a0 :: l2)) as Hsplit2.
    rewrite (find_first_match _ l1 l2 (TutorAlert.set_isRead true a0) Hl1) in Hsplit2
      by exact Hm.
    destruct Hsplit2 as (k1 & k2 & Hk & -> & _ & _).
    change (TutorAlert.set_isRead true (TutorAlert.set_isRead true a0))
      with (TutorAlert.set_isRead true a0).
    rewrite <- Hk. reflexivity.
  - rewrite Hsplit. intros [= <- <-]. cbn [tutorAlerts set_alerts].
    rewrite Hsplit. reflexivity.
Qed.

Lemma markAsRead_idempotent_witness :
  markAsRead 100 Sample.tutor_a
    (snd (markAsRead 100 Sample.tutor_a Sample.after_first_run))
  = markAsRead 100 Sample.tutor_a Sample.after_first_run.
Proof.
  rewrite (surjective_pairing (markAsRead 100 Sample.tutor_a Sample.after_first_run)) at 2.
  apply (markAsRead_idempotent 100 Sample.tutor_a Sample.after_first_run).
  apply surjective_pairing.
Defined.

End ReadFlags.

(** ** How the stages compose *)

Section Composition.

Local Open Scope Q_scope.
Import TutorAlertService.

Lemma gate_blocks (s : nat) (w : World) (profile : StruggleProfile.t) :
  struggleProfiles w !! s = Some profile ->
  below_alert_gate profile = true ->
  createAlertsIfNeeded s w = (inr [], w).
Proof. intros Hp Hg. unfold createAlertsIfNeeded. by rewrite Hp, Hg. Qed.

(** X20: every alert the dispatcher stores is unread, so a tutor's unread
    count grows by exactly the number of alerts created for that tutor. *)
Theorem unread_after_alerts (s t : nat) (w w' : World) r :
  createAlertsIfNeeded s w = (r, w') ->
  getUnreadCount t w'
  = (getUnreadCount t w + pair_count t s (created_between w w'))%nat.
Proof.
  intros H.
  destruct (createAlertsIfNeeded_cases _ _ _ _ H)
    as [[-> ->]|(profile & network & Hp & Hg & Hn & Hloop)].
  - replace (created_between w w) with (@nil TutorAlert.t)
      by (symmetry; apply created_between_app; by rewrite app_nil_r).
    unfold pair_count. simpl. lia.
  - destruct (alert_loop_store _ _ _ _ _ _ _ Hloop) as (new & Ha & _ & _ & _ & _ & Hall).
    rewrite (created_between_app _ _ _ Ha).
    unfold getUnreadCount, pair_count. rewrite Ha, List.filter_app, length_app.
    f_equal. f_equal. apply List.filter_ext_in. intros a Hin.
    rewrite Forall_forall in Hall.
    destruct (Hall a) as (t' & wk & -> & _ & _); [by apply list_elem_of_In|].
    unfold for_pair, created_doc. simpl. by rewrite Nat.eqb_refl, !andb_true_r.
Qed.

Lemma unread_after_alerts_witness :
  getUnreadCount Sample.tutor_a Sample.after_first_run
  = (getUnreadCount Sample.tutor_a Sample.alert_world
     + pair_count Sample.tutor_a Sample.learner
         (created_between Sample.alert_world Sample.after_first_run))%nat.
Proof.
  apply (unread_after_alerts Sample.learner Sample.tutor_a Sample.alert_world
           Sample.after_first_run
           (fst (createAlertsIfNeeded Sample.learner Sample.alert_world))).
  apply surjective_pairing.
Defined.

(** X21: [checkBreakthrough] answers [null] exactly when the user has no
    profile; it reports a breakthrough exactly for a DOWN trend with a
    score of at most 4, then with the score and the reason summary; and a
    profile that counts as a breakthrough never passes the alert gate, so
    [createAlertsIfNeeded] then returns the empty list and stores
    nothing. *)
Theorem breakthrough_excludes_alerts (userId : nat) (w : World) :
  (StruggleScoringService.checkBreakthrough userId w = None
   <-> struggleProfiles w !! userId = None)
  /\ (forall profile,
        struggleProfiles w !! userId = Some profile ->
        exists b,
          StruggleScoringService.checkBreakthrough userId w = Some b
          /\ (StruggleScoringService.isBreakthrough b = true
              <-> StruggleProfile.trend profile = DOWN
                  /\ StruggleProfile.struggleScore profile <= 4)
          /\ (StruggleScoringService.isBreakthrough b = true ->
              StruggleScoringService.currentScore b
              = Some (StruggleProfile.struggleScore profile)
              /\ StruggleScoringService.topic b
                 = Some (StruggleProfile.lastReasonSummary profile)
              /\ createAlertsIfNeeded userId w = (inr [], w))).
Proof.
  unfold StruggleScoringService.checkBreakthrough.
  split.
  - destruct (struggleProfiles w !! userId) as [profile|]; [|done].
    split; [|done]. by destruct (_ && _).
  - intros profile Hp. rewrite Hp.
    destruct (bool_decide (StruggleProfile.trend profile = DOWN)) eqn:Et;
      [apply bool_decide_eq_true in Et|apply bool_decide_eq_false in Et].
    + destruct (Js.leb (StruggleProfile.struggleScore profile) 4) eqn:Es;
        [apply leb_le in Es|apply leb_gt in Es]; simpl; eexists; (split; [reflexivity|]).
      * split; [done|]. intros _. split; [done|]. split; [done|].
        apply (gate_blocks userId w profile Hp).
        unfold below_alert_gate. rewrite Et. simpl. rewrite orb_true_r. simpl.
        unfold Js.ltb. apply negb_true_iff.
        change (Qle_bool 9 (StruggleProfile.struggleScore profile))
          with (Js.leb 9 (StruggleProfile.struggleScore profile)).
        apply leb_gt. lra.
      * simpl. split; [split; [done|intros [_ H]; lra]|done].
    + simpl. eexists. split; [reflexivity|].
      simpl. split; [split; [done|by intros [H _]]|done].
Qed.

Lemma breakthrough_excludes_alerts_witness :
  exists b,
    StruggleScoringService.checkBreakthrough Sample.learner Sample.alert_world = Some b
    /\ (StruggleScoringService.isBreakthrough b = true
        <-> StruggleProfile.trend Sample.critical_profile = DOWN
            /\ StruggleProfile.struggleScore Sample.critical_profile <= 4).
Proof.
  destruct (breakthrough_excludes_alerts Sample.learner Sample.alert_world) as [_ H].
  destruct (H Sample.critical_profile) as (b & Hb & Hiff & _); [reflexivity|].
  exists b. split; [exact Hb|exact Hiff].
Defined.

(** X22: an evaluation that finds no signal in the window silences the
    student: the stored profile is below the alert gate, so a following
    [createAlertsIfNeeded] returns the empty list and stores nothing, and
    [checkBreakthrough] reports no breakthrough, however high the previous
    score was. *)
Theorem reset_silences_student (userId : nat) (options : StruggleScoringService.Options)
    (w : World) :
  StruggleSignal_find userId
    (clock w (tick w)
     - hours_ms (default 24%Z (StruggleScoringService.windowHours options)))%Z w = [] ->
  exists p w',
    StruggleScoringService.recomputeForUser userId options w = (p, w')
    /\ createAlertsIfNeeded userId w' = (inr [], w')
    /\ StruggleScoringService.checkBreakthrough userId w'
       = Some (StruggleScoringService.mkBreakthrough false None None).
Proof.
  intros Hnone.
  pose proof (recompute_unfold userId options w) as Hun. cbv zeta in Hun.
  rewrite Hnone in Hun. rewrite Hun.
  destruct (upsertProfile_spec userId (StruggleProfile.mkData 1 STABLE LOW [] "")
              (set_tick (S (tick w)) w)) as (p & Hrun & Hs & Ht & Hl & _).
  eexists p, _. split; [exact Hrun|].
  assert (Hp : struggleProfiles
                 (set_profiles
                    (<[userId := p]> (struggleProfiles (set_tick (S (tick w)) w)))
                    (set_tick (S (tick (set_tick (S (tick w)) w)))
                       (set_tick (S (tick w)) w))) !! userId = Some p).
  { cbn [struggleProfiles set_profiles]. apply lookup_insert_eq. }
  split.
  - apply (gate_blocks _ _ p Hp). unfold below_alert_gate. rewrite Hl, Hs. reflexivity.
  - unfold StruggleScoringService.checkBreakthrough. rewrite Hp, Ht. reflexivity.
Qed.

Lemma reset_silences_student_witness :
  exists p w',
    StruggleScoringService.recomputeForUser Sample.learner
      (StruggleScoringService.mkOptions None) Sample.alert_world = (p, w')
    /\ createAlertsIfNeeded Sample.learner w' = (inr [], w').
Proof.
  destruct (reset_silences_student Sample.learner (StruggleScoringService.mkOptions None)
              Sample.alert_world) as (p & w' & Hrun & Hquiet & _); [reflexivity|].
  exists p, w'. split; [exact Hrun|exact Hquiet].
Defined.

End Composition.

(** ** The pipeline *)

Section Pipeline.

Local Open Scope Q_scope.
Import TutorAlertService.

(** Extraction ends normally and only appends signals. *)
Lemma extraction_ok (i : AIInteraction.t) (options : StruggleSignalService.Options)
    (w : World) :
  exists res w' new,
    StruggleSignalService.extractSignalsFromInteraction i options w = (inr res, w')
    /\ struggleSignals w' = struggleSignals w ++ new
    /\ only_signals_change w w'.
Proof.
  unfold StruggleSignalService.extractSignalsFromInteraction.
  destruct (StruggleSignalService.role_gate i).
  { exists (StruggleSignalService.mkResult 0 0 []), w, []. rewrite app_nil_r.
    by repeat split. }
  set (wh := default 24%Z (StruggleSignalService.windowHours options)).
  pose proof (signalPayloads_shape i wh w) as [Hshape _].
  pose proof (signalPayloads_frame i wh w) as Hframe.
  pose proof (signalPayloads_signals i wh w) as Hsig.
  destruct (StruggleSignalService.signalPayloads i wh w) as [payloads w1].
  cbn [fst snd] in *.
  destruct (writeSignals_appends i payloads 0 0 [] w1 Hshape)
    as (res & w' & new & Hrun & _ & Hstore & _ & _ & _ & Hframe').
  exists res, w', new. split; [exact Hrun|]. split; [by rewrite Hstore, Hsig|].
  destruct Hframe as (? & ? & ? & ? & ?), Hframe' as (? & ? & ? & ? & ?).
  repeat split; congruence.
Qed.

(** The alerts stored for a profile that is well scored. *)
Lemma alerts_of_well_scored (s : nat) (w w' : World) (p : StruggleProfile.t) r :
  struggleProfiles w !! s = Some p ->
  well_scored p ->
  createAlertsIfNeeded s w = (r, w') ->
  exists alerts,
    r = inr alerts
    /\ tutorAlerts w' = tutorAlerts w ++ alerts
    /\ only_alerts_change w w'
    /\ (alerts <> [] -> below_alert_gate p = false)
    /\ Forall (fun a =>
                 TutorAlert.studentId a = s
                 /\ TutorAlert.isRead a = false
                 /\ TutorAlert.struggleScore a = StruggleProfile.struggleScore p
                 /\ TutorAlert.urgency a
                    = (if Js.geb (StruggleProfile.struggleScore p) 9 then URGENT else SOFT))
         alerts.
Proof.
  intros Hp [Hvalid _] H.
  destruct (createAlertsIfNeeded_cases _ _ _ _ H)
    as [[-> ->]|(profile & network & Hp' & Hg & Hn & Hloop)].
  - exists []. rewrite app_nil_r. split; [done|]. split; [done|].
    split; [by repeat split|]. split; [done|constructor].
  - rewrite Hp in Hp'. injection Hp' as <-.
    destruct (alert_loop_store _ _ _ _ _ _ _ Hloop) as (new & Ha & Hf & _ & Hr & _ & Hall).
    exists new. split; [by rewrite (Hr Hvalid)|]. split; [exact Ha|].
    split; [exact Hf|]. split; [done|].
    eapply Forall_impl; [exact Hall|]. simpl. intros a (t & wk & -> & _ & _).
    by repeat split.
Qed.

(** X23: a first evaluation can only alert on a critical score.  For a
    user without a stored profile the recomputed trend is STABLE, so a
    following [createAlertsIfNeeded] stores nothing when the new score is
    below 9, and every alert it does store is URGENT. *)
Theorem first_evaluation_only_critical (userId : nat)
    (options : StruggleScoringService.Options) (w : World) :
  struggleProfiles w !! userId = None ->
  exists p w',
    StruggleScoringService.recomputeForUser userId options w = (p, w')
    /\ StruggleProfile.trend p = STABLE
    /\ (StruggleProfile.struggleScore p < 9 ->
        createAlertsIfNeeded userId w' = (inr [], w'))
    /\ (forall r w'',
          createAlertsIfNeeded userId w' = (r, w'') ->
          Forall (fun a => TutorAlert.urgency a = URGENT /\ 9 <= TutorAlert.struggleScore a)
            (created_between w' w'')).
Proof.
  intros Hnone.
  destruct (recompute_result userId options w) as (p & Hrun & Hwell & _ & _).
  assert (Htrend : StruggleProfile.trend p = STABLE).
  { pose proof (recompute_unfold userId options w) as Hun. cbv zeta in Hun.
    rewrite Hun, Hnone in Hrun.
    destruct (StruggleSignal_find userId _ w).
    - destruct (upsertProfile_spec userId (StruggleProfile.mkData 1 STABLE LOW [] "")
                  (set_tick (S (tick w)) w)) as (q & Hq & _ & Ht & _).
      rewrite Hq in Hrun. injection Hrun as <-. exact Ht.
    - match type of Hrun with
      | StruggleScoringService._upsertProfile ?u ?d ?w0 = _ =>
          destruct (upsertProfile_spec u d w0) as (q & Hq & _ & Ht & _)
      end.
      rewrite Hq in Hrun. injection Hrun as <-. exact Ht. }
  eexists p, _. split; [exact Hrun|]. split; [exact Htrend|].
  set (w' := set_profiles _ _).
  assert (Hp : struggleProfiles w' !! userId = Some p)
    by (unfold w'; cbn [struggleProfiles set_profiles]; apply lookup_insert_eq).
  assert (Hgate : below_alert_gate p = Js.ltb (StruggleProfile.struggleScore p) 9).
  { unfold below_alert_gate. rewrite Htrend. simpl. by rewrite orb_true_r. }
  split.
  - intros Hlow. apply (gate_blocks _ _ p Hp). rewrite Hgate.
    unfold Js.ltb. apply negb_true_iff.
    change (Qle_bool 9 (StruggleProfile.struggleScore p))
      with (Js.leb 9 (StruggleProfile.struggleScore p)).
    by apply leb_gt.
  - intros r w'' H.
    destruct (alerts_of_well_scored _ _ _ _ _ Hp Hwell H)
      as (alerts & _ & Ha & _ & Hpass & Hall).
    rewrite (created_between_app _ _ _ Ha).
    apply Forall_forall. intros a Hin.
    assert (H9 : 9 <= StruggleProfile.struggleScore p).
    { assert (Hne : alerts <> []) by (intros ->; by apply elem_of_nil in Hin).
      specialize (Hpass Hne). rewrite Hgate in Hpass.
      unfold Js.ltb in Hpass. apply negb_false_iff in Hpass.
      by apply Qle_bool_iff in Hpass. }
    rewrite Forall_forall in Hall. destruct (Hall a Hin) as (_ & _ & Hs & Hu).
    rewrite Hu, Hs. split; [|exact H9].
    unfold Js.geb. apply Qle_bool_iff in H9. by rewrite H9.
Qed.

Lemma first_evaluation_only_critical_witness :
  exists p w',
    StruggleScoringService.recomputeForUser Sample.tutor_a
      (StruggleScoringService.mkOptions None) Sample.alert_world = (p, w')
    /\ StruggleProfile.trend p = STABLE.
Proof.
  destruct (first_evaluation_only_critical Sample.tutor_a
              (StruggleScoringService.mkOptions None) Sample.alert_world)
    as (p & w' & Hrun & Ht & _); [reflexivity|].
  exists p, w'. split; [exact Hrun|exact Ht].
Defined.

(** X24: the detection pipeline run after a learner's request never takes
    its error branch.  Afterwards the user has a profile with a score in
    [1,10] and a matching support level; interactions and care networks
    are untouched, other users' profiles are unchanged, signals and alerts
    are only appended; every alert appended is unread, about this user,
    carries the new score, which is at least 7, and is URGENT exactly when
    that score is at least 9. *)
Theorem pipeline_never_fails (interaction : AIInteraction.t) (userId : nat) (w : World) :
  exists w' p,
    AiRoute.struggleDetection interaction userId w = (None, w')
    /\ struggleProfiles w' !! userId = Some p
    /\ well_scored p
    /\ aiInteractions w' = aiInteractions w
    /\ careNetworks w' = careNetworks w
    /\ (forall u, u <> userId -> struggleProfiles w' !! u = struggleProfiles w !! u)
    /\ (exists sigs, struggleSignals w' = struggleSignals w ++ sigs)
    /\ (exists alerts,
          tutorAlerts w' = tutorAlerts w ++ alerts
          /\ Forall (fun a =>
                       TutorAlert.studentId a = userId
                       /\ TutorAlert.isRead a = false
                       /\ TutorAlert.struggleScore a = StruggleProfile.struggleScore p
                       /\ 7 <= TutorAlert.struggleScore a
                       /\ (TutorAlert.urgency a = URGENT <-> 9 <= TutorAlert.struggleScore a))
               alerts).
Proof.
  unfold AiRoute.struggleDetection.
  destruct (extraction_ok interaction (StruggleSignalService.mkOptions (Some 24%Z)) w)
    as (res & w1 & sigs & -> & Hsigs & Hf1).
  destruct (recompute_result userId (StruggleScoringService.mkOptions None) w1)
    as (p & -> & Hwell & _ & _).
  set (w2 := set_profiles _ _).
  assert (Hp : struggleProfiles w2 !! userId = Some p)
    by (unfold w2; cbn [struggleProfiles set_profiles]; apply lookup_insert_eq).
  destruct (createAlertsIfNeeded userId w2) as [r w3] eqn:Halerts.
  destruct (alerts_of_well_scored _ _ _ _ _ Hp Hwell Halerts)
    as (alerts & -> & Ha & Hf3 & Hpass & Hall).
  exists w3, p. split; [reflexivity|].
  destruct Hf1 as (I1 & P1 & N1 & A1 & _).
  destruct Hf3 as (I3 & S3 & P3 & N3 & _).
  unfold w2 in I3, S3, N3, Ha.
  cbn [aiInteractions struggleSignals careNetworks tutorAlerts set_profiles set_tick]
    in I3, S3, N3, Ha.
  split; [by rewrite P3|]. split; [exact Hwell|].
  split; [by rewrite I3, I1|]. split; [by rewrite N3, N1|].
  split.
  { intros u Hu. rewrite P3. unfold w2. cbn [struggleProfiles set_profiles set_tick].
    rewrite lookup_insert_ne by done. by rewrite P1. }
  split; [exists sigs; by rewrite S3|].
  exists alerts. split; [by rewrite Ha, A1|].
  apply Forall_forall. intros a Hin.
  assert (Hne : alerts <> []) by (intros ->; by apply elem_of_nil in Hin).
  specialize (Hpass Hne). apply below_gate_iff in Hpass.
  rewrite Forall_forall in Hall. destruct (Hall a Hin) as (Hs & Hr & Hsc & Hu).
  destruct Hwell as [Hvalid (Hhigh & _ & _)].
  split; [exact Hs|]. split; [exact Hr|]. split; [exact Hsc|].
  rewrite Hsc, Hu. split.
  - destruct Hpass as [[Hh _]|H9]; [by apply Hhigh|lra].
  - unfold Js.geb.
    change (Qle_bool 9 (StruggleProfile.struggleScore p))
      with (Js.leb 9 (StruggleProfile.struggleScore p)).
    destruct (Js.leb 9 (StruggleProfile.struggleScore p)) eqn:E;
      [apply leb_le in E|apply leb_gt in E]; split; intros; try done; lra.
Qed.

End Pipeline.

(** ** The care network *)

Section CareNetwork.

Import TutorAlertsRoute.

Lemma existsb_eqb_In (t : nat) (l : list nat) :
  existsb (Nat.eqb t) l = true <-> In t l.
Proof.
  rewrite existsb_exists. split.
  - intros (x & Hin & Hx). apply Nat.eqb_eq in Hx. by subst.
  - intros Hin. exists t. split; [exact Hin|apply Nat.eqb_refl].
Qed.

Lemma addToSet_spec (t : nat) (l : list nat) :
  In t (addToSet t l)
  /\ (forall x, In x (addToSet t l) <-> x = t \/ In x l)
  /\ (In t l -> addToSet t l = l)
  /\ (~ In t l -> addToSet t l = l ++ [t])
  /\ (NoDup l -> NoDup (addToSet t l)).
Proof.
  unfold addToSet. destruct (existsb (Nat.eqb t) l) eqn:E.
  - apply existsb_eqb_In in E. repeat split; try done.
    + by right.
    + by intros [->|].
  - assert (Hnot : ~ In t l).
    { intros Hin. apply existsb_eqb_In in Hin. congruence. }
    repeat split; try done.
    + apply in_or_app. right. by left.
    + intros Hin. apply in_app_or in Hin as [Hin|[<-|[]]]; [by right|by left].
    + intros [->|Hin]; apply in_or_app; [right; by left|by left].
    + intros Hd. apply NoDup_app. split; [exact Hd|]. split.
      * intros x Hx Hx'. apply list_elem_of_In in Hx.
        apply list_elem_of_singleton in Hx'. by subst.
      * apply NoDup_singleton.
Qed.

Lemma filter_map_length_perm {A B : Type} (f : B -> bool) (g : A -> B) (l k : list A) :
  l ≡ₚ k ->
  length (List.filter f (map g l)) = length (List.filter f (map g k)).
Proof.
  induction 1 as [|x l k _ IH|x y l|l k m _ IH1 _ IH2]; simpl.
  - reflexivity.
  - destruct (f (g x)); simpl; by rewrite IH.
  - by destruct (f (g x)), (f (g y)).
  - by rewrite IH1.
Qed.

(** The networks that list a tutor, counted on a map with one entry set. *)
Lemma find_by_tutor_insert (t s : nat) (doc : TutorCareNetwork.t) (w : World) :
  length (TutorCareNetwork_find_by_tutor t
            (set_networks (<[s := doc]> (careNetworks w)) w))
  = ((if existsb (Nat.eqb t) (TutorCareNetwork.tutorIds doc) then 1 else 0)
     + length (List.filter
                 (fun n => existsb (Nat.eqb t) (TutorCareNetwork.tutorIds n))
                 (map snd (map_to_list (delete s (careNetworks w))))))%nat.
Proof.
  unfold TutorCareNetwork_find_by_tutor. cbn [careNetworks set_networks].
  rewrite <- insert_delete_eq.
  rewrite (filter_map_length_perm _ snd _ _
             (map_to_list_insert (delete s (careNetworks w)) s doc
                (lookup_delete_eq _ _))).
  cbn [map snd List.filter].
  by destruct (existsb (Nat.eqb t) (TutorCareNetwork.tutorIds doc)).
Qed.

Lemma find_by_tutor_stored (t s : nat) (prev : TutorCareNetwork.t) (w : World) :
  careNetworks w !! s = Some prev ->
  length (TutorCareNetwork_find_by_tutor t w)
  = ((if existsb (Nat.eqb t) (TutorCareNetwork.tutorIds prev) then 1 else 0)
     + length (List.filter
                 (fun n => existsb (Nat.eqb t) (TutorCareNetwork.tutorIds n))
                 (map snd (map_to_list (delete s (careNetworks w))))))%nat.
Proof.
  intros Hs. unfold TutorCareNetwork_find_by_tutor.
  rewrite <- (insert_delete_id _ _ _ Hs) at 1.
  rewrite (filter_map_length_perm _ snd _ _
             (map_to_list_insert (delete s (careNetworks w)) s prev
                (lookup_delete_eq _ _))).
  cbn [map snd List.filter].
  by destruct (existsb (Nat.eqb t) (TutorCareNetwork.tutorIds prev)).
Qed.

Lemma find_by_tutor_absent (t s : nat) (w : World) :
  careNetworks w !! s = None ->
  length (TutorCareNetwork_find_by_tutor t w)
  = length (List.filter
              (fun n => existsb (Nat.eqb t) (TutorCareNetwork.tutorIds n))
              (map snd (map_to_list (delete s (careNetworks w))))).
Proof.
  intros Hs. unfold TutorCareNetwork_find_by_tutor. by rewrite delete_id.
Qed.

(** X25: linking a tutor to a student stores one network document for
    the student.  The tutor is listed in it; the tutors listed before keep
    their places and nobody else is added; a tutor already listed is not
    listed twice; a missing document is created with the tutor alone; the
    interaction date is the time of the call; the networks of other
    students and the other collections are untouched. *)
Theorem linkTutorToStudent_effect (studentId tutorId : nat) (w : World) :
  exists doc w',
    TutorCareNetwork_linkTutorToStudent studentId tutorId w = (doc, w')
    /\ careNetworks w' !! studentId = Some doc
    /\ In tutorId (TutorCareNetwork.tutorIds doc)
    /\ TutorCareNetwork.lastInteractionAt doc = Some (clock w (tick w))
    /\ match careNetworks w !! studentId with
       | Some prev =>
           TutorCareNetwork.studentId doc = TutorCareNetwork.studentId prev
           /\ (forall x, In x (TutorCareNetwork.tutorIds doc)
                         <-> x = tutorId \/ In x (TutorCareNetwork.tutorIds prev))
           /\ (In tutorId (TutorCareNetwork.tutorIds prev) ->
               TutorCareNetwork.tutorIds doc = TutorCareNetwork.tutorIds prev)
           /\ (~ In tutorId (TutorCareNetwork.tutorIds prev) ->
               TutorCareNetwork.tutorIds doc
               = TutorCareNetwork.tutorIds prev ++ [tutorId])
           /\ (NoDup (TutorCareNetwork.tutorIds prev) ->
               NoDup (TutorCareNetwork.tutorIds doc))
       | None =>
           TutorCareNetwork.studentId doc = studentId
           /\ TutorCareNetwork.tutorIds doc = [tutorId]
       end
    /\ (forall s, s <> studentId -> careNetworks w' !! s = careNetworks w !! s)
    /\ only_networks_change w w'.
Proof.
  unfold TutorCareNetwork_linkTutorToStudent, Date_now.
  cbn [careNetworks set_tick].
  eexists _, _. split; [reflexivity|].
  split; [cbn [careNetworks set_networks]; apply lookup_insert_eq|].
  destruct (careNetworks w !! studentId) as [prev|] eqn:Hprev;
    cbn [TutorCareNetwork.tutorIds TutorCareNetwork.studentId
         TutorCareNetwork.lastInteractionAt].
  - destruct (addToSet_spec tutorId (TutorCareNetwork.tutorIds prev))
      as (Hin & Hall & Hsame & Hnew & Hdup).
    split; [exact Hin|]. split; [reflexivity|].
    split; [exact (conj eq_refl (conj Hall (conj Hsame (conj Hnew Hdup))))|].
    split; [intros s Hs; cbn [careNetworks set_networks]; by rewrite lookup_insert_ne|].
    by repeat split.
  - split; [by left|]. split; [reflexivity|]. split; [done|].
    split; [intros s Hs; cbn [careNetworks set_networks]; by rewrite lookup_insert_ne|].
    by repeat split.
Qed.

(** X26: the dashboard figures after a link.  Linking a tutor to a
    student raises the tutor's [studentsHelped] by one, and the impact
    score by ten, when the student's network did not list the tutor yet;
    when it did, the figures stay as they were.  [alertsResponded] never
    changes. *)
Theorem link_then_stats (studentId tutorId : nat) (w : World) :
  let w' := snd (TutorCareNetwork_linkTutorToStudent studentId tutorId w) in
  let listed :=
    match careNetworks w !! studentId with
    | Some prev => existsb (Nat.eqb tutorId) (TutorCareNetwork.tutorIds prev)
    | None => false
    end in
  alertsResponded (get_stats tutorId w') = alertsResponded (get_stats tutorId w)
  /\ (listed = true -> get_stats tutorId w' = get_stats tutorId w)
  /\ (listed = false ->
      studentsHelped (get_stats tutorId w') = S (studentsHelped (get_stats tutorId w))
      /\ impactScore (get_stats tutorId w') = (impactScore (get_stats tutorId w) + 10)%nat).
Proof.
  cbv zeta.
  unfold TutorCareNetwork_linkTutorToStudent, Date_now.
  cbn [careNetworks set_tick snd].
  unfold get_stats. cbn [alertsResponded studentsHelped impactScore].
  set (doc := match careNetworks w !! studentId with
              | Some network => _
              | None => _
              end).
  assert (Hcount : forall b n,
             TutorAlert_count tutorId b
               (set_networks n (set_tick (S (tick w)) w))
             = TutorAlert_count tutorId b w) by reflexivity.
  rewrite Hcount.
  pose proof (find_by_tutor_insert tutorId studentId doc (set_tick (S (tick w)) w)) as Hafter.
  cbn [careNetworks set_tick] in Hafter.
  assert (Hdoc : existsb (Nat.eqb tutorId) (TutorCareNetwork.tutorIds doc) = true).
  { apply existsb_eqb_In. unfold doc.
    destruct (careNetworks w !! studentId);
      cbn [TutorCareNetwork.tutorIds]; exact (proj1 (addToSet_spec _ _)). }
  rewrite Hdoc in Hafter.
  split; [reflexivity|].
  destruct (careNetworks w !! studentId) as [prev|] eqn:Hprev.
  - pose proof (find_by_tutor_stored tutorId studentId prev w Hprev) as Hbefore.
    split.
    + intros Hl. rewrite Hl in Hbefore. by rewrite Hafter, Hbefore.
    + intros Hl. rewrite Hl in Hbefore. rewrite Hafter, Hbefore. split; lia.
  - pose proof (find_by_tutor_absent tutorId studentId w Hprev) as Hbefore.
    split; [done|]. intros _. rewrite Hafter, Hbefore. split; lia.
Qed.

End CareNetwork.

(** ** The tutor dashboard *)

Section Dashboard.

Import TutorAlertService TutorAlertsRoute.

Lemma insert_sorted_perm {A} (le : A -> A -> bool) (x : A) (l : list A) :
  Js.insert_sorted le x l ≡ₚ x :: l.
Proof.
  induction l as [|y l IH]; simpl; [done|].
  destruct (le x y); [done|]. rewrite IH. apply Permutation_swap.
Qed.

Lemma sort_perm {A} (le : A -> A -> bool) (l : list A) : Js.sort le l ≡ₚ l.
Proof.
  unfold Js.sort. induction l as [|x l IH]; simpl; [done|].
  by rewrite insert_sorted_perm, IH.
Qed.

Lemma newest_first_nil {A} (key : A -> Z) : newest_first key [].
Proof. intros i j x y _ Hi. by rewrite lookup_nil in Hi. Qed.

Lemma newest_first_cons {A} (key : A -> Z) (x : A) (l : list A) :
  newest_first key (x :: l)
  <-> (forall y, y ∈ l -> (key y <= key x)%Z) /\ newest_first key l.
Proof.
  split.
  - intros H. split.
    + intros y Hy. apply list_elem_of_lookup in Hy as [j Hj].
      apply (H 0%nat (S j) x y); [lia|done|done].
    + intros i j a b Hij Ha Hb. apply (H (S i) (S j) a b); [lia|done|done].
  - intros [Hhead Htail] i j a b Hij Ha Hb.
    destruct j as [|j]; [lia|]. simpl in Hb.
    destruct i as [|i]; simpl in Ha.
    + injection Ha as <-. apply Hhead. by eapply list_elem_of_lookup_2.
    + apply (Htail i j a b); [lia|done|done].
Qed.

Lemma newest_first_app {A} (key : A -> Z) (l k : list A) :
  newest_first key (l ++ k) ->
  newest_first key l
  /\ forall x y, x ∈ l -> y ∈ k -> (key y <= key x)%Z.
Proof.
  intros H. split.
  - intros i j x y Hij Hx Hy. apply (H i j x y Hij).
    + by apply lookup_app_l_Some.
    + by apply lookup_app_l_Some.
  - intros x y Hx Hy.
    apply list_elem_of_lookup in Hx as [i Hi], Hy as [j Hj].
    pose proof (lookup_lt_Some _ _ _ Hi) as Hlen.
    apply (H i (length l + j)%nat x y); [lia|by apply lookup_app_l_Some|].
    rewrite lookup_app_r by lia. by replace (length l + j - length l)%nat with j by lia.
Qed.

Lemma newest_first_map {A B} (f : A -> B) (key : B -> Z) (l : list A) :
  newest_first (fun a => key (f a)) l -> newest_first key (map f l).
Proof.
  intros H i j x y Hij Hx Hy.
  change (map f l) with (f <$> l) in Hx, Hy.
  apply list_lookup_fmap_Some in Hx as (a & -> & Ha), Hy as (b & -> & Hb).
  by apply (H i j a b).
Qed.

Lemma insert_sorted_newest {A} (key : A -> Z) (x : A) (l : list A) :
  newest_first key l ->
  newest_first key (Js.insert_sorted (fun a b => (key b <=? key a)%Z) x l).
Proof.
  induction l as [|y l IH]; intros Hl; simpl.
  - apply newest_first_cons. split; [by intros ? ?%elem_of_nil|apply newest_first_nil].
  - apply newest_first_cons in Hl as Hl'. destruct Hl' as [Hhead Htail].
    destruct (key y <=? key x)%Z eqn:E.
    + apply Z.leb_le in E. apply newest_first_cons. split; [|exact Hl].
      intros z Hz. apply elem_of_cons in Hz as [->|Hz]; [exact E|].
      specialize (Hhead z Hz). lia.
    + apply Z.leb_gt in E. apply newest_first_cons. split; [|by apply IH].
      intros z Hz. rewrite insert_sorted_perm in Hz.
      apply elem_of_cons in Hz as [->|Hz]; [lia|by apply Hhead].
Qed.

Lemma sort_newest {A} (key : A -> Z) (l : list A) :
  newest_first key (Js.sort (fun a b => (key b <=? key a)%Z) l).
Proof.
  unfold Js.sort. induction l as [|x l IH]; simpl.
  - apply newest_first_nil.
  - by apply insert_sorted_newest.
Qed.

(** The unread alerts of a tutor, newest first, cut at the limit. *)
Lemma getAlertsForTutor_unfold (users : gmap nat User.profile) (tutorId limit : nat)
    (w : World) :
  map fst (getAlertsForTutor users tutorId limit w)
  = limit_docs limit
      (Js.sort (fun a b => (TutorAlert.createdAt b <=? TutorAlert.createdAt a)%Z)
         (unread_of tutorId w)).
Proof.
  unfold getAlertsForTutor. rewrite map_map. cbn [fst]. apply map_id.
Qed.

Lemma unread_of_spec (tutorId : nat) (w : World) (a : TutorAlert.t) :
  a ∈ unread_of tutorId w
  <-> a ∈ tutorAlerts w /\ TutorAlert.tutorId a = tutorId /\ TutorAlert.isRead a = false.
Proof.
  unfold unread_of. rewrite !list_elem_of_In, filter_In, andb_true_iff, Nat.eqb_eq,
    negb_true_iff. tauto.
Qed.

(** X27: the alert list of a tutor.  [getAlertsForTutor] returns unread
    alerts of that tutor only, each with the student looked up, ordered
    newest first; with a limit it returns that many, or all when there are
    fewer, and none of the alerts left out is newer than one returned. *)
Theorem getAlertsForTutor_listing (users : gmap nat User.profile) (tutorId limit : nat)
    (w : World) :
  let listed := map fst (getAlertsForTutor users tutorId limit w) in
  length listed
  = (if (limit =? 0)%nat then getUnreadCount tutorId w
     else Nat.min limit (getUnreadCount tutorId w))
  /\ newest_first TutorAlert.createdAt listed
  /\ (exists rest,
        listed ++ rest ≡ₚ unread_of tutorId w
        /\ forall x y, x ∈ listed -> y ∈ rest ->
                       (TutorAlert.createdAt y <= TutorAlert.createdAt x)%Z)
  /\ Forall (fun e =>
               fst e ∈ tutorAlerts w
               /\ TutorAlert.tutorId (fst e) = tutorId
               /\ TutorAlert.isRead (fst e) = false
               /\ snd e = users !! TutorAlert.studentId (fst e))
       (getAlertsForTutor users tutorId limit w).
Proof.
  cbv zeta. rewrite getAlertsForTutor_unfold.
  set (sorted := Js.sort _ (unread_of tutorId w)).
  assert (Hperm : sorted ≡ₚ unread_of tutorId w) by apply sort_perm.
  assert (Hsorted : newest_first TutorAlert.createdAt sorted) by apply sort_newest.
  assert (Hlen : length sorted = getUnreadCount tutorId w).
  { rewrite Hperm. reflexivity. }
  assert (Hsplit : exists rest, limit_docs limit sorted ++ rest = sorted).
  { unfold limit_docs. destruct (limit =? 0)%nat.
    - exists []. apply app_nil_r.
    - exists (drop limit sorted). apply take_drop. }
  destruct Hsplit as [rest Hsplit].
  split; [|split; [|split]].
  - unfold limit_docs. destruct (limit =? 0)%nat; [exact Hlen|].
    rewrite length_take. lia.
  - rewrite <- Hsplit in Hsorted. by apply newest_first_app in Hsorted as [? _].
  - exists rest. split; [by rewrite Hsplit|].
    rewrite <- Hsplit in Hsorted. by apply newest_first_app in Hsorted as [_ ?].
  - unfold getAlertsForTutor. fold (unread_of tutorId w). fold sorted.
    apply Forall_forall. intros e He.
    change (map ?f ?l) with (f <$> l) in He.
    apply list_elem_of_fmap in He as (a & -> & Ha). cbn [fst snd].
    assert (Hin : a ∈ unread_of tutorId w).
    { rewrite <- Hperm, <- Hsplit. apply elem_of_app. by left. }
    apply unread_of_spec in Hin as (? & ? & ?). by repeat split.
Qed.

(** *** Names *)

Lemma trimStart_head (s : string) :
  Js.trimStart s = EmptyString
  \/ exists c rest, Js.trimStart s = String c rest /\ Js.is_space c = false.
Proof.
  induction s as [|c s IH]; simpl; [by left|].
  destruct (Js.is_space c) eqn:E; [exact IH|]. right. by exists c, s.
Qed.

Lemma trimStart_fixed (c : ascii) (s : string) :
  Js.is_space c = false -> Js.trimStart (String c s) = String c s.
Proof. intros E. simpl. by rewrite E. Qed.

Lemma trimEnd_head (c : ascii) (s : string) :
  Js.is_space c = false -> exists rest, Js.trimEnd (String c s) = String c rest.
Proof.
  intros E. simpl. destruct (Js.trimEnd s); rewrite ?E; by eexists.
Qed.

Lemma trimEnd_idem (s : string) : Js.trimEnd (Js.trimEnd s) = Js.trimEnd s.
Proof.
  induction s as [|c s IH]; [done|]. simpl.
  destruct (Js.trimEnd s) as [|d rest] eqn:E.
  - destruct (Js.is_space c) eqn:Ec; [done|]. simpl. by rewrite Ec.
  - change (Js.trimEnd (String c (String d rest)))
      with (match Js.trimEnd (String d rest) with
            | EmptyString => if Js.is_space c then EmptyString else String c EmptyString
            | rest' => String c rest'
            end).
    by rewrite IH.
Qed.

(** A trimmed string has no white space left to trim. *)
Lemma trim_idem (s : string) : Js.trim (Js.trim s) = Js.trim s.
Proof.
  unfold Js.trim. destruct (trimStart_head s) as [->|(c & rest & -> & Hc)]; [done|].
  destruct (trimEnd_head c rest Hc) as [rest' E]. rewrite E.
  rewrite (trimStart_fixed c rest' Hc), <- E. apply trimEnd_idem.
Qed.

Lemma trimEnd_space (s : string) : Js.trimEnd (s ++ " ") = Js.trimEnd s.
Proof.
  induction s as [|c s IH]; [done|].
  change (String c s ++ " ")%string with (String c (s ++ " ")). simpl. by rewrite IH.
Qed.

Lemma trim_fixed_head (s : string) :
  Js.trim s = s -> s <> EmptyString ->
  exists c rest, s = String c rest /\ Js.is_space c = false.
Proof.
  intros Hfix Hne. unfold Js.trim in Hfix.
  destruct (trimStart_head s) as [E|(c & rest & E & Hc)].
  - rewrite E in Hfix. simpl in Hfix. by subst.
  - rewrite E in Hfix. destruct (trimEnd_head c rest Hc) as [rest' E'].
    rewrite E' in Hfix. exists c, rest'. by split.
Qed.

Lemma studentName_not_empty (u : option User.profile) : studentName_of u <> EmptyString.
Proof.
  unfold studentName_of.
  destruct (field_of User.displayName u) as [| |d]; simpl.
  - destruct (Js.trim _); by simpl.
  - destruct (Js.trim _); by simpl.
  - destruct (String.eqb d "") eqn:E; simpl.
    + destruct (Js.trim _); by simpl.
    + by apply String.eqb_neq in E.
Qed.

(** X28: the name shown for a student.  It is never empty.  A non-empty
    display name is shown as it is.  Without one, the name is built from
    the first and last names and carries no white space at either end: a
    first name alone is shown without the separator, and when nothing but
    white space is left, or the student no longer exists, the name is
    'A learner'. *)
Theorem studentName_rules (u : option User.profile) :
  studentName_of u <> EmptyString
  /\ (forall d, field_of User.displayName u = Js.Str d -> d <> EmptyString ->
                studentName_of u = d)
  /\ (Js.truthy (field_of User.displayName u) = false ->
      Js.trim (studentName_of u) = studentName_of u
      /\ (Js.trim (Js.or_default (field_of User.firstName u) ""
                   ++ " " ++ Js.or_default (field_of User.lastName u) "") = EmptyString ->
          studentName_of u = "A learner")
      /\ (forall f, field_of User.firstName u = Js.Str f ->
                    Js.truthy (field_of User.lastName u) = false ->
                    f <> EmptyString -> Js.trim f = f ->
                    studentName_of u = f))
  /\ (u = None -> studentName_of u = "A learner").
Proof.
  split; [apply studentName_not_empty|].
  unfold studentName_of.
  split; [|split].
  - intros d -> Hd. simpl. apply String.eqb_neq in Hd. by rewrite Hd.
  - intros ->.
    set (full := (Js.or_default (field_of User.firstName u) ""
                  ++ " " ++ Js.or_default (field_of User.lastName u) "")%string).
    split; [|split].
    + cbn [Js.truthy Js.or_default]. destruct (String.eqb (Js.trim full) "") eqn:E.
      * reflexivity.
      * apply trim_idem.
    + intros ->. reflexivity.
    + intros f Hf Hl Hne Hfix. unfold full. rewrite Hf.
      assert (Hlast : Js.or_default (field_of User.lastName u) "" = EmptyString).
      { destruct (field_of User.lastName u) as [| |l]; [done|done|].
        simpl in *. by destruct (String.eqb l ""). }
      rewrite Hlast.
      assert (Hfirst : Js.or_default (Js.Str f) "" = f).
      { simpl. apply String.eqb_neq in Hne. by rewrite Hne. }
      rewrite Hfirst.
      destruct (trim_fixed_head f Hfix Hne) as (c & rest & -> & Hc).
      assert (Htrim : Js.trim (String c rest ++ " " ++ "") = String c rest).
      { unfold Js.trim in *.
        change (String c rest ++ " " ++ "")%string with (String c (rest ++ " ")).
        rewrite (trimStart_fixed c _ Hc). rewrite (trimStart_fixed c _ Hc) in Hfix.
        change (String c (rest ++ " ")) with (String c rest ++ " ")%string.
        by rewrite trimEnd_space. }
      rewrite Htrim. simpl. reflexivity.
  - intros ->. reflexivity.
Qed.

(** *** The responses *)

Lemma format_alert_fields (e : TutorAlert.t * option User.profile) :
  id (format_alert e) = TutorAlert._id (fst e)
  /\ studentName (format_alert e) = studentName_of (snd e)
  /\ topic (format_alert e) = TutorAlert.topic (fst e)
  /\ urgency (format_alert e) = TutorAlert.urgency (fst e)
  /\ message (format_alert e) = TutorAlert.reasonSummary (fst e)
  /\ createdAt (format_alert e) = TutorAlert.createdAt (fst e)
  /\ isRead (format_alert e) = TutorAlert.isRead (fst e).
Proof. by destruct e. Qed.

(** X29: the response of [GET /alerts].  It lists at most twenty alerts,
    all of them when the tutor has no more than twenty unread ones, newest
    first; every entry is unread, shows a non-empty student name, and
    copies the id, topic, urgency and reason of an unread alert of the
    tutor; the list is empty exactly when [unreadCount] is zero. *)
Theorem get_alerts_response (users : gmap nat User.profile) (userId : nat) (w : World) :
  let alerts := fst (get_alerts users userId w) in
  let unreadCount := snd (get_alerts users userId w) in
  length alerts = Nat.min 20 unreadCount
  /\ (alerts = [] <-> unreadCount = 0%nat)
  /\ newest_first createdAt alerts
  /\ Forall (fun f =>
               isRead f = false
               /\ studentName f <> EmptyString
               /\ exists a,
                    a ∈ tutorAlerts w
                    /\ TutorAlert.tutorId a = userId
                    /\ TutorAlert.isRead a = false
                    /\ id f = TutorAlert._id a
                    /\ topic f = TutorAlert.topic a
                    /\ urgency f = TutorAlert.urgency a
                    /\ message f = TutorAlert.reasonSummary a
                    /\ createdAt f = TutorAlert.createdAt a
                    /\ studentName f
                       = studentName_of (users !! TutorAlert.studentId a))
       alerts.
Proof.
  cbv zeta. unfold get_alerts. cbn [fst snd].
  set (entries := getAlertsForTutor users userId 20 w).
  assert (Hlen : length entries = Nat.min 20 (getUnreadCount userId w)).
  { rewrite <- (length_map fst). unfold entries. rewrite getAlertsForTutor_unfold.
    unfold limit_docs. cbn [Nat.eqb]. rewrite length_take.
    rewrite (Permutation_length (sort_perm _ _)). reflexivity. }
  assert (Hsorted : newest_first TutorAlert.createdAt (map fst entries)).
  { unfold entries. rewrite getAlertsForTutor_unfold. unfold limit_docs. cbn [Nat.eqb].
    pose proof (sort_newest TutorAlert.createdAt (unread_of userId w)) as Hs.
    rewrite <- (take_drop 20 (Js.sort _ _)) in Hs.
    by apply newest_first_app in Hs as [? _]. }
  split; [by rewrite length_map|]. split; [|split].
  - split.
    + intros Hnil. apply (f_equal length) in Hnil. rewrite length_map, Hlen in Hnil.
      cbn [length] in Hnil. lia.
    + intros H0. apply length_zero_iff_nil. rewrite length_map, Hlen, H0. lia.
  - apply newest_first_map.
    intros i j x y Hij Hx Hy.
    destruct (format_alert_fields x) as (_ & _ & _ & _ & _ & -> & _).
    destruct (format_alert_fields y) as (_ & _ & _ & _ & _ & -> & _).
    apply (Hsorted i j (fst x) (fst y) Hij).
    + change (map fst entries) with (fst <$> entries). by rewrite list_lookup_fmap, Hx.
    + change (map fst entries) with (fst <$> entries). by rewrite list_lookup_fmap, Hy.
  - apply Forall_forall. intros f Hf.
    change (map ?g ?l) with (g <$> l) in Hf.
    apply list_elem_of_fmap in Hf as (e & -> & He).
    unfold entries, getAlertsForTutor in He.
    change (map ?g ?l) with (g <$> l) in He.
    apply list_elem_of_fmap in He as (a & -> & Ha).
    assert (Hin : a ∈ unread_of userId w).
    { fold (unread_of userId w) in Ha. unfold limit_docs in Ha. cbn [Nat.eqb] in Ha.
      apply elem_of_take in Ha as (i & Hi & _).
      rewrite <- (sort_perm (fun a b => (TutorAlert.createdAt b <=? TutorAlert.createdAt a)%Z)).
      by eapply list_elem_of_lookup_2. }
    apply unread_of_spec in Hin as (Hmem & Ht & Hr).
    cbn [format_alert isRead studentName id topic urgency message createdAt].
    split; [exact Hr|]. split; [apply studentName_not_empty|].
    exists a. by repeat split.
Qed.


End Dashboard.
